(** * arkane/reference.py: reference species for isodesmic reactions

    A shallow embedding of [ReferenceSpecies], [ReferenceDataEntry],
    [CalculatedDataEntry] and [ReferenceDatabase] and the properties of
    them that the specification states.

    The module is Python 2 code ([from __future__ import ...], indexing of
    [dict.keys()]): [keys()] and [values()] are lists in the dictionary's
    iteration order, and [str] is the byte-string type.  A dictionary is
    embedded as an association list in iteration order. *)

From Stdlib Require Import ZArith List String Ascii Bool Lia.
From Stdlib Require Import Floats DecimalString.
From stdpp Require Import base option strings gmap list.

Local Open Scope string_scope.

(** ** Exceptions and the error monad *)

Inductive exn : Type :=
| ValueError (msg : string)
| KeyError (key : string)
| AttributeError (attr : string)
| IndexError (msg : string)
| OSError (path : string).

Inductive result (A : Type) : Type :=
| OK (a : A)
| Raise (e : exn).

Arguments OK {A} a.
Arguments Raise {A} e.

Definition bind {A B : Type} (m : result A) (k : A -> result B) : result B :=
  match m with
  | OK a => k a
  | Raise e => Raise e
  end.

Notation "'do' x <- m ; k" := (bind m (fun x => k))
  (at level 10, x name, m at level 100, k at level 200).

Definition returns {A : Type} (m : result A) : Prop := exists a, m = OK a.

(** An attribute slot of a Python object: [Unassigned] until the first
    assignment, and reading an unassigned slot raises [AttributeError]. *)
Inductive attr (A : Type) : Type :=
| Unassigned
| Assigned (a : A).

Arguments Unassigned {A}.
Arguments Assigned {A} a.

Definition getattr {A : Type} (name : string) (slot : attr A) : result A :=
  match slot with
  | Assigned a => OK a
  | Unassigned => Raise (AttributeError name)
  end.

(** ** The collaborators' records (rmgpy.quantity, rmgpy.thermo,
    rmgpy.statmech): the attributes that reference.py reads. *)

(** [ScalarQuantity.__reduce__()[1]]: the constructor arguments. *)
Record QuantityArgs : Type := mkQuantityArgs {
  qa_value : float;
  qa_units : string;
  qa_uncertainty_type : string;
  qa_uncertainty : float
}.

Record ScalarQuantity : Type := mkScalarQuantity {
  value_si : float;
  uncertainty_si : float;
  reduce_args : QuantityArgs
}.

Record ThermoData : Type := mkThermoData {
  H298 : ScalarQuantity
}.

(** [number.value_si] and [coordinates.value_si]: arrays of doubles, the
    coordinates one row per atom. *)
Record Conformer : Type := mkConformer {
  number_si : list float;
  coordinates_si : list (list float)
}.

(** ** ReferenceDataEntry and CalculatedDataEntry: the stored state *)

Record ReferenceDataEntry : Type := mkReferenceDataEntry {
  rde_thermo_data : attr (option ThermoData);
  rde_atct_id : attr (option string)
}.

Record CalculatedDataEntry : Type := mkCalculatedDataEntry {
  cde_conformer : attr (option Conformer);
  cde_thermo_data : attr (option ThermoData);
  cde_t1_diagnostic : attr (option float);
  cde_fod : attr (option float)
}.

(** ** Python values, as far as the validated setters tell them apart

    [PyObject] stands for an instance of any other class, one that defines
    neither [__len__] nor [__nonzero__]. *)

Local Set Warnings "-register-all".

Inductive PyVal : Type :=
| PyNone
| PyBool (b : bool)
| PyInt (z : Z)
| PyFloat (x : float)
| PyStr (s : string)
| PyList (l : list PyVal)
| PyTuple (l : list PyVal)
| PyDict (items : list (PyVal * PyVal))
| PyThermoData (t : ThermoData)
| PyConformer (c : Conformer)
| PyReferenceDataEntry (e : ReferenceDataEntry)
| PyCalculatedDataEntry (e : CalculatedDataEntry)
| PyObject (class_name : string).

(** [bool(value)]: what [if value:] and [if not value:] test. *)
Definition truthy (value : PyVal) : bool :=
  match value with
  | PyNone => false
  | PyBool b => b
  | PyInt z => negb (Z.eqb z 0)
  | PyFloat x => negb (PrimFloat.eqb x 0%float)
  | PyStr s => negb (String.eqb s EmptyString)
  | PyList l | PyTuple l => negb (Nat.eqb (List.length l) 0)
  | PyDict items => negb (Nat.eqb (List.length items) 0)
  | PyThermoData _ | PyConformer _ => true
  | PyReferenceDataEntry _ | PyCalculatedDataEntry _ => true
  | PyObject _ => true
  end.

Definition is_dict (value : PyVal) : bool :=
  match value with PyDict _ => true | _ => false end.

Definition is_str (value : PyVal) : bool :=
  match value with PyStr _ => true | _ => false end.

Definition is_Conformer (value : PyVal) : bool :=
  match value with PyConformer _ => true | _ => false end.

Definition is_ReferenceDataEntry (value : PyVal) : bool :=
  match value with PyReferenceDataEntry _ => true | _ => false end.

Definition is_CalculatedDataEntry (value : PyVal) : bool :=
  match value with PyCalculatedDataEntry _ => true | _ => false end.

(** ** ReferenceDataEntry *)

Module ReferenceDataEntry.

Definition blank : ReferenceDataEntry :=
  {| rde_thermo_data := Unassigned; rde_atct_id := Unassigned |}.

Definition set_thermo_data (value : PyVal) (self : ReferenceDataEntry)
  : result ReferenceDataEntry :=
  if truthy value then
    match value with
    | PyThermoData t =>
        OK {| rde_thermo_data := Assigned (Some t); rde_atct_id := rde_atct_id self |}
    | _ => Raise (ValueError
        "thermo_data for a ReferenceDataEntry object must be an rmgpy ThermoData instance")
    end
  else
    OK {| rde_thermo_data := Assigned None; rde_atct_id := rde_atct_id self |}.

Definition thermo_data (self : ReferenceDataEntry) : result (option ThermoData) :=
  getattr "_thermo_data" (rde_thermo_data self).

Definition init (thermo_data : PyVal) (atct_id : option string)
  : result ReferenceDataEntry :=
  do self <- set_thermo_data thermo_data blank ;
  OK {| rde_thermo_data := rde_thermo_data self; rde_atct_id := Assigned atct_id |}.

End ReferenceDataEntry.

(** ** CalculatedDataEntry *)

Module CalculatedDataEntry.

Definition blank : CalculatedDataEntry :=
  {| cde_conformer := Unassigned; cde_thermo_data := Unassigned;
     cde_t1_diagnostic := Unassigned; cde_fod := Unassigned |}.

Definition set_conformer (value : PyVal) (self : CalculatedDataEntry)
  : result CalculatedDataEntry :=
  if truthy value then
    match value with
    | PyConformer c =>
        OK {| cde_conformer := Assigned (Some c);
              cde_thermo_data := cde_thermo_data self;
              cde_t1_diagnostic := cde_t1_diagnostic self;
              cde_fod := cde_fod self |}
    | _ => Raise (ValueError
        "conformer for a CalculatedDataEntry object must be an rmgpy Conformer instance")
    end
  else
    OK {| cde_conformer := Assigned None;
          cde_thermo_data := cde_thermo_data self;
          cde_t1_diagnostic := cde_t1_diagnostic self;
          cde_fod := cde_fod self |}.

(** The setter has no [else] branch: a falsy value assigns nothing. *)
Definition set_thermo_data (value : PyVal) (self : CalculatedDataEntry)
  : result CalculatedDataEntry :=
  if truthy value then
    match value with
    | PyThermoData t =>
        OK {| cde_conformer := cde_conformer self;
              cde_thermo_data := Assigned (Some t);
              cde_t1_diagnostic := cde_t1_diagnostic self;
              cde_fod := cde_fod self |}
    | _ => Raise (ValueError
        "thermo_data for a CalculatedDataEntry object must be an rmgpy ThermoData object")
    end
  else OK self.

Definition conformer (self : CalculatedDataEntry) : result (option Conformer) :=
  getattr "_conformer" (cde_conformer self).

Definition thermo_data (self : CalculatedDataEntry) : result (option ThermoData) :=
  getattr "_thermo_data" (cde_thermo_data self).

Definition init (conformer thermo_data : PyVal) (t1_diagnostic fod : option float)
  : result CalculatedDataEntry :=
  do self <- set_conformer conformer blank ;
  do self <- set_thermo_data thermo_data self ;
  OK {| cde_conformer := cde_conformer self;
        cde_thermo_data := cde_thermo_data self;
        cde_t1_diagnostic := Assigned t1_diagnostic;
        cde_fod := Assigned fod |}.

End CalculatedDataEntry.

(** ** The collaborators of ReferenceSpecies

    [rmgpy.species.Species], [rmgpy.molecule.Molecule], the parent class
    [arkane.common.ArkaneSpecies] are outside reference.py: they are the
    fields of a class, and everything below is stated for every instance
    of it. *)

(** What [ArkaneSpecies.__init__] leaves on the object, as far as
    reference.py reads it. *)
Record ArkaneSpecies : Type := mkArkaneSpecies {
  smiles : string;
  adjacency_list : string;
  label : option string;
  symmetry_number : option Z
}.

Definition kwargs_t : Type := list (string * PyVal).

Class Collaborators : Type := {
  Species : Type;
  Molecule : Type;
  Species_SMILES : string -> result Species;
  Species_InChI : string -> result Species;
  Species_fromAdjacencyList : string -> result Species;
  ArkaneSpecies_init : Species -> option string -> kwargs_t -> result ArkaneSpecies;
  Molecule_fromAdjacencyList : string -> result Molecule;
  isIsomorphic : Molecule -> Molecule -> bool
}.

(** What [to_error_canceling_spcs] calls in rmgpy.molecule and
    arkane.isodesmic: [Molecule(SMILES=...)] and the constructor
    [ErrorCancelingSpecies(molecule, low_level_hf298, model_chemistry,
    high_level_hf298=..., source=...)]. *)
Class Isodesmic `{Collaborators} : Type := {
  Molecule_SMILES : string -> result Molecule;
  ErrorCancelingSpecies : Type;
  ErrorCancelingSpecies_init :
    Molecule -> QuantityArgs -> string -> QuantityArgs -> string ->
    result ErrorCancelingSpecies
}.

(** The attributes of an [ArkaneSpecies] of a finished job that
    [update_from_arkane_spcs] reads. *)
Record arkane_job : Type := mkArkaneJob {
  job_conformer : PyVal;
  job_thermo_data : PyVal;
  job_level_of_theory : string
}.

(** ** ReferenceSpecies *)

Definition reference_data_t : Type := list (string * ReferenceDataEntry).
Definition calculated_data_t : Type := list (string * CalculatedDataEntry).

Record ReferenceSpecies : Type := mkReferenceSpecies {
  arkane : ArkaneSpecies;
  _reference_data : attr reference_data_t;
  _calculated_data : attr calculated_data_t;
  index : option Z;
  cas_number : option string;
  preferred_reference : option string;
  default_xyz_chemistry : option string
}.

(** The items of a dictionary that passed both [all(isinstance ...)] tests. *)
Definition as_reference_data (items : list (PyVal * PyVal)) : reference_data_t :=
  omap (fun kv => match kv with
                  | (PyStr source, PyReferenceDataEntry e) => Some (source, e)
                  | _ => None
                  end) items.

Definition as_calculated_data (items : list (PyVal * PyVal)) : calculated_data_t :=
  omap (fun kv => match kv with
                  | (PyStr chem, PyCalculatedDataEntry e) => Some (chem, e)
                  | _ => None
                  end) items.

(** [d[key]] on a dictionary with string keys. *)
Fixpoint dict_get {V : Type} (d : list (string * V)) (key : string) : option V :=
  match d with
  | [] => None
  | (k, v) :: rest => if String.eqb k key then Some v else dict_get rest key
  end.

Definition getitem {V : Type} (d : list (string * V)) (key : string) : result V :=
  match dict_get d key with
  | Some v => OK v
  | None => Raise (KeyError key)
  end.

(** [d[key] = v].  An existing key keeps its place.  Where the interpreter
    puts a new key in the iteration order depends on its hash and on the
    size of the table; it is written last here, and the properties below
    speak of lookups by key and of the keys up to their order only. *)
Fixpoint dict_set {V : Type} (d : list (string * V)) (key : string) (v : V)
  : list (string * V) :=
  match d with
  | [] => [(key, v)]
  | (k, v0) :: rest =>
      if String.eqb k key then (k, v) :: rest else (k, v0) :: dict_set rest key v
  end.

(** A list comprehension whose body may raise. *)
Fixpoint map_result {A B : Type} (f : A -> result B) (l : list A) : result (list B) :=
  match l with
  | [] => OK []
  | a :: rest =>
      do b <- f a ;
      do bs <- map_result f rest ;
      OK (b :: bs)
  end.

(** The double quote character, as a string. *)
Definition dquote : string := String (Ascii.ascii_of_nat 34) EmptyString.

(** [str(n)] for an int. *)
Definition str_of_int (n : Z) : string := NilZero.string_of_int (Z.to_int n).

(** [if s:] for an optional string: the string, when it is neither None
    nor empty; [if n:] for an optional int. *)
Definition given (s : option string) : option string :=
  match s with
  | Some EmptyString | None => None
  | Some s => Some s
  end.

Definition int_given (n : option Z) : bool :=
  match n with
  | Some n => negb (Z.eqb n 0)
  | None => false
  end.

(** The arguments of [ReferenceSpecies.__init__]. *)
Record init_args `{Collaborators} : Type := mkInitArgs {
  arg_species : option Species;
  arg_smiles : option string;
  arg_adjacency_list : option string;
  arg_inchi : option string;
  arg_reference_data : PyVal;
  arg_calculated_data : PyVal;
  arg_preferred_reference : option string;
  arg_index : option Z;
  arg_label : option string;
  arg_cas_number : option string;
  arg_symmetry_number : option Z;
  arg_default_xyz_chemistry : option string;
  arg_kwargs : kwargs_t
}.

Module ReferenceSpecies.

Definition reference_data_msg : string :=
  "Reference data must be given as a dictionary of the data source (string) and associated ReferenceDataEntry object".

Definition calculated_data_msg : string :=
  "Calculated data must be given as a dictionary of the model chemistry (string) and associated CalculatedDataEntry object".

(** The [reference_data] setter, on the slot [_reference_data]. *)
Definition reference_data_setter (value : PyVal) (slot : attr reference_data_t)
  : result (attr reference_data_t) :=
  if negb (truthy value) then OK (Assigned [])
  else
    match value with
    | PyDict items =>
        if forallb is_str (map fst items) then
          if forallb is_ReferenceDataEntry (map snd items) then
            OK (Assigned (as_reference_data items))
          else OK slot
        else OK slot
    | _ => Raise (ValueError reference_data_msg)
    end.

(** The [calculated_data] setter, on the slot [_calculated_data]. *)
Definition calculated_data_setter (value : PyVal) (slot : attr calculated_data_t)
  : result (attr calculated_data_t) :=
  if negb (truthy value) then OK (Assigned [])
  else
    match value with
    | PyDict items =>
        if forallb is_str (map fst items) then
          if forallb is_CalculatedDataEntry (map snd items) then
            OK (Assigned (as_calculated_data items))
          else OK slot
        else OK slot
    | _ => Raise (ValueError calculated_data_msg)
    end.

(** [self.reference_data = value] and [self.calculated_data = value]. *)
Definition set_reference_data (value : PyVal) (self : ReferenceSpecies)
  : result ReferenceSpecies :=
  do slot <- reference_data_setter value (_reference_data self) ;
  OK {| arkane := arkane self;
        _reference_data := slot;
        _calculated_data := _calculated_data self;
        index := index self;
        cas_number := cas_number self;
        preferred_reference := preferred_reference self;
        default_xyz_chemistry := default_xyz_chemistry self |}.

Definition set_calculated_data (value : PyVal) (self : ReferenceSpecies)
  : result ReferenceSpecies :=
  do slot <- calculated_data_setter value (_calculated_data self) ;
  OK {| arkane := arkane self;
        _reference_data := _reference_data self;
        _calculated_data := slot;
        index := index self;
        cas_number := cas_number self;
        preferred_reference := preferred_reference self;
        default_xyz_chemistry := default_xyz_chemistry self |}.

Definition reference_data (self : ReferenceSpecies) : result reference_data_t :=
  getattr "_reference_data" (_reference_data self).

Definition calculated_data (self : ReferenceSpecies) : result calculated_data_t :=
  getattr "_calculated_data" (_calculated_data self).

Definition no_identity_msg : string :=
  "Either an rmgpy species object, smiles string, InChI string, or an adjacency list must be given to create a ReferenceSpecies object".

(** The first lines of [__init__]: the species that is handed to the
    parent class. *)
Definition identity `{Collaborators} (a : init_args) : result Species :=
  match arg_species a with
  | Some species => OK species
  | None =>
      match given (arg_smiles a) with
      | Some smiles => Species_SMILES smiles
      | None =>
          match given (arg_inchi a) with
          | Some inchi => Species_InChI inchi
          | None =>
              match given (arg_adjacency_list a) with
              | Some adjacency_list => Species_fromAdjacencyList adjacency_list
              | None => Raise (ValueError no_identity_msg)
              end
          end
      end
  end.

Definition init `{Collaborators} (a : init_args) : result ReferenceSpecies :=
  do species <- identity a ;
  do base <- ArkaneSpecies_init species (arg_label a) (arg_kwargs a) ;
  do rd <- reference_data_setter (arg_reference_data a) Unassigned ;
  do cd <- calculated_data_setter (arg_calculated_data a) Unassigned ;
  OK {| arkane :=
          if int_given (arg_symmetry_number a) then
            {| smiles := smiles base; adjacency_list := adjacency_list base;
               label := label base; symmetry_number := arg_symmetry_number a |}
          else base;
        _reference_data := rd;
        _calculated_data := cd;
        index := arg_index a;
        cas_number := arg_cas_number a;
        preferred_reference := arg_preferred_reference a;
        default_xyz_chemistry := arg_default_xyz_chemistry a |}.

(** [__repr__], which is also what ['{0}'.format(self)] prints. *)
Definition repr (self : ReferenceSpecies) : string :=
  let label :=
    if int_given (index self) then
      smiles (arkane self) ++ "(" ++ str_of_int (default 0%Z (index self)) ++ ")"
    else smiles (arkane self) in
  "<ReferenceSpecies " ++ label ++ ">".

(** The uncertainty of the H298 of an entry:
    [entry.thermo_data.H298.uncertainty_si]. *)
Definition H298_of (entry : ReferenceDataEntry) : result ScalarQuantity :=
  do td <- ReferenceDataEntry.thermo_data entry ;
  match td with
  | Some t => OK (H298 t)
  | None => Raise (AttributeError "H298")
  end.

Definition H298_uncertainty (entry : ReferenceDataEntry) : result float :=
  do h <- H298_of entry ;
  OK (uncertainty_si h).

(** The loop [for i, entry in enumerate(data)] with its two variables. *)
Fixpoint scan_sources (items : reference_data_t) (uncertainty : float)
  (preferred_source : string) : result (float * string) :=
  match items with
  | [] => OK (uncertainty, preferred_source)
  | (source, entry) :: rest =>
      do u <- H298_uncertainty entry ;
      if PrimFloat.ltb 0%float u && PrimFloat.ltb u uncertainty
      then scan_sources rest u source
      else scan_sources rest uncertainty preferred_source
  end.

(** The [else] branch "Choose the source that has the smallest
    uncertainty". *)
Definition least_uncertain_source (rd : reference_data_t) : result string :=
  match rd with
  | [] => Raise (IndexError "list index out of range")
  | (source0, entry0) :: _ =>
      do uncertainty <- H298_uncertainty entry0 ;
      do found <- scan_sources rd uncertainty source0 ;
      OK (snd found)
  end.

Record ReferenceEnthalpy : Type := mkReferenceEnthalpy {
  h298 : QuantityArgs;
  source : string
}.

Definition get_reference_enthalpy (self : ReferenceSpecies) (source : option string)
  : result ReferenceEnthalpy :=
  do rd <- reference_data self ;
  match rd with
  | [] => Raise (ValueError ("No reference data is included for species " ++ repr self))
  | _ :: _ =>
      do preferred_source <-
        match source with
        | Some s => OK s
        | None =>
            match preferred_reference self with
            | Some p => OK p
            | None => least_uncertain_source rd
            end
        end ;
      do entry <- getitem rd preferred_source ;
      do h <- H298_of entry ;
      OK {| h298 := reduce_args h; source := preferred_source |}
  end.

Record xyz_data : Type := mkXyz {
  numbers : list float;
  coords : list (list float)
}.

(** [10.0 ** 10.0]. *)
Definition ten_to_the_ten : float := 10000000000%float.

Definition get_default_xyz (self : ReferenceSpecies) : result xyz_data :=
  match given (default_xyz_chemistry self) with
  | Some chem =>
      do cd <- calculated_data self ;
      do entry <- getitem cd chem ;
      do conformer <- CalculatedDataEntry.conformer entry ;
      match conformer with
      | Some c =>
          OK {| numbers := number_si c;
                coords := map (map (fun x => PrimFloat.mul x ten_to_the_ten))
                              (coordinates_si c) |}
      | None => Raise (AttributeError "number")
      end
  | None =>
      Raise (ValueError
        ("The default model chemistry to use for XYZ coordinates has not been set for "
         ++ repr self))
  end.

Definition update_from_arkane_spcs (arkane_species : arkane_job) (self : ReferenceSpecies)
  : result ReferenceSpecies :=
  do calc_data <- CalculatedDataEntry.init (job_conformer arkane_species)
                    (job_thermo_data arkane_species) None None ;
  do cd <- calculated_data self ;
  OK {| arkane := arkane self;
        _reference_data := _reference_data self;
        _calculated_data :=
          Assigned (dict_set cd (job_level_of_theory arkane_species) calc_data);
        index := index self;
        cas_number := cas_number self;
        preferred_reference := preferred_reference self;
        default_xyz_chemistry := default_xyz_chemistry self |}.

Definition not_available_msg (model_chemistry : string) (self : ReferenceSpecies) : string :=
  "Model chemistry `" ++ model_chemistry ++ "` not available for species " ++ repr self.

(** [self.calculated_data[model_chemistry].thermo_data.H298.__reduce__()[1]]. *)
Definition low_level_h298 (self : ReferenceSpecies) (model_chemistry : string)
  : result QuantityArgs :=
  do cd <- calculated_data self ;
  do entry <- getitem cd model_chemistry ;
  do td <- CalculatedDataEntry.thermo_data entry ;
  match td with
  | Some t => OK (reduce_args (H298 t))
  | None => Raise (AttributeError "H298")
  end.

Definition to_error_canceling_spcs `{Isodesmic} (self : ReferenceSpecies)
  (model_chemistry : string) (source : option string) : result ErrorCancelingSpecies :=
  do cd <- calculated_data self ;
  match dict_get cd model_chemistry with
  | None => Raise (KeyError (not_available_msg model_chemistry self))
  | Some _ =>
      do molecule <- Molecule_SMILES (smiles (arkane self)) ;
      do reference_enthalpy <- get_reference_enthalpy self source ;
      do low <- low_level_h298 self model_chemistry ;
      let 'mkReferenceEnthalpy high_level_hf298 chosen := reference_enthalpy in
      ErrorCancelingSpecies_init molecule low model_chemistry high_level_hf298 chosen
  end.

End ReferenceSpecies.

(** ** ReferenceDatabase *)

(** The file system, the settings and the YAML loader ([load_yaml] fills
    an object made by [__new__]; it rests on [yaml] and on
    [RMGObject.make_object]). *)
Class Storage : Type := {
  database_directory : string;
  os_path_join : string -> string -> string;
  os_path_basename : string -> string;
  os_listdir : string -> result (list string);
  load_yaml : string -> result ReferenceSpecies
}.

Record ReferenceDatabase : Type := mkReferenceDatabase {
  reference_sets : gmap string (list ReferenceSpecies)
}.

Inductive log_record : Type :=
| LogInfo (msg : string)
| LogWarning (msg : string).

Definition is_warning (r : log_record) : bool :=
  match r with LogWarning _ => true | LogInfo _ => false end.

(** The database object and the log that [logging] writes. *)
Record world : Type := mkWorld {
  self_db : ReferenceDatabase;
  logged : list log_record
}.

(** Code that may raise, and leaves its writes behind when it does. *)
Definition io (A : Type) : Type := world -> result A * world.

Definition io_ret {A : Type} (a : A) : io A := fun w => (OK a, w).

Definition io_bind {A B : Type} (m : io A) (k : A -> io B) : io B :=
  fun w => match m w with
           | (OK a, w') => k a w'
           | (Raise e, w') => (Raise e, w')
           end.

Definition io_lift {A : Type} (m : result A) : io A := fun w => (m, w).

Notation "'run' x <- m ; k" := (io_bind m (fun x => k))
  (at level 10, x name, m at level 100, k at level 200).

Definition logging (r : log_record) : io unit :=
  fun w => (OK tt, {| self_db := self_db w; logged := (logged w ++ [r])%list |}).

Definition set_reference_set (set_name : string) (reference_set : list ReferenceSpecies)
  : io unit :=
  fun w => (OK tt,
            {| self_db := {| reference_sets :=
                               <[set_name := reference_set]> (reference_sets (self_db w)) |};
               logged := logged w |}).

Inductive paths_arg : Type :=
| PathStr (path : string)
| PathList (paths : list string).

Inductive indices_arg : Type :=
| OneIndex (i : Z)
| IndexList (l : list Z).

Inductive labels_arg : Type :=
| OneLabel (label : string)
| LabelList (l : list string).

Module ReferenceDatabase.

Definition init : ReferenceDatabase := {| reference_sets := ∅ |}.

Section Load.
Context `{Collaborators} `{Storage}.

Definition loading_msg (set_name path : string) : string :=
  "Loading in reference set `" ++ set_name ++ "` from " ++ path ++ " ...".

Definition no_data_msg (smiles set_name : string) : string :=
  "Molecule " ++ smiles ++ " from reference set `" ++ set_name ++
  "` does not have any reference data and/or calculated data. This entry will not be added".

Definition duplicate_msg (smiles set_name spcs : string) : string :=
  "Molecule " ++ smiles ++ " from reference set `" ++ set_name ++
  "` already exists in the reference database. The entry from this reference set will not be added. The path for this species is "
  ++ spcs.

(** [(len(ref_spcs.calculated_data) == 0) or (len(ref_spcs.reference_data) == 0)]:
    the second getter runs only when the first length is not zero. *)
Definition lacks_data (ref_spcs : ReferenceSpecies) : result bool :=
  do cd <- ReferenceSpecies.calculated_data ref_spcs ;
  if Nat.eqb (List.length cd) 0 then OK true
  else
    do rd <- ReferenceSpecies.reference_data ref_spcs ;
    OK (Nat.eqb (List.length rd) 0).

(** The body of [for spcs in spcs_files], on the two lists it appends to. *)
Definition load_file (path set_name spcs : string)
  (lists : list Molecule * list ReferenceSpecies)
  : io (list Molecule * list ReferenceSpecies) :=
  run ref_spcs <- io_lift (load_yaml (os_path_join path spcs)) ;
  run molecule <- io_lift (Molecule_fromAdjacencyList (adjacency_list (arkane ref_spcs))) ;
  run empty <- io_lift (lacks_data ref_spcs) ;
  if empty then
    run _ <- logging (LogWarning (no_data_msg (smiles (arkane ref_spcs)) set_name)) ;
    io_ret lists
  else if existsb (fun mol => isIsomorphic molecule mol) (fst lists) then
    run _ <- logging (LogWarning
                        (duplicate_msg (smiles (arkane ref_spcs)) set_name spcs)) ;
    io_ret lists
  else io_ret ((fst lists ++ [molecule])%list, (snd lists ++ [ref_spcs])%list).

Fixpoint load_files (path set_name : string) (spcs_files : list string)
  (lists : list Molecule * list ReferenceSpecies)
  : io (list Molecule * list ReferenceSpecies) :=
  match spcs_files with
  | [] => io_ret lists
  | spcs :: rest =>
      run lists' <- load_file path set_name spcs lists ;
      load_files path set_name rest lists'
  end.

(** The loop [for path in paths], on [molecule_list]. *)
Fixpoint load_paths (paths : list string) (molecule_list : list Molecule) : io unit :=
  match paths with
  | [] => io_ret tt
  | path :: rest =>
      let set_name := os_path_basename path in
      run _ <- logging (LogInfo (loading_msg set_name path)) ;
      run spcs_files <- io_lift (os_listdir path) ;
      run lists <- load_files path set_name spcs_files (molecule_list, []) ;
      run _ <- set_reference_set set_name (snd lists) ;
      load_paths rest (fst lists)
  end.

Definition default_paths : list string :=
  [os_path_join database_directory "reference_sets/main"].

Definition load (paths : paths_arg) : io unit :=
  let paths :=
    match paths with
    | PathStr EmptyString | PathList [] => PathList default_paths
    | _ => paths
    end in
  let paths :=
    match paths with
    | PathStr path => [path]
    | PathList paths => paths
    end in
  load_paths paths [].

End Load.

Definition index_matches (i : Z) (ref_spcs : ReferenceSpecies) : bool :=
  match index ref_spcs with
  | Some j => Z.eqb j i
  | None => false
  end.

Definition index_not_found_msg (i : Z) (set_name : string) : string :=
  "No reference species with index " ++ str_of_int i ++
  " was found in reference set " ++ set_name.

(** The loop [for index in indices], on [reference_species_list]. *)
Fixpoint collect_by_index (set_name : string) (search_set : list ReferenceSpecies)
  (indices : list Z) (reference_species_list : list ReferenceSpecies)
  : result (list ReferenceSpecies) :=
  match indices with
  | [] => OK reference_species_list
  | i :: rest =>
      match List.find (index_matches i) search_set with
      | Some ref_spcs =>
          collect_by_index set_name search_set rest
            (reference_species_list ++ [ref_spcs])%list
      | None => Raise (ValueError (index_not_found_msg i set_name))
      end
  end.

Definition get_species_from_index (self : ReferenceDatabase) (indices : indices_arg)
  (set_name : string) : result (list ReferenceSpecies) :=
  let indices :=
    match indices with
    | OneIndex i => [i]
    | IndexList l => l
    end in
  match reference_sets self !! set_name with
  | None => Raise (KeyError set_name)
  | Some search_set => collect_by_index set_name search_set indices []
  end.

(** [self.reference_sets[set_name]]. *)
Definition get_set (self : ReferenceDatabase) (set_name : string)
  : result (list ReferenceSpecies) :=
  match reference_sets self !! set_name with
  | Some current_set => OK current_set
  | None => Raise (KeyError set_name)
  end.

(** [self.reference_sets.keys()].  Python 2 fixes no order on the keys of a
    dictionary; this is the order of the finite map, and what is proved of
    a call without [sets] does not depend on it. *)
Definition set_names (self : ReferenceDatabase) : list string :=
  map fst (map_to_list (reference_sets self)).

(** The two tests of the inner loop of [extract_model_chemistry]: the
    species is appended when neither says [continue]. *)
Definition selected (model_chemistry : string) (ref_spcs : ReferenceSpecies) : result bool :=
  do cd <- ReferenceSpecies.calculated_data ref_spcs ;
  match dict_get cd model_chemistry with
  | None => OK false
  | Some _ =>
      do rd <- ReferenceSpecies.reference_data ref_spcs ;
      OK (negb (Nat.eqb (List.length rd) 0))
  end.

(** The loop [for ref_spcs in current_set]. *)
Fixpoint extract_set (model_chemistry : string) (current_set : list ReferenceSpecies)
  (reference_list : list ReferenceSpecies) : result (list ReferenceSpecies) :=
  match current_set with
  | [] => OK reference_list
  | ref_spcs :: rest =>
      do keep <- selected model_chemistry ref_spcs ;
      extract_set model_chemistry rest
        (if keep then (reference_list ++ [ref_spcs])%list else reference_list)
  end.

(** The loop [for set_name in sets]. *)
Fixpoint extract_sets (self : ReferenceDatabase) (model_chemistry : string)
  (sets : list string) (reference_list : list ReferenceSpecies)
  : result (list ReferenceSpecies) :=
  match sets with
  | [] => OK reference_list
  | set_name :: rest =>
      do current_set <- get_set self set_name ;
      do reference_list <- extract_set model_chemistry current_set reference_list ;
      extract_sets self model_chemistry rest reference_list
  end.

(** The list returned holds reference species or error canceling species,
    by [as_error_canceling_species]. *)
Definition extract_model_chemistry `{Isodesmic} (self : ReferenceDatabase)
  (model_chemistry : string) (sets : option (list string))
  (as_error_canceling_species : bool)
  : result (list ReferenceSpecies + list ErrorCancelingSpecies) :=
  let sets :=
    match sets with
    | None => set_names self
    | Some sets => sets
    end in
  do reference_list <- extract_sets self model_chemistry sets [] ;
  if as_error_canceling_species then
    do converted <-
      map_result (fun s => ReferenceSpecies.to_error_canceling_spcs s model_chemistry None)
                 reference_list ;
    OK (inr converted)
  else OK (inl reference_list).

(** The loops of [list_available_chemistry], on [model_chemistry_set]. *)
Fixpoint chemistry_of_set (current_set : list ReferenceSpecies)
  (model_chemistry_set : gset string) : result (gset string) :=
  match current_set with
  | [] => OK model_chemistry_set
  | ref_spcs :: rest =>
      do cd <- ReferenceSpecies.calculated_data ref_spcs ;
      chemistry_of_set rest (model_chemistry_set ∪ list_to_set (map fst cd))
  end.

Fixpoint chemistry_of_sets (self : ReferenceDatabase) (sets : list string)
  (model_chemistry_set : gset string) : result (gset string) :=
  match sets with
  | [] => OK model_chemistry_set
  | set_name :: rest =>
      do current_set <- get_set self set_name ;
      do model_chemistry_set <- chemistry_of_set current_set model_chemistry_set ;
      chemistry_of_sets self rest model_chemistry_set
  end.

(** [list(model_chemistry_set)]: the elements, each once, in no fixed order. *)
Definition list_available_chemistry (self : ReferenceDatabase)
  (sets : option (list string)) : result (list string) :=
  let sets :=
    match sets with
    | None => set_names self
    | Some sets => sets
    end in
  do model_chemistry_set <- chemistry_of_sets self sets ∅ ;
  OK (elements model_chemistry_set).

Definition label_matches (l : string) (ref_spcs : ReferenceSpecies) : bool :=
  match label (arkane ref_spcs) with
  | Some l' => String.eqb l' l
  | None => false
  end.

Definition label_not_found_msg (l set_name : string) : string :=
  "No reference species with label " ++ dquote ++ l ++ dquote ++
  " was found in reference set " ++ set_name.

(** The loop [for label in labels], on [reference_species_list]. *)
Fixpoint collect_by_label (set_name : string) (search_set : list ReferenceSpecies)
  (labels : list string) (reference_species_list : list ReferenceSpecies)
  : result (list ReferenceSpecies) :=
  match labels with
  | [] => OK reference_species_list
  | l :: rest =>
      match List.find (label_matches l) search_set with
      | Some ref_spcs =>
          collect_by_label set_name search_set rest
            (reference_species_list ++ [ref_spcs])%list
      | None => Raise (ValueError (label_not_found_msg l set_name))
      end
  end.

Definition get_species_from_label (self : ReferenceDatabase) (labels : labels_arg)
  (set_name : string) : result (list ReferenceSpecies) :=
  let labels :=
    match labels with
    | OneLabel l => [l]
    | LabelList l => l
    end in
  match reference_sets self !! set_name with
  | None => Raise (KeyError set_name)
  | Some search_set => collect_by_label set_name search_set labels []
  end.

End ReferenceDatabase.

(** ** A small instance of the collaborators, for concrete runs

    A species and a molecule are their text, two molecules are isomorphic
    when the texts are equal, and the file system holds two reference sets. *)

Module Demo.

#[local] Instance chemistry : Collaborators := {|
  Species := string;
  Molecule := string;
  Species_SMILES := fun s => OK s;
  Species_InChI := fun s => OK s;
  Species_fromAdjacencyList := fun s => OK s;
  ArkaneSpecies_init := fun species label _ =>
    OK {| smiles := species; adjacency_list := species; label := label;
          symmetry_number := Some 1%Z |};
  Molecule_fromAdjacencyList := fun s => OK s;
  isIsomorphic := String.eqb
|}.

Definition quantity (value uncertainty : float) : ScalarQuantity :=
  {| value_si := value;
     uncertainty_si := uncertainty;
     reduce_args := {| qa_value := value; qa_units := "J/mol";
                       qa_uncertainty_type := "+|-"; qa_uncertainty := uncertainty |} |}.

Definition thermo (value uncertainty : float) : ThermoData :=
  {| H298 := quantity value uncertainty |}.

Definition ref_entry (value uncertainty : float) : ReferenceDataEntry :=
  {| rde_thermo_data := Assigned (Some (thermo value uncertainty));
     rde_atct_id := Assigned None |}.

Definition water : Conformer :=
  {| number_si := [8%float; 1%float; 1%float];
     coordinates_si := [[0%float; 0%float; 0x1p-34%float];
                        [0%float; 0x1.8p-34%float; (-0x1p-34)%float];
                        [0%float; (-0x1.8p-34)%float; (-0x1p-34)%float]] |}.

Definition calc_entry : CalculatedDataEntry :=
  {| cde_conformer := Assigned (Some water);
     cde_thermo_data := Assigned (Some (thermo (-240000)%float 0%float));
     cde_t1_diagnostic := Assigned None;
     cde_fod := Assigned None |}.

(** Three sources whose H298 uncertainties are 0, 5 and 2, in this order. *)
Definition three_list : reference_data_t :=
  [("first", ref_entry 100%float 0%float);
   ("second", ref_entry 101%float 5%float);
   ("third", ref_entry 102%float 2%float)].

Definition three_sources : PyVal :=
  PyDict (map (fun kv => (PyStr (fst kv), PyReferenceDataEntry (snd kv))) three_list).

Definition one_chemistry : PyVal :=
  PyDict [(PyStr "wb97m-v/def2-tzvpd", PyCalculatedDataEntry calc_entry)].

(** [ReferenceSpecies(smiles=..., reference_data=..., calculated_data=..., index=...)]. *)
Definition species_args (smiles : string) (reference_data calculated_data : PyVal)
  (index : option Z) : init_args := {|
  arg_species := None;
  arg_smiles := Some smiles;
  arg_adjacency_list := None;
  arg_inchi := None;
  arg_reference_data := reference_data;
  arg_calculated_data := calculated_data;
  arg_preferred_reference := None;
  arg_index := index;
  arg_label := None;
  arg_cas_number := None;
  arg_symmetry_number := None;
  arg_default_xyz_chemistry := None;
  arg_kwargs := []
|}.

(** [ReferenceSpecies(label='methane', **kwargs)]. *)
Definition only_kwargs (kwargs : kwargs_t) : init_args := {|
  arg_species := None;
  arg_smiles := None;
  arg_adjacency_list := None;
  arg_inchi := None;
  arg_reference_data := PyNone;
  arg_calculated_data := PyNone;
  arg_preferred_reference := None;
  arg_index := None;
  arg_label := Some "methane";
  arg_cas_number := None;
  arg_symmetry_number := None;
  arg_default_xyz_chemistry := None;
  arg_kwargs := kwargs
|}.

(** [ReferenceSpecies(smiles=..., inchi=..., index=1)]. *)
Definition smiles_and_inchi (smiles inchi : string) : init_args := {|
  arg_species := None;
  arg_smiles := Some smiles;
  arg_adjacency_list := None;
  arg_inchi := Some inchi;
  arg_reference_data := PyNone;
  arg_calculated_data := PyNone;
  arg_preferred_reference := None;
  arg_index := Some 1%Z;
  arg_label := None;
  arg_cas_number := None;
  arg_symmetry_number := None;
  arg_default_xyz_chemistry := None;
  arg_kwargs := []
|}.

(** A species as [load_yaml] leaves it. *)
Definition stored (smiles : string) (reference_data : reference_data_t)
  (calculated_data : calculated_data_t) (index : Z) : ReferenceSpecies :=
  {| arkane := {| smiles := smiles; adjacency_list := smiles; label := None;
                  symmetry_number := Some 1%Z |};
     _reference_data := Assigned reference_data;
     _calculated_data := Assigned calculated_data;
     index := Some index;
     cas_number := None;
     preferred_reference := None;
     default_xyz_chemistry := None |}.

Definition some_reference : reference_data_t := [("ATcT", ref_entry 100%float 1%float)].
Definition some_calculated : calculated_data_t := [("wb97m-v/def2-tzvpd", calc_entry)].

Definition methane : ReferenceSpecies := stored "C" some_reference some_calculated 1.
Definition ethane : ReferenceSpecies := stored "CC" some_reference some_calculated 2.
Definition propane : ReferenceSpecies := stored "CCC" some_reference some_calculated 3.
Definition methane_again : ReferenceSpecies := stored "C" some_reference some_calculated 4.
Definition uncalculated : ReferenceSpecies := stored "CO" some_reference [] 5.

(** Methane with the three sources above. *)
Definition surveyed : ReferenceSpecies := stored "C" three_list some_calculated 7.

Definition preferring (p : string) (r : ReferenceSpecies) : ReferenceSpecies :=
  {| arkane := arkane r;
     _reference_data := _reference_data r;
     _calculated_data := _calculated_data r;
     index := index r;
     cas_number := cas_number r;
     preferred_reference := Some p;
     default_xyz_chemistry := default_xyz_chemistry r |}.

Definition with_default_xyz (chem : string) (r : ReferenceSpecies) : ReferenceSpecies :=
  {| arkane := arkane r;
     _reference_data := _reference_data r;
     _calculated_data := _calculated_data r;
     index := index r;
     cas_number := cas_number r;
     preferred_reference := preferred_reference r;
     default_xyz_chemistry := Some chem |}.

Fixpoint last_segment (path segment : string) : string :=
  match path with
  | EmptyString => segment
  | String c rest =>
      if Ascii.eqb c "/"%char then last_segment rest EmptyString
      else last_segment rest (segment ++ String c EmptyString)
  end.

(** [main] holds methane, ethane, a second file of methane and a species
    without calculated data; [extra] holds propane and methane. *)
#[local] Instance storage : Storage := {|
  database_directory := "/db";
  os_path_join := fun a b => a ++ "/" ++ b;
  os_path_basename := fun path => last_segment path EmptyString;
  os_listdir := fun path =>
    if String.eqb path "/db/reference_sets/main"
    then OK ["1.yml"; "2.yml"; "4.yml"; "5.yml"]
    else if String.eqb path "/sets/extra" then OK ["3.yml"; "1.yml"]
    else Raise (OSError path);
  load_yaml := fun file =>
    if String.eqb file "/db/reference_sets/main/1.yml" then OK methane
    else if String.eqb file "/db/reference_sets/main/2.yml" then OK ethane
    else if String.eqb file "/db/reference_sets/main/4.yml" then OK methane_again
    else if String.eqb file "/db/reference_sets/main/5.yml" then OK uncalculated
    else if String.eqb file "/sets/extra/3.yml" then OK propane
    else if String.eqb file "/sets/extra/1.yml" then OK methane
    else Raise (OSError file)
|}.

(** Two directories with the same last segment, [/x/main] and [/y/main],
    each holding one file of methane. *)
Definition twin_storage : Storage := {|
  database_directory := "/db";
  os_path_join := fun a b => a ++ "/" ++ b;
  os_path_basename := fun path => last_segment path EmptyString;
  os_listdir := fun path =>
    if String.eqb path "/x/main" then OK ["1.yml"]
    else if String.eqb path "/y/main" then OK ["1.yml"]
    else Raise (OSError path);
  load_yaml := fun file =>
    if String.eqb file "/x/main/1.yml" then OK methane
    else if String.eqb file "/y/main/1.yml" then OK methane
    else Raise (OSError file)
|}.

Definition empty_world : world :=
  {| self_db := ReferenceDatabase.init; logged := [] |}.

(** The two directories as lists of deserialised species and structures. *)
Definition main_entries : list (ReferenceSpecies * string) :=
  [(methane, "C"); (ethane, "CC"); (methane_again, "C"); (uncalculated, "CO")].

Definition extra_entries : list (ReferenceSpecies * string) :=
  [(propane, "CCC"); (methane, "C")].

(** A database whose set [main] holds the species of index 1, 2 and 3. *)
Definition indexed_db : ReferenceDatabase :=
  {| reference_sets := {[ "main" := [methane; ethane; propane] ]} |}.

(** A database whose set [main] holds a species without calculated data
    between two that have some, and whose set [extra] holds propane, which
    has a second model chemistry. *)
Definition propane_twice : ReferenceSpecies :=
  stored "CCC" some_reference
    [("wb97m-v/def2-tzvpd", calc_entry); ("ccsd(t)-f12/cc-pvtz-f12", calc_entry)] 3.

Definition mixed_db : ReferenceDatabase :=
  {| reference_sets :=
       <["extra" := [propane_twice]]> {[ "main" := [methane; uncalculated; ethane] ]} |}.

(** The species with a label. *)
Definition labelled (l : string) (r : ReferenceSpecies) : ReferenceSpecies :=
  {| arkane := {| smiles := smiles (arkane r);
                  adjacency_list := adjacency_list (arkane r);
                  label := Some l;
                  symmetry_number := symmetry_number (arkane r) |};
     _reference_data := _reference_data r;
     _calculated_data := _calculated_data r;
     index := index r;
     cas_number := cas_number r;
     preferred_reference := preferred_reference r;
     default_xyz_chemistry := default_xyz_chemistry r |}.

(** A database whose set [main] holds two species labelled methane. *)
Definition labelled_db : ReferenceDatabase :=
  {| reference_sets :=
       {[ "main" := [labelled "methane" methane; labelled "ethane" ethane;
                     labelled "methane" methane_again] ]} |}.

(** A calculated entry without a conformer, and a species whose default
    geometry chemistry is that entry's. *)
Definition no_geometry_entry : CalculatedDataEntry :=
  {| cde_conformer := Assigned None;
     cde_thermo_data := Assigned (Some (thermo 1%float 1%float));
     cde_t1_diagnostic := Assigned None;
     cde_fod := Assigned None |}.

Definition no_geometry : ReferenceSpecies :=
  with_default_xyz "hf" (stored "C" some_reference [("hf", no_geometry_entry)] 1).

(** An error canceling species is the five arguments of its constructor. *)
Record error_canceling : Type := mkErrorCanceling {
  ecs_molecule : string;
  ecs_low_level_hf298 : QuantityArgs;
  ecs_model_chemistry : string;
  ecs_high_level_hf298 : QuantityArgs;
  ecs_source : string
}.

#[local] Instance isodesmic : Isodesmic := {|
  Molecule_SMILES := fun s => OK s;
  ErrorCancelingSpecies := error_canceling;
  ErrorCancelingSpecies_init := fun molecule low model_chemistry high source =>
    OK {| ecs_molecule := molecule;
          ecs_low_level_hf298 := low;
          ecs_model_chemistry := model_chemistry;
          ecs_high_level_hf298 := high;
          ecs_source := source |}
|}.

End Demo.

(** ** What the specification says, for comparison with the code *)

(** "The first species in the set whose index matches": [ref_spcs] is an
    element of [search_set] with index [i], and no element before it has
    that index. *)
Definition first_with_index (search_set : list ReferenceSpecies) (i : Z)
  (ref_spcs : ReferenceSpecies) : Prop :=
  exists before after,
    search_set = (before ++ ref_spcs :: after)%list
    /\ index ref_spcs = Some i
    /\ forall r, In r before -> index r <> Some i.

(** Neither mapping of the species is empty. *)
Definition has_data (ref_spcs : ReferenceSpecies) : bool :=
  match _calculated_data ref_spcs, _reference_data ref_spcs with
  | Assigned cd, Assigned rd =>
      negb (Nat.eqb (List.length cd) 0) && negb (Nat.eqb (List.length rd) 0)
  | _, _ => false
  end.

Section LoadSpecification.
Context `{Collaborators} `{Storage}.

(** A deserialised species with the structure made from its adjacency list. *)
Definition entry : Type := ReferenceSpecies * Molecule.

(** "Skip any entry whose calculated_data or reference_data is empty.
    Otherwise test isomorphism against every structure already accepted;
    if isomorphic to an existing one, skip it; otherwise accept it and
    record its structure for future checks."  [accepted] are the structures
    accepted so far, the result the entries that are accepted, in order. *)
Fixpoint accept (accepted : list Molecule) (entries : list entry) : list entry :=
  match entries with
  | [] => []
  | e :: rest =>
      if negb (has_data (fst e)) then accept accepted rest
      else if existsb (isIsomorphic (snd e)) accepted then accept accepted rest
      else e :: accept (accepted ++ [snd e])%list rest
  end.

(** The same over the reference sets of one call, one after the other: the
    structures accepted in a set are known to the sets after it. *)
Fixpoint accept_sets (accepted : list Molecule) (sets : list (list entry))
  : list (list entry) :=
  match sets with
  | [] => []
  | entries :: rest =>
      let kept := accept accepted entries in
      kept :: accept_sets (accepted ++ map snd kept)%list rest
  end.

(** The file [spcs] of the directory [path] deserialises to the species of
    [e], both of whose mappings are set, and its adjacency list parses to
    the structure of [e]. *)
Definition readable_file (path spcs : string) (e : entry) : Prop :=
  load_yaml (os_path_join path spcs) = OK (fst e)
  /\ Molecule_fromAdjacencyList (adjacency_list (arkane (fst e))) = OK (snd e)
  /\ (exists cd, _calculated_data (fst e) = Assigned cd)
  /\ (exists rd, _reference_data (fst e) = Assigned rd).

Definition readable_set (path : string) (entries : list entry) : Prop :=
  exists spcs_files,
    os_listdir path = OK spcs_files /\ Forall2 (readable_file path) spcs_files entries.

(** [reference_sets[set_name] = reference_set], for each set in turn. *)
Definition assign_sets (named : list (string * list ReferenceSpecies))
  (sets : gmap string (list ReferenceSpecies)) : gmap string (list ReferenceSpecies) :=
  fold_left (fun m ns => <[fst ns := snd ns]> m) named sets.

End LoadSpecification.

(** ** Notions used to state further properties of the code *)

Definition is_ThermoData (value : PyVal) : bool :=
  match value with PyThermoData _ => true | _ => false end.

(** The value as a dictionary of the two kinds of entries. *)
Definition embed_reference_data (rd : reference_data_t) : PyVal :=
  PyDict (map (fun kv => (PyStr (fst kv), PyReferenceDataEntry (snd kv))) rd).

Definition embed_calculated_data (cd : calculated_data_t) : PyVal :=
  PyDict (map (fun kv => (PyStr (fst kv), PyCalculatedDataEntry (snd kv))) cd).

(** Both mapping fields of the species hold a mapping. *)
Definition mappings_set (self : ReferenceSpecies) : Prop :=
  (exists rd, _reference_data self = Assigned rd)
  /\ (exists cd, _calculated_data self = Assigned cd).

(** What the loop of [get_reference_enthalpy] has in hand after the
    entries [seen]: [source] is the key of one of them, whose uncertainty
    [uncertainty] is positive; the positive uncertainties before that entry
    are above it, and no positive uncertainty seen is below it. *)
Definition least_so_far (seen : reference_data_t) (uncertainty : float) (source : string)
  : Prop :=
  exists entry before after,
    seen = (before ++ (source, entry) :: after)%list
    /\ ReferenceSpecies.H298_uncertainty entry = OK uncertainty
    /\ PrimFloat.ltb 0%float uncertainty = true
    /\ (forall s e v, In (s, e) before -> ReferenceSpecies.H298_uncertainty e = OK v ->
                      PrimFloat.ltb 0%float v = true -> PrimFloat.ltb uncertainty v = true)
    /\ (forall s e v, In (s, e) seen -> ReferenceSpecies.H298_uncertainty e = OK v ->
                      PrimFloat.ltb 0%float v = true -> PrimFloat.ltb v uncertainty = false).

(** The writes that reference.py makes to a species after its
    construction, and a sequence of them run until one raises. *)
Inductive species_write : Type :=
| AssignReferenceData (value : PyVal)
| AssignCalculatedData (value : PyVal)
| UpdateFromArkane (arkane_species : arkane_job).

Definition write (op : species_write) (self : ReferenceSpecies) : result ReferenceSpecies :=
  match op with
  | AssignReferenceData value => ReferenceSpecies.set_reference_data value self
  | AssignCalculatedData value => ReferenceSpecies.set_calculated_data value self
  | UpdateFromArkane arkane_species =>
      ReferenceSpecies.update_from_arkane_spcs arkane_species self
  end.

Fixpoint writes (ops : list species_write) (self : ReferenceSpecies)
  : result ReferenceSpecies :=
  match ops with
  | [] => OK self
  | op :: rest =>
      do self' <- write op self ;
      writes rest self'
  end.

(** The species has an entry for the model chemistry and some reference
    data: what [extract_model_chemistry] keeps. *)
Definition usable (model_chemistry : string) (ref_spcs : ReferenceSpecies) : bool :=
  match _calculated_data ref_spcs, _reference_data ref_spcs with
  | Assigned cd, Assigned rd =>
      match dict_get cd model_chemistry with
      | Some _ => negb (Nat.eqb (List.length rd) 0)
      | None => false
      end
  | _, _ => false
  end.

(** The data of the species is complete for a conversion at the model
    chemistry with no explicit source: every reference entry holds thermo
    data, a preferred reference is one of the sources, and the entry
    calculated at the model chemistry holds thermo data. *)
Definition complete (model_chemistry : string) (ref_spcs : ReferenceSpecies) : Prop :=
  (forall rd, _reference_data ref_spcs = Assigned rd ->
              Forall (fun kv => exists t, rde_thermo_data (snd kv) = Assigned (Some t)) rd
              /\ forall p, preferred_reference ref_spcs = Some p -> In p (map fst rd))
  /\ (forall cd entry, _calculated_data ref_spcs = Assigned cd ->
                       dict_get cd model_chemistry = Some entry ->
                       exists t, cde_thermo_data entry = Assigned (Some t)).

(** The sets of the database under the names, in the order of the names. *)
Definition sets_named (self : ReferenceDatabase) (names : list string)
  (contents : list (list ReferenceSpecies)) : Prop :=
  Forall2 (fun name current_set => reference_sets self !! name = Some current_set)
          names contents.

(** "The first species in the set whose label matches". *)
Definition first_with_label (search_set : list ReferenceSpecies) (l : string)
  (ref_spcs : ReferenceSpecies) : Prop :=
  exists before after,
    search_set = (before ++ ref_spcs :: after)%list
    /\ label (arkane ref_spcs) = Some l
    /\ forall r, In r before -> label (arkane r) <> Some l.

(** * Properties *)

(** ** The entry classes *)

Lemma ReferenceDataEntry_set_falsy (value : PyVal) (self : ReferenceDataEntry) :
  truthy value = false ->
  ReferenceDataEntry.set_thermo_data value self =
    OK {| rde_thermo_data := Assigned None; rde_atct_id := rde_atct_id self |}.
Proof. intros E. unfold ReferenceDataEntry.set_thermo_data. now rewrite E. Qed.

Lemma CalculatedDataEntry_set_falsy (value : PyVal) (self : CalculatedDataEntry) :
  truthy value = false -> CalculatedDataEntry.set_thermo_data value self = OK self.
Proof. intros E. unfold CalculatedDataEntry.set_thermo_data. now rewrite E. Qed.

Lemma CalculatedDataEntry_set_conformer_keeps_thermo (value : PyVal)
  (self self' : CalculatedDataEntry) :
  CalculatedDataEntry.set_conformer value self = OK self' ->
  cde_thermo_data self' = cde_thermo_data self.
Proof.
  unfold CalculatedDataEntry.set_conformer.
  destruct (truthy value); [destruct value | ]; intros E; inversion E; reflexivity.
Qed.

Lemma CalculatedDataEntry_set_conformer_returns (value : PyVal) (self : CalculatedDataEntry) :
  truthy value = false \/ is_Conformer value = true ->
  returns (CalculatedDataEntry.set_conformer value self).
Proof.
  unfold CalculatedDataEntry.set_conformer, returns.
  intros [E | E].
  - rewrite E. eauto.
  - destruct value; try discriminate. simpl. eauto.
Qed.

(** The entries of the concrete runs are what the constructors return. *)
Example demo_entries_constructed :
  ReferenceDataEntry.init (PyThermoData (Demo.thermo 100%float 1%float)) None
  = OK (Demo.ref_entry 100%float 1%float)
  /\ CalculatedDataEntry.init (PyConformer Demo.water)
       (PyThermoData (Demo.thermo (-240000)%float 0%float)) None None
     = OK Demo.calc_entry
  /\ ReferenceDataEntry.init (PyInt 7) None
     = Raise (ValueError
         "thermo_data for a ReferenceDataEntry object must be an rmgpy ThermoData instance").
Proof. repeat split. Qed.

(** C9: a CalculatedDataEntry constructed with a falsy [thermo_data] (None
    among them) never assigns [_thermo_data], so reading [thermo_data]
    raises; a ReferenceDataEntry constructed with the same value stores None
    and reads back None. *)
Theorem falsy_thermo_data_unassigned_or_none
  (conformer thermo_data : PyVal) (t1_diagnostic fod : option float)
  (atct_id : option string) :
  truthy thermo_data = false ->
  truthy conformer = false \/ is_Conformer conformer = true ->
  (exists e, CalculatedDataEntry.init conformer thermo_data t1_diagnostic fod = OK e
             /\ cde_thermo_data e = Unassigned
             /\ CalculatedDataEntry.thermo_data e = Raise (AttributeError "_thermo_data"))
  /\ (exists e, ReferenceDataEntry.init thermo_data atct_id = OK e
                /\ rde_thermo_data e = Assigned None
                /\ ReferenceDataEntry.thermo_data e = OK None).
Proof.
  intros Hfalsy Hconf. split.
  - destruct (CalculatedDataEntry_set_conformer_returns conformer
                CalculatedDataEntry.blank Hconf) as [self Hself].
    pose proof (CalculatedDataEntry_set_conformer_keeps_thermo _ _ _ Hself) as Hkeep.
    unfold CalculatedDataEntry.init. rewrite Hself. simpl.
    rewrite (CalculatedDataEntry_set_falsy _ _ Hfalsy). simpl.
    eexists. split; [reflexivity | ].
    unfold CalculatedDataEntry.thermo_data. simpl. rewrite Hkeep. simpl. auto.
  - unfold ReferenceDataEntry.init.
    rewrite (ReferenceDataEntry_set_falsy _ _ Hfalsy). simpl.
    eexists. split; [reflexivity | ]. split; reflexivity.
Qed.

Lemma falsy_thermo_data_unassigned_or_none_witness :
  (exists e, CalculatedDataEntry.init (PyConformer Demo.water) PyNone None None = OK e
             /\ cde_thermo_data e = Unassigned
             /\ CalculatedDataEntry.thermo_data e = Raise (AttributeError "_thermo_data"))
  /\ (exists e, ReferenceDataEntry.init PyNone (Some "25") = OK e
                /\ rde_thermo_data e = Assigned None
                /\ ReferenceDataEntry.thermo_data e = OK None).
Proof.
  apply (falsy_thermo_data_unassigned_or_none (PyConformer Demo.water) PyNone).
  - reflexivity.
  - right. reflexivity.
Defined.

(** ** ReferenceSpecies: resolving the reference enthalpy *)

Section ReferenceEnthalpy.

Import ReferenceSpecies.

Variable self : ReferenceSpecies.
Variable rd : reference_data_t.
Hypothesis Hassigned : _reference_data self = Assigned rd.
Hypothesis Hnonempty : rd <> [].

Lemma get_reference_enthalpy_nonempty (src : option string) :
  get_reference_enthalpy self src =
    (do preferred_source <-
       match src with
       | Some s => OK s
       | None =>
           match preferred_reference self with
           | Some p => OK p
           | None => least_uncertain_source rd
           end
       end ;
     do entry <- getitem rd preferred_source ;
     do h <- H298_of entry ;
     OK {| h298 := reduce_args h; source := preferred_source |}).
Proof.
  unfold get_reference_enthalpy, reference_data. rewrite Hassigned. simpl.
  destruct rd; [congruence | reflexivity].
Qed.

Lemma get_reference_enthalpy_at (src : option string) (chosen : string)
  (entry : ReferenceDataEntry) (h : ScalarQuantity) :
  match src with
  | Some s => s = chosen
  | None => preferred_reference self = Some chosen
  end ->
  dict_get rd chosen = Some entry ->
  H298_of entry = OK h ->
  get_reference_enthalpy self src = OK {| h298 := reduce_args h; source := chosen |}.
Proof.
  intros Hsrc Hget Hh. rewrite get_reference_enthalpy_nonempty.
  destruct src as [s | ]; [subst s | rewrite Hsrc]; simpl;
    unfold getitem; rewrite Hget; simpl; rewrite Hh; reflexivity.
Qed.

(** C2: with non-empty reference data, an explicit [source] is the one
    that is looked up and returned, whatever [preferred_reference] and the
    uncertainties are; without it, a set [preferred_reference] is the one
    returned, whatever the uncertainties are; the choice by uncertainty is
    made exactly when neither is given. *)
Theorem source_selection_priority :
  (forall s entry h,
      dict_get rd s = Some entry -> H298_of entry = OK h ->
      get_reference_enthalpy self (Some s) = OK {| h298 := reduce_args h; source := s |})
  /\ (forall p entry h,
         preferred_reference self = Some p ->
         dict_get rd p = Some entry -> H298_of entry = OK h ->
         get_reference_enthalpy self None = OK {| h298 := reduce_args h; source := p |})
  /\ (preferred_reference self = None ->
      get_reference_enthalpy self None =
        (do chosen <- least_uncertain_source rd ;
         do entry <- getitem rd chosen ;
         do h <- H298_of entry ;
         OK {| h298 := reduce_args h; source := chosen |})).
Proof.
  split; [ | split].
  - intros s entry h Hget Hh. now apply (get_reference_enthalpy_at (Some s) s entry h).
  - intros p entry h Hp Hget Hh. now apply (get_reference_enthalpy_at None p entry h).
  - intros Hp. rewrite get_reference_enthalpy_nonempty, Hp. reflexivity.
Qed.

(** C10: with non-empty reference data, an explicit [source] that is not a
    key of [reference_data] raises [KeyError] for that source; the species'
    [preferred_reference] and the uncertainties play no part. *)
Theorem explicit_source_not_a_key (s : string) :
  dict_get rd s = None ->
  get_reference_enthalpy self (Some s) = Raise (KeyError s).
Proof.
  intros Hget. rewrite get_reference_enthalpy_nonempty. simpl.
  unfold getitem. rewrite Hget. reflexivity.
Qed.

End ReferenceEnthalpy.

Lemma source_selection_priority_witness :
  ReferenceSpecies.get_reference_enthalpy (Demo.preferring "third" Demo.surveyed)
    (Some "second")
  = OK {| ReferenceSpecies.h298 := reduce_args (Demo.quantity 101%float 5%float);
          ReferenceSpecies.source := "second" |}.
Proof.
  apply (proj1 (source_selection_priority
                  (Demo.preferring "third" Demo.surveyed) Demo.three_list
                  eq_refl ltac:(discriminate))
           "second" (Demo.ref_entry 101%float 5%float));
    reflexivity.
Defined.

Lemma explicit_source_not_a_key_witness :
  ReferenceSpecies.get_reference_enthalpy (Demo.preferring "third" Demo.surveyed)
    (Some "fourth")
  = Raise (KeyError "fourth").
Proof.
  apply (explicit_source_not_a_key
           (Demo.preferring "third" Demo.surveyed) Demo.three_list).
  - reflexivity.
  - discriminate.
  - reflexivity.
Defined.

(** C1, on the code: for the three sources with uncertainties 0, 5 and 2,
    neither [source] nor [preferred_reference] given, the source that is
    returned is the first one, whose uncertainty is 0, and not the third. *)
Theorem zero_uncertainty_first_source_selected :
  ReferenceSpecies.init (Demo.species_args "C" Demo.three_sources Demo.one_chemistry
                           (Some 7%Z))
  = OK Demo.surveyed
  /\ ReferenceSpecies.least_uncertain_source Demo.three_list = OK "first"
  /\ ReferenceSpecies.get_reference_enthalpy Demo.surveyed None
     = OK {| ReferenceSpecies.h298 := reduce_args (Demo.quantity 100%float 0%float);
             ReferenceSpecies.source := "first" |}.
Proof. repeat split; vm_compute; reflexivity. Qed.

(** A positive uncertainty below the running minimum makes the minimum
    positive. *)
Lemma positive_below (u uncertainty : float) :
  PrimFloat.ltb 0%float u = true -> PrimFloat.ltb u uncertainty = true ->
  PrimFloat.ltb 0%float uncertainty = true.
Proof.
  rewrite !ltb_spec. change (Prim2SF 0%float) with (S754_zero false).
  destruct (Prim2SF u) as [su | su | | su mu eu];
    destruct (Prim2SF uncertainty) as [sv | sv | | sv mv ev];
    try destruct su; try destruct sv; unfold SFltb, SFcompare; intros; congruence.
Qed.

(** The general form of the run above: when the uncertainty of the first
    source is not positive (zero, for one), no entry replaces it, whatever
    the uncertainties of the others. *)
Lemma first_source_kept_when_not_positive (source0 : string) (entry0 : ReferenceDataEntry)
  (rest : reference_data_t) (uncertainty : float) :
  ReferenceSpecies.H298_uncertainty entry0 = OK uncertainty ->
  PrimFloat.ltb 0%float uncertainty = false ->
  Forall (fun kv => returns (ReferenceSpecies.H298_uncertainty (snd kv))) rest ->
  ReferenceSpecies.least_uncertain_source ((source0, entry0) :: rest) = OK source0.
Proof.
  intros H0 Hnot Hrest.
  assert (forall items,
             Forall (fun kv => returns (ReferenceSpecies.H298_uncertainty (snd kv))) items ->
             ReferenceSpecies.scan_sources items uncertainty source0
             = OK (uncertainty, source0)) as Hscan.
  { induction 1 as [ | [src e] items [u Hu] _ IH]; simpl; [reflexivity | ].
    simpl in Hu. rewrite Hu. simpl.
    destruct (PrimFloat.ltb 0%float u) eqn:Epos; simpl; [ | exact IH].
    destruct (PrimFloat.ltb u uncertainty) eqn:Elt; [ | exact IH].
    rewrite (positive_below u uncertainty Epos Elt) in Hnot. discriminate. }
  unfold ReferenceSpecies.least_uncertain_source. rewrite H0. unfold bind at 1.
  rewrite Hscan; [reflexivity | ].
  constructor; [exists uncertainty; exact H0 | exact Hrest].
Qed.

(** Where the running minimum starts from a positive uncertainty the loop
    does find the smaller positive one: the same sources in the order 5, 0, 2. *)
Example positive_first_source_improved :
  ReferenceSpecies.least_uncertain_source
    [("second", Demo.ref_entry 101%float 5%float);
     ("first", Demo.ref_entry 100%float 0%float);
     ("third", Demo.ref_entry 102%float 2%float)]
  = OK "third".
Proof. vm_compute. reflexivity. Qed.

(** ** ReferenceSpecies: the default geometry *)

Lemma given_nonempty (s : string) : s <> EmptyString -> given (Some s) = Some s.
Proof. destruct s; [congruence | reflexivity]. Qed.

Lemma ten_to_the_ten_exact :
  ReferenceSpecies.ten_to_the_ten = PrimFloat.of_uint63 (Uint63.of_Z (10 ^ 10)).
Proof. vm_compute. reflexivity. Qed.

(** C7: [get_default_xyz] raises the "has not been set" [ValueError] when
    [default_xyz_chemistry] is None (and likewise when it is the empty
    string); when it names a model chemistry whose entry stores a conformer,
    the numbers returned are the conformer's and every coordinate returned
    is the conformer's SI coordinate times 10^10, row by row. *)
Theorem default_xyz_in_angstrom (self : ReferenceSpecies) :
  (default_xyz_chemistry self = None \/ default_xyz_chemistry self = Some EmptyString ->
   ReferenceSpecies.get_default_xyz self =
     Raise (ValueError
       ("The default model chemistry to use for XYZ coordinates has not been set for "
        ++ ReferenceSpecies.repr self)))
  /\ (forall chem cd entry c,
         default_xyz_chemistry self = Some chem -> chem <> EmptyString ->
         _calculated_data self = Assigned cd ->
         dict_get cd chem = Some entry ->
         cde_conformer entry = Assigned (Some c) ->
         ReferenceSpecies.get_default_xyz self =
           OK {| ReferenceSpecies.numbers := number_si c;
                 ReferenceSpecies.coords :=
                   map (map (fun x => PrimFloat.mul x
                                        (PrimFloat.of_uint63 (Uint63.of_Z (10 ^ 10)))))
                       (coordinates_si c) |}).
Proof.
  split.
  - intros [E | E]; unfold ReferenceSpecies.get_default_xyz; rewrite E; reflexivity.
  - intros chem cd entry c Hchem Hne Hcd Hget Hconf.
    unfold ReferenceSpecies.get_default_xyz. rewrite Hchem, (given_nonempty chem Hne).
    unfold ReferenceSpecies.calculated_data. rewrite Hcd. simpl.
    unfold getitem. rewrite Hget. simpl.
    unfold CalculatedDataEntry.conformer. rewrite Hconf. simpl.
    rewrite ten_to_the_ten_exact. reflexivity.
Qed.

Lemma default_xyz_in_angstrom_witness :
  ReferenceSpecies.get_default_xyz
    (Demo.with_default_xyz "wb97m-v/def2-tzvpd" Demo.methane)
  = OK {| ReferenceSpecies.numbers := number_si Demo.water;
          ReferenceSpecies.coords :=
            map (map (fun x => PrimFloat.mul x
                                 (PrimFloat.of_uint63 (Uint63.of_Z (10 ^ 10)))))
                (coordinates_si Demo.water) |}.
Proof.
  apply (proj2 (default_xyz_in_angstrom
                  (Demo.with_default_xyz "wb97m-v/def2-tzvpd" Demo.methane))
           "wb97m-v/def2-tzvpd" Demo.some_calculated Demo.calc_entry Demo.water).
  - reflexivity.
  - discriminate.
  - reflexivity.
  - reflexivity.
  - reflexivity.
Defined.

(** The coordinates of the water conformer, 2^-34 m and 1.5 * 2^-34 m,
    come out as 10^10 / 2^34 and 1.5 * 10^10 / 2^34 angstrom. *)
Example water_in_angstrom :
  ReferenceSpecies.get_default_xyz
    (Demo.with_default_xyz "wb97m-v/def2-tzvpd" Demo.methane)
  = OK {| ReferenceSpecies.numbers := [8%float; 1%float; 1%float];
          ReferenceSpecies.coords :=
            [[0%float; 0%float; 0x1.2a05f2p-1%float];
             [0%float; 0x1.bf08ebp-1%float; (-0x1.2a05f2p-1)%float];
             [0%float; (-0x1.bf08ebp-1)%float; (-0x1.2a05f2p-1)%float]] |}.
Proof. vm_compute. reflexivity. Qed.

(** A model chemistry that is set but is not a key of [calculated_data]
    raises [KeyError]. *)
Lemma default_xyz_unknown_chemistry (self : ReferenceSpecies) (chem : string)
  (cd : calculated_data_t) :
  default_xyz_chemistry self = Some chem -> chem <> EmptyString ->
  _calculated_data self = Assigned cd -> dict_get cd chem = None ->
  ReferenceSpecies.get_default_xyz self = Raise (KeyError chem).
Proof.
  intros Hchem Hne Hcd Hget.
  unfold ReferenceSpecies.get_default_xyz. rewrite Hchem, (given_nonempty chem Hne).
  unfold ReferenceSpecies.calculated_data. rewrite Hcd. simpl.
  unfold getitem. rewrite Hget. reflexivity.
Qed.

(** ** ReferenceSpecies: the validated mapping fields *)

Lemma setter_falsy (value : PyVal) :
  truthy value = false ->
  (forall slot, ReferenceSpecies.reference_data_setter value slot = OK (Assigned []))
  /\ (forall slot, ReferenceSpecies.calculated_data_setter value slot = OK (Assigned [])).
Proof.
  intros E. split; intros slot;
    unfold ReferenceSpecies.reference_data_setter, ReferenceSpecies.calculated_data_setter;
    rewrite E; reflexivity.
Qed.

Lemma setter_non_mapping (value : PyVal) :
  truthy value = true -> is_dict value = false ->
  (forall slot, ReferenceSpecies.reference_data_setter value slot =
                  Raise (ValueError ReferenceSpecies.reference_data_msg))
  /\ (forall slot, ReferenceSpecies.calculated_data_setter value slot =
                     Raise (ValueError ReferenceSpecies.calculated_data_msg)).
Proof.
  intros E D. split; intros slot;
    unfold ReferenceSpecies.reference_data_setter, ReferenceSpecies.calculated_data_setter;
    rewrite E; destruct value; try discriminate; reflexivity.
Qed.

(** A non-empty dictionary that fails one of the two [all(isinstance ...)]
    tests reaches no assignment and no [raise]: the slot is left as it was. *)
Lemma setter_ill_typed_mapping (items : list (PyVal * PyVal)) :
  items <> [] ->
  (forallb is_str (map fst items) && forallb is_ReferenceDataEntry (map snd items) = false ->
   forall slot, ReferenceSpecies.reference_data_setter (PyDict items) slot = OK slot)
  /\ (forallb is_str (map fst items) && forallb is_CalculatedDataEntry (map snd items) = false ->
      forall slot, ReferenceSpecies.calculated_data_setter (PyDict items) slot = OK slot).
Proof.
  intros Hne.
  assert (truthy (PyDict items) = true) as Ht by (destruct items; [congruence | reflexivity]).
  split; intros Hbad slot;
    unfold ReferenceSpecies.reference_data_setter, ReferenceSpecies.calculated_data_setter;
    rewrite Ht; simpl;
    destruct (forallb is_str (map fst items)); simpl in *;
    try rewrite Hbad; reflexivity.
Qed.

(** A dictionary that passes both tests is stored item by item. *)
Lemma as_reference_data_well_typed (items : list (PyVal * PyVal)) :
  forallb is_str (map fst items) = true ->
  forallb is_ReferenceDataEntry (map snd items) = true ->
  map (fun kv => (PyStr (fst kv), PyReferenceDataEntry (snd kv))) (as_reference_data items)
  = items.
Proof.
  induction items as [ | [k v] items IH]; simpl; [reflexivity | ].
  intros Hk Hv.
  apply andb_true_iff in Hk as [Hk Hks]. apply andb_true_iff in Hv as [Hv Hvs].
  destruct k; try discriminate. destruct v; try discriminate.
  simpl. f_equal. apply IH; assumption.
Qed.

Lemma as_calculated_data_well_typed (items : list (PyVal * PyVal)) :
  forallb is_str (map fst items) = true ->
  forallb is_CalculatedDataEntry (map snd items) = true ->
  map (fun kv => (PyStr (fst kv), PyCalculatedDataEntry (snd kv))) (as_calculated_data items)
  = items.
Proof.
  induction items as [ | [k v] items IH]; simpl; [reflexivity | ].
  intros Hk Hv.
  apply andb_true_iff in Hk as [Hk Hks]. apply andb_true_iff in Hv as [Hv Hvs].
  destruct k; try discriminate. destruct v; try discriminate.
  simpl. f_equal. apply IH; assumption.
Qed.

Lemma setter_result_assigned (value : PyVal) :
  (forall slot slot',
      ReferenceSpecies.reference_data_setter value slot = OK slot' ->
      slot' = slot \/ exists d, slot' = Assigned d)
  /\ (forall slot slot',
         ReferenceSpecies.calculated_data_setter value slot = OK slot' ->
         slot' = slot \/ exists d, slot' = Assigned d).
Proof.
  split; intros slot slot';
    unfold ReferenceSpecies.reference_data_setter, ReferenceSpecies.calculated_data_setter;
    destruct (negb (truthy value)); try (intros E; inversion E; eauto; fail);
    destruct value; try discriminate;
    repeat match goal with
           | |- context [if ?b then _ else _] => destruct b
           end;
    intros E; inversion E; eauto.
Qed.

(** Once a field holds a mapping, every assignment that does not raise
    leaves a mapping in it. *)
Lemma assignment_keeps_mapping (value : PyVal) (self self' : ReferenceSpecies) :
  (exists rd, _reference_data self = Assigned rd) ->
  (exists cd, _calculated_data self = Assigned cd) ->
  ReferenceSpecies.set_reference_data value self = OK self'
  \/ ReferenceSpecies.set_calculated_data value self = OK self' ->
  (exists rd, _reference_data self' = Assigned rd)
  /\ (exists cd, _calculated_data self' = Assigned cd).
Proof.
  intros Hrd Hcd [E | E];
    unfold ReferenceSpecies.set_reference_data, ReferenceSpecies.set_calculated_data in E.
  - destruct (ReferenceSpecies.reference_data_setter value (_reference_data self))
      as [slot | e] eqn:Es; simpl in E; inversion E; subst; simpl.
    split; [ | assumption].
    destruct (proj1 (setter_result_assigned value) _ _ Es) as [-> | ?]; assumption.
  - destruct (ReferenceSpecies.calculated_data_setter value (_calculated_data self))
      as [slot | e] eqn:Es; simpl in E; inversion E; subst; simpl.
    split; [assumption | ].
    destruct (proj2 (setter_result_assigned value) _ _ Es) as [-> | ?]; assumption.
Qed.

Section Construction.

Context `{Collaborators}.

Lemma init_after_parent (a : init_args) (species : Species) (base : ArkaneSpecies) :
  ReferenceSpecies.identity a = OK species ->
  ArkaneSpecies_init species (arg_label a) (arg_kwargs a) = OK base ->
  ReferenceSpecies.init a =
    (do rd <- ReferenceSpecies.reference_data_setter (arg_reference_data a) Unassigned ;
     do cd <- ReferenceSpecies.calculated_data_setter (arg_calculated_data a) Unassigned ;
     OK {| arkane :=
             if int_given (arg_symmetry_number a) then
               {| smiles := smiles base; adjacency_list := adjacency_list base;
                  label := label base; symmetry_number := arg_symmetry_number a |}
             else base;
           _reference_data := rd;
           _calculated_data := cd;
           index := arg_index a;
           cas_number := arg_cas_number a;
           preferred_reference := arg_preferred_reference a;
           default_xyz_chemistry := arg_default_xyz_chemistry a |}).
Proof.
  intros Hid Hbase. unfold ReferenceSpecies.init. rewrite Hid. simpl.
  rewrite Hbase. reflexivity.
Qed.

(** C3, as the code has it: a value that is truthy and is not a dictionary
    is refused with the setter's [ValueError], in an assignment to
    [reference_data] or [calculated_data] and in the constructor (once the
    parent class is initialised); a falsy value (None, False, 0, an empty
    string, list or dictionary) is stored as the empty mapping. *)
Theorem non_mapping_refused_unless_falsy (value : PyVal) :
  (truthy value = true -> is_dict value = false ->
   (forall self, ReferenceSpecies.set_reference_data value self =
                   Raise (ValueError ReferenceSpecies.reference_data_msg))
   /\ (forall self, ReferenceSpecies.set_calculated_data value self =
                      Raise (ValueError ReferenceSpecies.calculated_data_msg))
   /\ (forall a species base,
          ReferenceSpecies.identity a = OK species ->
          ArkaneSpecies_init species (arg_label a) (arg_kwargs a) = OK base ->
          (arg_reference_data a = value ->
           ReferenceSpecies.init a = Raise (ValueError ReferenceSpecies.reference_data_msg))
          /\ (arg_calculated_data a = value ->
              returns (ReferenceSpecies.reference_data_setter
                         (arg_reference_data a) Unassigned) ->
              ReferenceSpecies.init a =
                Raise (ValueError ReferenceSpecies.calculated_data_msg))))
  /\ (truthy value = false ->
      (forall self self', ReferenceSpecies.set_reference_data value self = OK self' ->
                          _reference_data self' = Assigned [])
      /\ (forall self, returns (ReferenceSpecies.set_reference_data value self))
      /\ (forall self self', ReferenceSpecies.set_calculated_data value self = OK self' ->
                             _calculated_data self' = Assigned [])
      /\ (forall self, returns (ReferenceSpecies.set_calculated_data value self))).
Proof.
  split.
  - intros Ht Hd. destruct (setter_non_mapping value Ht Hd) as [Hr Hc].
    split; [ | split].
    + intros self. unfold ReferenceSpecies.set_reference_data. rewrite Hr. reflexivity.
    + intros self. unfold ReferenceSpecies.set_calculated_data. rewrite Hc. reflexivity.
    + intros a species base Hid Hbase. rewrite (init_after_parent a species base Hid Hbase).
      split.
      * intros ->. rewrite Hr. reflexivity.
      * intros -> [slot Hslot]. rewrite Hslot. simpl. rewrite Hc. reflexivity.
  - intros Hf. destruct (setter_falsy value Hf) as [Hr Hc].
    unfold ReferenceSpecies.set_reference_data, ReferenceSpecies.set_calculated_data, returns.
    repeat split; intros; try rewrite Hr in *; try rewrite Hc in *; simpl in *;
      try (eexists; reflexivity);
      match goal with E : OK _ = OK _ |- _ => inversion E; reflexivity end.
Qed.

End Construction.

Lemma non_mapping_refused_unless_falsy_witness :
  ReferenceSpecies.set_reference_data (PyList [PyInt 1]) Demo.methane
  = Raise (ValueError ReferenceSpecies.reference_data_msg)
  /\ returns (ReferenceSpecies.set_calculated_data PyNone Demo.methane).
Proof.
  split.
  - apply (proj1 (@non_mapping_refused_unless_falsy Demo.chemistry (PyList [PyInt 1])));
      reflexivity.
  - apply (proj2 (@non_mapping_refused_unless_falsy Demo.chemistry PyNone)).
    reflexivity.
Defined.

(** C3, counterexample: an empty list and the integer 0 are not mappings,
    and assigning them raises nothing: the field becomes the empty mapping. *)
Lemma empty_non_mapping_accepted :
  ReferenceSpecies.set_reference_data (PyList []) Demo.methane
  = OK (Demo.stored "C" [] Demo.some_calculated 1)
  /\ ReferenceSpecies.set_calculated_data (PyInt 0) Demo.methane
     = OK (Demo.stored "C" Demo.some_reference [] 1).
Proof. split; reflexivity. Qed.

(** The constructor leaves a mapping in both fields when each argument is
    falsy or a dictionary from strings to entries of the field's kind. *)
Lemma init_well_typed_assigns `{Collaborators} (a : init_args) (self : ReferenceSpecies) :
  (truthy (arg_reference_data a) = false
   \/ exists items, arg_reference_data a = PyDict items
                    /\ forallb is_str (map fst items) = true
                    /\ forallb is_ReferenceDataEntry (map snd items) = true) ->
  (truthy (arg_calculated_data a) = false
   \/ exists items, arg_calculated_data a = PyDict items
                    /\ forallb is_str (map fst items) = true
                    /\ forallb is_CalculatedDataEntry (map snd items) = true) ->
  ReferenceSpecies.init a = OK self ->
  (exists rd, _reference_data self = Assigned rd)
  /\ (exists cd, _calculated_data self = Assigned cd).
Proof.
  intros Hr Hc. unfold ReferenceSpecies.init.
  destruct (ReferenceSpecies.identity a) as [species | e]; simpl; [ | discriminate].
  destruct (ArkaneSpecies_init species (arg_label a) (arg_kwargs a)) as [base | e]; simpl;
    [ | discriminate].
  assert (exists rd, ReferenceSpecies.reference_data_setter (arg_reference_data a) Unassigned
                     = OK (Assigned rd)) as [rd ->].
  { destruct Hr as [Hf | (items & -> & Hk & Hv)].
    - exists []. apply (setter_falsy _ Hf).
    - unfold ReferenceSpecies.reference_data_setter.
      destruct (negb (truthy (PyDict items))); [eauto | ]. rewrite Hk, Hv. eauto. }
  assert (exists cd, ReferenceSpecies.calculated_data_setter (arg_calculated_data a) Unassigned
                     = OK (Assigned cd)) as [cd ->].
  { destruct Hc as [Hf | (items & -> & Hk & Hv)].
    - exists []. apply (setter_falsy _ Hf).
    - unfold ReferenceSpecies.calculated_data_setter.
      destruct (negb (truthy (PyDict items))); [eauto | ]. rewrite Hk, Hv. eauto. }
  simpl. intros E. inversion E. simpl. eauto.
Qed.

(** C4, on the code: [ReferenceSpecies(smiles='C', reference_data={1: entry})]
    is constructed without an error, and [_reference_data] is never
    assigned: the field is no mapping, and reading it raises. *)
Theorem ill_typed_mapping_leaves_field_unassigned :
  exists self,
    ReferenceSpecies.init
      (Demo.species_args "C"
         (PyDict [(PyInt 1, PyReferenceDataEntry (Demo.ref_entry 100%float 1%float))])
         PyNone None)
    = OK self
    /\ _reference_data self = Unassigned
    /\ _calculated_data self = Assigned []
    /\ ReferenceSpecies.reference_data self = Raise (AttributeError "_reference_data").
Proof. eexists. repeat split. Qed.

(** ** ReferenceSpecies: the identity source *)

Section Identity.

Context `{Collaborators}.

(** C8, as the code has it: when no species object is given and the
    SMILES, the InChI and the adjacency list are all None or empty, the
    constructor raises its [ValueError] whatever the other arguments and
    the extra keyword arguments are; otherwise the species handed to the
    parent class comes from the first of: the species object, the SMILES,
    the InChI, the adjacency list. *)
Theorem identity_source_required (a : init_args) :
  (arg_species a = None ->
   given (arg_smiles a) = None ->
   given (arg_inchi a) = None ->
   given (arg_adjacency_list a) = None ->
   ReferenceSpecies.init a = Raise (ValueError ReferenceSpecies.no_identity_msg))
  /\ (forall species, arg_species a = Some species ->
                      ReferenceSpecies.identity a = OK species)
  /\ (forall s, arg_species a = None -> arg_smiles a = Some s -> s <> EmptyString ->
                ReferenceSpecies.identity a = Species_SMILES s)
  /\ (forall s, arg_species a = None -> given (arg_smiles a) = None ->
                arg_inchi a = Some s -> s <> EmptyString ->
                ReferenceSpecies.identity a = Species_InChI s)
  /\ (forall s, arg_species a = None -> given (arg_smiles a) = None ->
                given (arg_inchi a) = None ->
                arg_adjacency_list a = Some s -> s <> EmptyString ->
                ReferenceSpecies.identity a = Species_fromAdjacencyList s).
Proof.
  unfold ReferenceSpecies.init, ReferenceSpecies.identity.
  repeat split.
  - intros -> -> -> ->. reflexivity.
  - intros species ->. reflexivity.
  - intros s -> -> Hs. now rewrite (given_nonempty s Hs).
  - intros s -> -> -> Hs. now rewrite (given_nonempty s Hs).
  - intros s -> -> -> -> Hs. now rewrite (given_nonempty s Hs).
Qed.

End Identity.

Lemma identity_source_required_witness :
  ReferenceSpecies.init (Demo.only_kwargs [("inchi_key", PyStr "VNWKTOKETHGBQD-UHFFFAOYSA-N")])
  = Raise (ValueError ReferenceSpecies.no_identity_msg).
Proof.
  apply (proj1 (identity_source_required
                  (Demo.only_kwargs [("inchi_key", PyStr "VNWKTOKETHGBQD-UHFFFAOYSA-N")])));
    reflexivity.
Defined.

(** C8, counterexample: keyword data as a stored record carries it (the
    InChI key, the geometry, the conformer) does not stand in for the four
    identity arguments, and two identity arguments at once are accepted. *)
Lemma kwargs_supply_no_identity :
  ReferenceSpecies.init
    (Demo.only_kwargs [("inchi_key", PyStr "VNWKTOKETHGBQD-UHFFFAOYSA-N");
                       ("xyz", PyStr "C 0.0 0.0 0.0");
                       ("conformer", PyConformer Demo.water)])
  = Raise (ValueError ReferenceSpecies.no_identity_msg)
  /\ ReferenceSpecies.init (Demo.smiles_and_inchi "C" "InChI=1S/CH4/h1H4")
     = OK (Demo.stored "C" [] [] 1).
Proof. split; reflexivity. Qed.

(** ** ReferenceDatabase: species by index *)

Section SpeciesByIndex.

Import ReferenceDatabase.

Variable set_name : string.
Variable search_set : list ReferenceSpecies.

Lemma find_first_with_index (i : Z) (ref_spcs : ReferenceSpecies) :
  first_with_index search_set i ref_spcs ->
  List.find (index_matches i) search_set = Some ref_spcs.
Proof.
  intros (before & after & -> & Hi & Hbefore).
  induction before as [ | r before IH]; simpl.
  - unfold index_matches. rewrite Hi, Z.eqb_refl. reflexivity.
  - assert (index_matches i r = false) as ->.
    { unfold index_matches. destruct (index r) as [j | ] eqn:Ej; [ | reflexivity].
      apply Z.eqb_neq. intros ->. apply (Hbefore r); [now left | assumption]. }
    apply IH. intros r' Hr'. apply Hbefore. now right.
Qed.

Lemma find_is_first_with_index (i : Z) (ref_spcs : ReferenceSpecies) :
  List.find (index_matches i) search_set = Some ref_spcs ->
  first_with_index search_set i ref_spcs.
Proof.
  unfold first_with_index.
  induction search_set as [ | r rest IH]; simpl; [discriminate | ].
  destruct (index_matches i r) eqn:Er.
  - intros E. inversion E. subst r. exists [], rest. split; [reflexivity | ].
    split; [ | intros r' []].
    unfold index_matches in Er. destruct (index ref_spcs) as [j | ]; [ | discriminate].
    apply Z.eqb_eq in Er. now subst j.
  - intros E. destruct (IH E) as (before & after & -> & Hi & Hbefore).
    exists (r :: before), after. split; [reflexivity | ]. split; [assumption | ].
    intros r' [<- | Hr']; [ | now apply Hbefore].
    unfold index_matches in Er. destruct (index r) as [j | ]; [ | discriminate].
    apply Z.eqb_neq in Er. congruence.
Qed.

Lemma find_no_index (i : Z) :
  (forall r, In r search_set -> index r <> Some i) ->
  List.find (index_matches i) search_set = None.
Proof.
  intros Hnone. destruct (List.find (index_matches i) search_set) as [r | ] eqn:E;
    [ | reflexivity].
  destruct (find_is_first_with_index i r E) as (before & after & Hset & Hi & _).
  exfalso. apply (Hnone r); [ | assumption]. rewrite Hset. apply in_elt.
Qed.

Lemma collect_by_index_found (indices : list Z) (found acc : list ReferenceSpecies) :
  Forall2 (first_with_index search_set) indices found ->
  collect_by_index set_name search_set indices acc = OK (acc ++ found)%list.
Proof.
  intros Hall. revert acc.
  induction Hall as [ | i r indices found Hi _ IH]; intros acc; simpl.
  - now rewrite app_nil_r.
  - rewrite (find_first_with_index i r Hi), IH, <- app_assoc. reflexivity.
Qed.

Lemma collect_by_index_missing (before : list Z) (i : Z) (after : list Z)
  (found acc : list ReferenceSpecies) :
  Forall2 (first_with_index search_set) before found ->
  (forall r, In r search_set -> index r <> Some i) ->
  collect_by_index set_name search_set (before ++ i :: after) acc =
    Raise (ValueError (index_not_found_msg i set_name)).
Proof.
  intros Hall Hnone. revert acc.
  induction Hall as [ | j r before found Hj _ IH]; intros acc; simpl.
  - now rewrite (find_no_index i Hnone).
  - rewrite (find_first_with_index j r Hj). apply IH.
Qed.

(** Every request is of one of the two kinds. *)
Lemma indices_found_or_missing (indices : list Z) :
  (exists found, Forall2 (first_with_index search_set) indices found)
  \/ (exists before i after found,
         indices = (before ++ i :: after)%list
         /\ Forall2 (first_with_index search_set) before found
         /\ forall r, In r search_set -> index r <> Some i).
Proof.
  induction indices as [ | i indices IH].
  - left. exists []. constructor.
  - destruct (List.find (index_matches i) search_set) as [r | ] eqn:E.
    + apply find_is_first_with_index in E.
      destruct IH as [(found & Hall) | (before & j & after & found & -> & Hall & Hnone)].
      * left. exists (r :: found). now constructor.
      * right. exists (i :: before), j, after, (r :: found).
        split; [reflexivity | ]. split; [now constructor | assumption].
    + right. exists [], i, indices, []. split; [reflexivity | ]. split; [constructor | ].
      intros r Hr Hi.
      pose proof (find_none _ _ E r Hr) as Hno. unfold index_matches in Hno.
      rewrite Hi, Z.eqb_refl in Hno. discriminate.
Qed.

End SpeciesByIndex.

(** C6: on a set stored under [set_name], [get_species_from_index] returns
    for each requested index, in the order of the request, the first
    species of the set with that index; when a requested index has no
    match (those before it having one) it raises the [ValueError] whose
    message carries that index and the set name; every request is of one
    of these two kinds. *)
Theorem get_species_from_index_in_order (self : ReferenceDatabase) (set_name : string)
  (search_set : list ReferenceSpecies) (indices : list Z) :
  reference_sets self !! set_name = Some search_set ->
  (forall found,
      Forall2 (first_with_index search_set) indices found ->
      ReferenceDatabase.get_species_from_index self (IndexList indices) set_name = OK found)
  /\ (forall before i after found,
         indices = (before ++ i :: after)%list ->
         Forall2 (first_with_index search_set) before found ->
         (forall r, In r search_set -> index r <> Some i) ->
         ReferenceDatabase.get_species_from_index self (IndexList indices) set_name =
           Raise (ValueError ("No reference species with index " ++ str_of_int i ++
                              " was found in reference set " ++ set_name)))
  /\ ((exists found, Forall2 (first_with_index search_set) indices found)
      \/ (exists before i after found,
             indices = (before ++ i :: after)%list
             /\ Forall2 (first_with_index search_set) before found
             /\ forall r, In r search_set -> index r <> Some i)).
Proof.
  intros Hset. unfold ReferenceDatabase.get_species_from_index. rewrite Hset.
  split; [ | split].
  - intros found Hall. apply (collect_by_index_found set_name search_set indices found []).
    assumption.
  - intros before i after found -> Hall Hnone.
    now apply (collect_by_index_missing set_name search_set before i after found []).
  - apply indices_found_or_missing.
Qed.

Lemma get_species_from_index_in_order_witness :
  ReferenceDatabase.get_species_from_index Demo.indexed_db (IndexList [3; 1]%Z) "main"
  = OK [Demo.propane; Demo.methane].
Proof.
  apply (proj1 (get_species_from_index_in_order Demo.indexed_db "main"
                  [Demo.methane; Demo.ethane; Demo.propane] [3; 1]%Z eq_refl)).
  constructor; [ | constructor; [ | constructor]].
  - exists [Demo.methane; Demo.ethane], []. repeat split.
    intros r [<- | [<- | []]]; discriminate.
  - exists [], [Demo.ethane; Demo.propane]. repeat split. intros r [].
Defined.

(** Index 99 is in no species of the set: the error names it and the set. *)
Example index_99_not_found :
  ReferenceDatabase.get_species_from_index Demo.indexed_db (IndexList [3; 99; 1]%Z) "main"
  = Raise (ValueError "No reference species with index 99 was found in reference set main")
  /\ ReferenceDatabase.get_species_from_index Demo.indexed_db (OneIndex 2) "main"
     = OK [Demo.ethane].
Proof. split; vm_compute; reflexivity. Qed.

(** ** ReferenceDatabase: loading reference sets *)

Section LoadFacts.

Import ReferenceDatabase.

Context `{Collaborators} `{Storage}.

Lemma accept_app (accepted : list Molecule) (l1 l2 : list entry) :
  accept accepted (l1 ++ l2) =
    (accept accepted l1 ++ accept (accepted ++ map snd (accept accepted l1)) l2)%list.
Proof.
  revert accepted. induction l1 as [ | e l1 IH]; intros accepted; simpl.
  - now rewrite app_nil_r.
  - destruct (negb (has_data (fst e))); [apply IH | ].
    destruct (existsb (isIsomorphic (snd e)) accepted); [apply IH | ].
    simpl. rewrite IH, <- app_assoc. reflexivity.
Qed.

Lemma accept_sets_concat (accepted : list Molecule) (sets : list (list entry)) :
  concat (accept_sets accepted sets) = accept accepted (concat sets).
Proof.
  revert accepted. induction sets as [ | entries sets IH]; intros accepted; simpl.
  - reflexivity.
  - now rewrite accept_app, IH.
Qed.

Lemma accept_has_data (accepted : list Molecule) (entries : list entry) :
  Forall (fun e => has_data (fst e) = true) (accept accepted entries).
Proof.
  revert accepted. induction entries as [ | e entries IH]; intros accepted; simpl.
  - constructor.
  - destruct (has_data (fst e)) eqn:Ed; simpl; [ | apply IH].
    destruct (existsb (isIsomorphic (snd e)) accepted); [apply IH | ].
    constructor; [assumption | apply IH].
Qed.

Lemma accept_not_isomorphic_to_earlier (accepted : list Molecule) (entries : list entry)
  (kept1 : list entry) (e : entry) (kept2 : list entry) :
  accept accepted entries = (kept1 ++ e :: kept2)%list ->
  existsb (isIsomorphic (snd e)) (accepted ++ map snd kept1) = false.
Proof.
  revert accepted kept1.
  induction entries as [ | e0 entries IH]; intros accepted kept1; simpl.
  - destruct kept1; discriminate.
  - destruct (negb (has_data (fst e0))); [apply IH | ].
    destruct (existsb (isIsomorphic (snd e0)) accepted) eqn:Eiso; [apply IH | ].
    destruct kept1 as [ | k kept1]; simpl; intros E; inversion E; subst.
    + now rewrite app_nil_r.
    + replace (accepted ++ snd k :: map snd kept1)%list
        with ((accepted ++ [snd k]) ++ map snd kept1)%list
        by now rewrite <- app_assoc.
      now apply IH.
Qed.

Lemma lacks_data_assigned (ref_spcs : ReferenceSpecies) :
  (exists cd, _calculated_data ref_spcs = Assigned cd) ->
  (exists rd, _reference_data ref_spcs = Assigned rd) ->
  lacks_data ref_spcs = OK (negb (has_data ref_spcs)).
Proof.
  intros [cd Hcd] [rd Hrd].
  unfold lacks_data, has_data, ReferenceSpecies.calculated_data,
    ReferenceSpecies.reference_data.
  rewrite Hcd, Hrd. simpl.
  destruct (Nat.eqb (List.length cd) 0); simpl; [reflexivity | ].
  now rewrite negb_involutive.
Qed.

(** One pass of the loop body, on a readable file. *)
Lemma load_file_readable (path set_name spcs : string) (e : entry)
  (molecule_list : list Molecule) (reference_set : list ReferenceSpecies) (w : world) :
  readable_file path spcs e ->
  load_file path set_name spcs (molecule_list, reference_set) w =
    if negb (has_data (fst e)) then
      (OK (molecule_list, reference_set),
       {| self_db := self_db w;
          logged := logged w ++
                    [LogWarning (no_data_msg (smiles (arkane (fst e))) set_name)] |})
    else if existsb (isIsomorphic (snd e)) molecule_list then
      (OK (molecule_list, reference_set),
       {| self_db := self_db w;
          logged := logged w ++
                    [LogWarning (duplicate_msg (smiles (arkane (fst e))) set_name spcs)] |})
    else (OK (molecule_list ++ [snd e], reference_set ++ [fst e])%list, w).
Proof.
  intros (Hyaml & Hmol & Hcd & Hrd).
  unfold load_file, io_bind, io_lift. rewrite Hyaml, Hmol.
  rewrite (lacks_data_assigned (fst e) Hcd Hrd). simpl.
  destruct (negb (has_data (fst e))); [reflexivity | ].
  destruct (existsb (isIsomorphic (snd e)) molecule_list); reflexivity.
Qed.

(** The loop over the files of one directory: the lists grow by what the
    specification accepts, and every other file costs one warning. *)
Lemma load_files_readable (path set_name : string) (spcs_files : list string)
  (entries : list entry) :
  Forall2 (readable_file path) spcs_files entries ->
  forall (molecule_list : list Molecule) (reference_set : list ReferenceSpecies)
         (w : world),
  exists new_log,
    load_files path set_name spcs_files (molecule_list, reference_set) w =
      (OK ((molecule_list ++ map snd (accept molecule_list entries))%list,
           (reference_set ++ map fst (accept molecule_list entries))%list),
       {| self_db := self_db w; logged := logged w ++ new_log |})
    /\ List.length (List.filter is_warning new_log)
       + List.length (accept molecule_list entries) = List.length entries.
Proof.
  induction 1 as [ | spcs e spcs_files entries He _ IH];
    intros molecule_list reference_set w; simpl.
  - exists []. unfold io_ret. rewrite !app_nil_r. destruct w. auto.
  - unfold io_bind. rewrite (load_file_readable _ _ _ e _ _ _ He).
    destruct (negb (has_data (fst e)));
      [ | destruct (existsb (isIsomorphic (snd e)) molecule_list)].
    + destruct (IH molecule_list reference_set
                  {| self_db := self_db w;
                     logged := logged w ++
                       [LogWarning (no_data_msg (smiles (arkane (fst e))) set_name)] |})
        as (new_log & -> & Hcount).
      eexists (_ :: new_log). simpl. rewrite <- app_assoc. simpl.
      split; [reflexivity | simpl; lia].
    + destruct (IH molecule_list reference_set
                  {| self_db := self_db w;
                     logged := logged w ++
                       [LogWarning
                          (duplicate_msg (smiles (arkane (fst e))) set_name spcs)] |})
        as (new_log & -> & Hcount).
      eexists (_ :: new_log). simpl. rewrite <- app_assoc. simpl.
      split; [reflexivity | simpl; lia].
    + destruct (IH (molecule_list ++ [snd e])%list (reference_set ++ [fst e])%list w)
        as (new_log & -> & Hcount).
      exists new_log. simpl. rewrite <- !app_assoc. simpl.
      split; [reflexivity | lia].
Qed.

(** The loop over the directories. *)
Lemma load_paths_readable (paths : list string) (sets : list (list entry)) :
  Forall2 readable_set paths sets ->
  forall (molecule_list : list Molecule) (w : world),
  exists new_log,
    load_paths paths molecule_list w =
      (OK tt,
       {| self_db :=
            {| reference_sets :=
                 assign_sets
                   (combine (map os_path_basename paths)
                            (map (map fst) (accept_sets molecule_list sets)))
                   (reference_sets (self_db w)) |};
          logged := logged w ++ new_log |})
    /\ List.length (List.filter is_warning new_log)
       + List.length (concat (accept_sets molecule_list sets))
       = List.length (concat sets).
Proof.
  induction 1 as [ | path entries paths sets (spcs_files & Hdir & Hfiles) _ IH];
    intros molecule_list w; simpl.
  - exists []. unfold io_ret. rewrite app_nil_r. destruct w as [[db] log]. auto.
  - unfold io_bind at 1. unfold logging at 1.
    unfold io_bind at 1. unfold io_lift at 1. rewrite Hdir.
    unfold io_bind at 1.
    destruct (load_files_readable path (os_path_basename path) spcs_files entries Hfiles
                molecule_list []
                {| self_db := self_db w;
                   logged := logged w ++
                     [LogInfo (loading_msg (os_path_basename path) path)] |})
      as (file_log & -> & Hfile_count).
    unfold io_bind at 1. unfold set_reference_set at 1. simpl.
    match goal with
    | |- context [load_paths paths ?m ?w'] =>
        destruct (IH m w') as (rest_log & -> & Hrest_count)
    end.
    exists (LogInfo (loading_msg (os_path_basename path) path) :: file_log ++ rest_log)%list.
    simpl. rewrite <- !app_assoc. simpl. split; [reflexivity | ].
    rewrite List.filter_app, !length_app. lia.
Qed.

End LoadFacts.

Section LoadTheorem.

Import ReferenceDatabase.

Context `{Collaborators} `{Storage}.

Lemma assign_sets_other (named : list (string * list ReferenceSpecies))
  (sets : gmap string (list ReferenceSpecies)) (set_name : string) :
  (forall ns, In ns named -> fst ns <> set_name) ->
  assign_sets named sets !! set_name = sets !! set_name.
Proof.
  revert sets. induction named as [ | [n s] named IH]; intros sets Hother; simpl.
  - reflexivity.
  - unfold assign_sets in *. simpl. rewrite IH.
    + apply lookup_insert_ne. apply (Hother (n, s)). now left.
    + intros ns Hns. apply Hother. now right.
Qed.

(** What ends up under the name of a directory that is not named again
    later in the call. *)
Lemma assign_sets_lookup (paths1 : list string) (path : string) (paths2 : list string) :
  (forall p, In p paths2 -> os_path_basename p <> os_path_basename path) ->
  forall (sets1 : list (list entry)) (entries : list entry) (sets2 : list (list entry))
         (accepted : list Molecule) (stored : gmap string (list ReferenceSpecies)),
  List.length paths1 = List.length sets1 ->
  assign_sets
    (combine (map os_path_basename (paths1 ++ path :: paths2))
             (map (map fst) (accept_sets accepted (sets1 ++ entries :: sets2))))
    stored !! os_path_basename path
  = Some (map fst (accept (accepted ++ map snd (accept accepted (concat sets1))) entries)).
Proof.
  intros Hlater.
  induction paths1 as [ | p paths1 IH];
    intros [ | s sets1] entries sets2 accepted stored Hlen; try discriminate; simpl.
  - unfold assign_sets. simpl. fold (assign_sets
      (combine (map os_path_basename paths2)
         (map (map fst) (accept_sets (accepted ++ map snd (accept accepted entries)) sets2)))
      (<[os_path_basename path := map fst (accept accepted entries)]> stored)).
    rewrite assign_sets_other.
    + rewrite lookup_insert_eq, app_nil_r. reflexivity.
    + intros [n s] Hns. simpl. apply in_combine_l in Hns.
      apply in_map_iff in Hns as (p & <- & Hp). now apply Hlater.
  - unfold assign_sets. simpl. fold (assign_sets
      (combine (map os_path_basename (paths1 ++ path :: paths2))
         (map (map fst)
            (accept_sets (accepted ++ map snd (accept accepted s))
               (sets1 ++ entries :: sets2))))
      (<[os_path_basename p := map fst (accept accepted s)]> stored)).
    rewrite IH by (simpl in Hlen; lia).
    rewrite accept_app, map_app, app_assoc. reflexivity.
Qed.

(** C5: when every file of every directory deserialises, [load] raises
    nothing and stores under each set name that no later path of the call
    ends in what the specification accepts from that directory, the
    structures accepted earlier in the call (from this directory and from
    those before it) being known; a name that a later path ends in is
    assigned again from that path.  Every entry that is not accepted costs
    one logged warning.  What is accepted: an entry
    with an empty mapping never; an entry isomorphic to a structure
    accepted before it never; every other entry, so that of several
    isomorphic entries the first one is kept and no later one. *)
Theorem load_keeps_first_of_each_structure (paths : list string)
  (sets : list (list entry)) (w : world) :
  paths <> [] ->
  Forall2 readable_set paths sets ->
  exists w' new_log,
    load (PathList paths) w = (OK tt, w')
    /\ logged w' = (logged w ++ new_log)%list
    /\ List.length (List.filter is_warning new_log)
       + List.length (accept [] (concat sets)) = List.length (concat sets)
    /\ reference_sets (self_db w') =
         assign_sets (combine (map os_path_basename paths)
                              (map (map fst) (accept_sets [] sets)))
                     (reference_sets (self_db w))
    /\ (forall paths1 path paths2 sets1 entries sets2,
           paths = (paths1 ++ path :: paths2)%list ->
           sets = (sets1 ++ entries :: sets2)%list ->
           List.length paths1 = List.length sets1 ->
           (forall p, In p paths2 -> os_path_basename p <> os_path_basename path) ->
           reference_sets (self_db w') !! os_path_basename path =
             Some (map fst (accept (map snd (accept [] (concat sets1))) entries)))
    /\ concat (accept_sets [] sets) = accept [] (concat sets)
    /\ Forall (fun e => has_data (fst e) = true) (accept [] (concat sets))
    /\ (forall kept1 e kept2,
           accept [] (concat sets) = (kept1 ++ e :: kept2)%list ->
           existsb (isIsomorphic (snd e)) (map snd kept1) = false)
    /\ (forall before e after,
           concat sets = (before ++ e :: after)%list ->
           let known := map snd (accept [] before) in
           accept [] (concat sets) =
             if has_data (fst e) && negb (existsb (isIsomorphic (snd e)) known)
             then (accept [] before ++ e :: accept (known ++ [snd e]) after)%list
             else (accept [] before ++ accept known after)%list).
Proof.
  intros Hpaths Hsets.
  destruct (load_paths_readable paths sets Hsets [] w) as (new_log & Hload & Hcount).
  eexists _, new_log.
  split; [ | split; [ | split; [ | split; [ | split; [ | split; [ | split; [ | split]]]]]]].
  - unfold load. destruct paths as [ | p paths]; [congruence | exact Hload].
  - reflexivity.
  - now rewrite <- accept_sets_concat.
  - reflexivity.
  - intros paths1 path paths2 sets1 entries sets2 -> -> Hlen Hlater. simpl.
    now rewrite (assign_sets_lookup paths1 path paths2 Hlater sets1 entries sets2 []
                   (reference_sets (self_db w)) Hlen).
  - apply accept_sets_concat.
  - apply accept_has_data.
  - intros kept1 e kept2 Hkept.
    apply (accept_not_isomorphic_to_earlier [] (concat sets) kept1 e kept2 Hkept).
  - intros before e after -> known. rewrite accept_app. simpl. fold known.
    destruct (has_data (fst e)); simpl; [ | reflexivity].
    destruct (existsb (isIsomorphic (snd e)) known); reflexivity.
Qed.

(** A single path string stands for the list of that one path, and an
    empty argument for the main set of the database directory. *)
Lemma load_path_string (path : string) (w : world) :
  path <> EmptyString ->
  load (PathStr path) w = load (PathList [path]) w
  /\ load (PathStr EmptyString) w = load (PathList default_paths) w
  /\ load (PathList []) w = load (PathList default_paths) w.
Proof.
  intros Hpath. unfold load, default_paths. destruct path; [congruence | ].
  repeat split.
Qed.

End LoadTheorem.

Lemma demo_sets_readable :
  Forall2 (@readable_set Demo.chemistry Demo.storage)
    ["/db/reference_sets/main"; "/sets/extra"]
    [Demo.main_entries; Demo.extra_entries].
Proof.
  constructor; [ | constructor; [ | constructor]].
  - exists ["1.yml"; "2.yml"; "4.yml"; "5.yml"]. split; [reflexivity | ].
    repeat constructor; simpl; eauto.
  - exists ["3.yml"; "1.yml"]. split; [reflexivity | ].
    repeat constructor; simpl; eauto.
Defined.

Lemma load_keeps_first_of_each_structure_witness :
  exists w',
    @ReferenceDatabase.load Demo.chemistry Demo.storage
      (PathList ["/db/reference_sets/main"; "/sets/extra"]) Demo.empty_world
    = (OK tt, w')
    /\ reference_sets (self_db w') !! "main" = Some [Demo.methane; Demo.ethane]
    /\ reference_sets (self_db w') !! "extra" = Some [Demo.propane].
Proof.
  destruct (@load_keeps_first_of_each_structure Demo.chemistry Demo.storage
              ["/db/reference_sets/main"; "/sets/extra"]
              [Demo.main_entries; Demo.extra_entries] Demo.empty_world
              ltac:(discriminate) demo_sets_readable)
    as (w' & new_log & Hload & _ & _ & _ & Hlookup & _).
  exists w'. split; [exact Hload | ]. split.
  - apply (Hlookup [] "/db/reference_sets/main" ["/sets/extra"]
             [] Demo.main_entries [Demo.extra_entries]); try reflexivity.
    intros p [<- | []]. discriminate.
  - apply (Hlookup ["/db/reference_sets/main"] "/sets/extra" []
             [Demo.main_entries] Demo.extra_entries []); try reflexivity.
    intros p [].
Defined.

(** C5, counterexample: two paths that end in the same set name, each
    directory holding methane.  The entry of the second directory is a
    duplicate of the one accepted from the first and is left out with a
    warning; the list of the second directory, which is empty, is then
    assigned to [main], so the first-encountered entry is not retained
    there.  Loaded alone, the first directory leaves that entry in [main]. *)
Lemma same_set_name_drops_first_entry :
  @ReferenceDatabase.load Demo.chemistry Demo.twin_storage
    (PathList ["/x/main"; "/y/main"]) Demo.empty_world
  = (OK tt,
     {| self_db := {| reference_sets := <["main" := []]> (<["main" := [Demo.methane]]> ∅) |};
        logged :=
          [LogInfo "Loading in reference set `main` from /x/main ...";
           LogInfo "Loading in reference set `main` from /y/main ...";
           LogWarning (ReferenceDatabase.duplicate_msg "C" "main" "1.yml")] |})
  /\ (<["main" := []]> (<["main" := [Demo.methane]]> ∅)
        : gmap string (list ReferenceSpecies)) !! "main" = Some []
  /\ reference_sets
       (self_db (snd (@ReferenceDatabase.load Demo.chemistry Demo.twin_storage
                        (PathList ["/x/main"]) Demo.empty_world))) !! "main"
     = Some [Demo.methane].
Proof.
  split; [vm_compute; reflexivity | ].
  split; [apply lookup_insert_eq | vm_compute; reflexivity].
Qed.

(** The whole call on the two directories: methane's second file and the
    species without calculated data are left out of [main], methane is left
    out of [extra], and each of the three costs a warning. *)
Example load_two_sets :
  @ReferenceDatabase.load Demo.chemistry Demo.storage
    (PathList ["/db/reference_sets/main"; "/sets/extra"]) Demo.empty_world
  = (OK tt,
     {| self_db :=
          {| reference_sets :=
               <["extra" := [Demo.propane]]>
                 (<["main" := [Demo.methane; Demo.ethane]]> ∅) |};
        logged :=
          [LogInfo "Loading in reference set `main` from /db/reference_sets/main ...";
           LogWarning (ReferenceDatabase.duplicate_msg "C" "main" "4.yml");
           LogWarning (ReferenceDatabase.no_data_msg "CO" "main");
           LogInfo "Loading in reference set `extra` from /sets/extra ...";
           LogWarning (ReferenceDatabase.duplicate_msg "C" "extra" "1.yml")] |}).
Proof. vm_compute. reflexivity. Qed.

(** * Further properties of the code *)

(** ** The entry classes: what the validated setters accept and leave *)

(** X1: a truthy value that is no ThermoData is refused as [thermo_data]
    by both constructors, and a truthy value that is no Conformer is
    refused as [conformer], before [thermo_data] is looked at; each with
    the setter's own [ValueError]. *)
Theorem entry_kind_checked (value : PyVal) :
  truthy value = true ->
  (is_ThermoData value = false ->
   (forall atct_id,
       ReferenceDataEntry.init value atct_id =
         Raise (ValueError
           "thermo_data for a ReferenceDataEntry object must be an rmgpy ThermoData instance"))
   /\ (forall conformer t1_diagnostic fod,
          truthy conformer = false \/ is_Conformer conformer = true ->
          CalculatedDataEntry.init conformer value t1_diagnostic fod =
            Raise (ValueError
              "thermo_data for a CalculatedDataEntry object must be an rmgpy ThermoData object")))
  /\ (is_Conformer value = false ->
      forall thermo_data t1_diagnostic fod,
        CalculatedDataEntry.init value thermo_data t1_diagnostic fod =
          Raise (ValueError
            "conformer for a CalculatedDataEntry object must be an rmgpy Conformer instance")).
Proof.
  intros Ht. split.
  - intros Hk. split.
    + intros atct_id. unfold ReferenceDataEntry.init, ReferenceDataEntry.set_thermo_data.
      rewrite Ht. destruct value; try discriminate; reflexivity.
    + intros conformer t1 fod Hconf.
      destruct (CalculatedDataEntry_set_conformer_returns conformer
                  CalculatedDataEntry.blank Hconf) as [self Hself].
      unfold CalculatedDataEntry.init. rewrite Hself. simpl.
      unfold CalculatedDataEntry.set_thermo_data. rewrite Ht.
      destruct value; try discriminate; reflexivity.
  - intros Hk thermo_data t1 fod.
    unfold CalculatedDataEntry.init, CalculatedDataEntry.set_conformer.
    rewrite Ht. destruct value; try discriminate; reflexivity.
Qed.

Lemma entry_kind_checked_witness :
  ReferenceDataEntry.init (PyStr "H298 = -74.6 kJ/mol") (Some "25")
  = Raise (ValueError
      "thermo_data for a ReferenceDataEntry object must be an rmgpy ThermoData instance")
  /\ CalculatedDataEntry.init (PyInt 1) (PyInt 2) None None
     = Raise (ValueError
         "conformer for a CalculatedDataEntry object must be an rmgpy Conformer instance").
Proof.
  split.
  - apply (proj1 (entry_kind_checked (PyStr "H298 = -74.6 kJ/mol") eq_refl) eq_refl).
  - apply (proj2 (entry_kind_checked (PyInt 1) eq_refl) eq_refl).
Defined.

(** X2: what an assignment to [thermo_data] that does not raise leaves
    behind.  On a ReferenceDataEntry the value assigned was a ThermoData,
    which is then read back, or it was falsy, and None is read back.  On a
    CalculatedDataEntry the value was a ThermoData, which is then read
    back, or it was falsy, and the entry is as it was before: a thermo_data
    stored earlier stays. *)
Theorem thermo_data_assignment (value : PyVal) :
  (forall self self',
      ReferenceDataEntry.set_thermo_data value self = OK self' ->
      rde_atct_id self' = rde_atct_id self
      /\ ((exists t, value = PyThermoData t
                     /\ ReferenceDataEntry.thermo_data self' = OK (Some t))
          \/ (truthy value = false /\ ReferenceDataEntry.thermo_data self' = OK None)))
  /\ (forall self self',
         CalculatedDataEntry.set_thermo_data value self = OK self' ->
         cde_conformer self' = cde_conformer self
         /\ ((exists t, value = PyThermoData t
                        /\ CalculatedDataEntry.thermo_data self' = OK (Some t))
             \/ (truthy value = false /\ self' = self))).
Proof.
  split; intros self self';
    unfold ReferenceDataEntry.set_thermo_data, CalculatedDataEntry.set_thermo_data;
    destruct (truthy value) eqn:Ht.
  - destruct value; try discriminate. intros E. inversion E. simpl. eauto.
  - intros E. inversion E. simpl. auto.
  - destruct value; try discriminate. intros E. inversion E. simpl. eauto.
  - intros E. inversion E. auto.
Qed.

Lemma thermo_data_assignment_witness :
  cde_conformer Demo.calc_entry = cde_conformer Demo.calc_entry
  /\ ((exists t, PyNone = PyThermoData t
                 /\ CalculatedDataEntry.thermo_data Demo.calc_entry = OK (Some t))
      \/ (truthy PyNone = false /\ Demo.calc_entry = Demo.calc_entry)).
Proof.
  apply (proj2 (thermo_data_assignment PyNone) Demo.calc_entry Demo.calc_entry).
  reflexivity.
Defined.

(** ** ReferenceSpecies: what the mapping fields hold *)

(** X3: a non-empty dictionary from strings to entries of the field's kind
    is stored as it is: the assignment returns, the field then reads as
    that dictionary, and the other mapping field is left alone. *)
Theorem mapping_assignment_round_trip (items : list (PyVal * PyVal))
  (self : ReferenceSpecies) :
  items <> [] ->
  forallb is_str (map fst items) = true ->
  (forallb is_ReferenceDataEntry (map snd items) = true ->
   exists self' rd,
     ReferenceSpecies.set_reference_data (PyDict items) self = OK self'
     /\ ReferenceSpecies.reference_data self' = OK rd
     /\ embed_reference_data rd = PyDict items
     /\ _calculated_data self' = _calculated_data self)
  /\ (forallb is_CalculatedDataEntry (map snd items) = true ->
      exists self' cd,
        ReferenceSpecies.set_calculated_data (PyDict items) self = OK self'
        /\ ReferenceSpecies.calculated_data self' = OK cd
        /\ embed_calculated_data cd = PyDict items
        /\ _reference_data self' = _reference_data self).
Proof.
  intros Hne Hk.
  assert (negb (truthy (PyDict items)) = false) as Ht
      by (destruct items; [congruence | reflexivity]).
  split; intros Hv.
  - exists {| arkane := arkane self;
              _reference_data := Assigned (as_reference_data items);
              _calculated_data := _calculated_data self;
              index := index self;
              cas_number := cas_number self;
              preferred_reference := preferred_reference self;
              default_xyz_chemistry := default_xyz_chemistry self |},
      (as_reference_data items).
    unfold ReferenceSpecies.set_reference_data, ReferenceSpecies.reference_data_setter.
    rewrite Ht, Hk, Hv. simpl. repeat split.
    unfold embed_reference_data. now rewrite as_reference_data_well_typed.
  - exists {| arkane := arkane self;
              _reference_data := _reference_data self;
              _calculated_data := Assigned (as_calculated_data items);
              index := index self;
              cas_number := cas_number self;
              preferred_reference := preferred_reference self;
              default_xyz_chemistry := default_xyz_chemistry self |},
      (as_calculated_data items).
    unfold ReferenceSpecies.set_calculated_data, ReferenceSpecies.calculated_data_setter.
    rewrite Ht, Hk, Hv. simpl. repeat split.
    unfold embed_calculated_data. now rewrite as_calculated_data_well_typed.
Qed.

Lemma mapping_assignment_round_trip_witness :
  exists self' rd,
    ReferenceSpecies.set_reference_data Demo.three_sources Demo.methane = OK self'
    /\ ReferenceSpecies.reference_data self' = OK rd
    /\ embed_reference_data rd = Demo.three_sources
    /\ _calculated_data self' = _calculated_data Demo.methane.
Proof.
  apply (proj1 (mapping_assignment_round_trip
                  (map (fun kv => (PyStr (fst kv), PyReferenceDataEntry (snd kv)))
                       Demo.three_list)
                  Demo.methane ltac:(discriminate) eq_refl)).
  reflexivity.
Defined.

(** ** ReferenceSpecies: merging in a calculated entry *)

Lemma dict_get_set_eq {V : Type} (d : list (string * V)) (key : string) (v : V) :
  dict_get (dict_set d key v) key = Some v.
Proof.
  induction d as [ | [k v0] d IH]; simpl.
  - now rewrite String.eqb_refl.
  - destruct (String.eqb k key) eqn:E; simpl; rewrite E; [reflexivity | exact IH].
Qed.

Lemma dict_get_set_ne {V : Type} (d : list (string * V)) (key other : string) (v : V) :
  other <> key -> dict_get (dict_set d key v) other = dict_get d other.
Proof.
  intros Hne. induction d as [ | [k v0] d IH]; simpl.
  - apply String.eqb_neq in Hne. rewrite String.eqb_sym in Hne. now rewrite Hne.
  - destruct (String.eqb k key) eqn:E; simpl.
    + apply String.eqb_eq in E. subst k.
      assert (String.eqb key other = false) as -> by (apply String.eqb_neq; congruence).
      reflexivity.
    + destruct (String.eqb k other); [reflexivity | exact IH].
Qed.

Lemma dict_set_keys {V : Type} (d : list (string * V)) (key : string) (v : V) :
  map fst (dict_set d key v) =
    match dict_get d key with
    | Some _ => map fst d
    | None => (map fst d ++ [key])%list
    end.
Proof.
  induction d as [ | [k v0] d IH]; simpl; [reflexivity | ].
  destruct (String.eqb k key) eqn:E; simpl.
  - apply String.eqb_eq in E. now subst k.
  - rewrite IH. now destruct (dict_get d key).
Qed.

(** The keys after [d[key] = v], whatever their order: those from before,
    and [key] once more when it was not among them. *)
Lemma dict_set_keys_perm {V : Type} (d : list (string * V)) (key : string) (v : V) :
  Permutation (map fst (dict_set d key v))
    match dict_get d key with
    | Some _ => map fst d
    | None => key :: map fst d
    end.
Proof.
  rewrite dict_set_keys. destruct (dict_get d key); [reflexivity | ].
  symmetry. apply Permutation_cons_append.
Qed.

Lemma dict_get_absent {V : Type} (d : list (string * V)) (key : string) :
  dict_get d key = None -> ~ In key (map fst d).
Proof.
  induction d as [ | [k v0] d IH]; simpl; [tauto | ].
  destruct (String.eqb k key) eqn:E; [discriminate | ].
  apply String.eqb_neq in E. intros Hnone [Hk | Hin]; [congruence | now apply IH].
Qed.

Lemma dict_set_keys_NoDup {V : Type} (d : list (string * V)) (key : string) (v : V) :
  NoDup (map fst d) -> NoDup (map fst (dict_set d key v)).
Proof.
  intros Hd. rewrite dict_set_keys_perm.
  destruct (dict_get d key) eqn:E; [exact Hd | ].
  apply NoDup_cons_2; [ | exact Hd].
  rewrite list_elem_of_In. now apply dict_get_absent.
Qed.

(** X4: when the job's conformer and thermo_data pass the entry's setters
    and [calculated_data] holds a mapping, [update_from_arkane_spcs]
    returns; afterwards the job's level of theory maps to the new entry
    (an entry stored there before is overwritten and no key is added twice:
    the keys are, up to their order, those from before, with the level of
    theory added when it was not among them), every other model chemistry
    maps to what it did, and the reference data and the other attributes
    are untouched. *)
Theorem update_from_arkane_spcs_stores (arkane_species : arkane_job)
  (self : ReferenceSpecies) (calc_data : CalculatedDataEntry) (cd : calculated_data_t) :
  CalculatedDataEntry.init (job_conformer arkane_species)
    (job_thermo_data arkane_species) None None = OK calc_data ->
  _calculated_data self = Assigned cd ->
  exists self' cd',
    ReferenceSpecies.update_from_arkane_spcs arkane_species self = OK self'
    /\ _calculated_data self' = Assigned cd'
    /\ dict_get cd' (job_level_of_theory arkane_species) = Some calc_data
    /\ (forall model_chemistry,
           model_chemistry <> job_level_of_theory arkane_species ->
           dict_get cd' model_chemistry = dict_get cd model_chemistry)
    /\ Permutation (map fst cd')
         match dict_get cd (job_level_of_theory arkane_species) with
         | Some _ => map fst cd
         | None => job_level_of_theory arkane_species :: map fst cd
         end
    /\ (NoDup (map fst cd) -> NoDup (map fst cd'))
    /\ _reference_data self' = _reference_data self
    /\ arkane self' = arkane self
    /\ index self' = index self
    /\ preferred_reference self' = preferred_reference self
    /\ default_xyz_chemistry self' = default_xyz_chemistry self.
Proof.
  intros Hentry Hcd.
  eexists _, (dict_set cd (job_level_of_theory arkane_species) calc_data).
  unfold ReferenceSpecies.update_from_arkane_spcs, ReferenceSpecies.calculated_data.
  rewrite Hentry, Hcd. simpl.
  split; [reflexivity | ]. simpl.
  split; [reflexivity | ].
  split; [apply dict_get_set_eq | ].
  split; [intros mc Hmc; now apply dict_get_set_ne | ].
  split; [apply dict_set_keys_perm | ].
  split; [apply dict_set_keys_NoDup | ].
  repeat split.
Qed.

Lemma update_from_arkane_spcs_stores_witness :
  exists self' cd',
    ReferenceSpecies.update_from_arkane_spcs
      {| job_conformer := PyConformer Demo.water;
         job_thermo_data := PyThermoData (Demo.thermo (-240000)%float 0%float);
         job_level_of_theory := "ccsd(t)-f12/cc-pvtz-f12" |}
      Demo.methane = OK self'
    /\ _calculated_data self' = Assigned cd'
    /\ dict_get cd' "ccsd(t)-f12/cc-pvtz-f12" = Some Demo.calc_entry
    /\ dict_get cd' "wb97m-v/def2-tzvpd" = Some Demo.calc_entry
    /\ Permutation (map fst cd') ["ccsd(t)-f12/cc-pvtz-f12"; "wb97m-v/def2-tzvpd"].
Proof.
  destruct (update_from_arkane_spcs_stores
              {| job_conformer := PyConformer Demo.water;
                 job_thermo_data := PyThermoData (Demo.thermo (-240000)%float 0%float);
                 job_level_of_theory := "ccsd(t)-f12/cc-pvtz-f12" |}
              Demo.methane Demo.calc_entry Demo.some_calculated eq_refl eq_refl)
    as (self' & cd' & Hupdate & Hcd' & Hnew & Hother & Hkeys & _).
  exists self', cd'. split; [exact Hupdate | ]. split; [exact Hcd' | ].
  split; [exact Hnew | ]. split; [ | exact Hkeys].
  rewrite (Hother "wb97m-v/def2-tzvpd"); [reflexivity | discriminate].
Defined.

(** X5: a species both of whose mapping fields hold a mapping keeps them
    through every sequence of assignments to the two fields and of calls of
    [update_from_arkane_spcs] that does not raise, whatever the values
    assigned are. *)
Theorem writes_keep_mappings (ops : list species_write) (self self' : ReferenceSpecies) :
  mappings_set self -> writes ops self = OK self' -> mappings_set self'.
Proof.
  revert self. induction ops as [ | op ops IH]; intros self Hself; simpl.
  - intros E. inversion E. now subst.
  - destruct (write op self) as [self1 | e] eqn:Eop; simpl; [ | discriminate].
    apply IH. destruct Hself as [Hrd Hcd].
    destruct op as [value | value | job]; simpl in Eop.
    + apply (assignment_keeps_mapping value self self1 Hrd Hcd). now left.
    + apply (assignment_keeps_mapping value self self1 Hrd Hcd). now right.
    + unfold ReferenceSpecies.update_from_arkane_spcs in Eop.
      destruct (CalculatedDataEntry.init _ _ _ _); simpl in Eop; [ | discriminate].
      destruct (ReferenceSpecies.calculated_data self); simpl in Eop; [ | discriminate].
      inversion Eop. split; simpl; eauto.
Qed.

Lemma writes_keep_mappings_witness :
  mappings_set Demo.methane
  /\ mappings_set (Demo.stored "C" [] Demo.some_calculated 1).
Proof.
  assert (mappings_set Demo.methane) as Hm by (split; eexists; reflexivity).
  split; [exact Hm | ].
  apply (writes_keep_mappings
           [AssignReferenceData (PyDict [(PyInt 1, PyInt 2)]);
            AssignReferenceData PyNone;
            AssignCalculatedData (PyDict [(PyStr "hf", PyInt 2)])]
           Demo.methane (Demo.stored "C" [] Demo.some_calculated 1) Hm).
  reflexivity.
Defined.

(** ** ReferenceSpecies: what the resolved reference enthalpy is *)

Lemma H298_of_inv (entry : ReferenceDataEntry) (h : ScalarQuantity) :
  ReferenceSpecies.H298_of entry = OK h ->
  exists t, rde_thermo_data entry = Assigned (Some t) /\ h = H298 t.
Proof.
  unfold ReferenceSpecies.H298_of, ReferenceDataEntry.thermo_data.
  destruct (rde_thermo_data entry) as [ | [t | ]]; simpl; try discriminate.
  intros E. inversion E. eauto.
Qed.

(** X6: whenever [get_reference_enthalpy] returns, by whichever of its
    three ways the source was chosen, the source returned is a key of
    [reference_data] and the enthalpy returned is the H298 of the thermo
    data stored under that key; an explicit [source] is the source
    returned, and without it a set [preferred_reference] is. *)
Theorem reference_enthalpy_is_stored (self : ReferenceSpecies) (src : option string)
  (r : ReferenceSpecies.ReferenceEnthalpy) :
  ReferenceSpecies.get_reference_enthalpy self src = OK r ->
  (exists rd entry t,
      _reference_data self = Assigned rd
      /\ dict_get rd (ReferenceSpecies.source r) = Some entry
      /\ rde_thermo_data entry = Assigned (Some t)
      /\ ReferenceSpecies.h298 r = reduce_args (H298 t))
  /\ (forall s, src = Some s -> ReferenceSpecies.source r = s)
  /\ (forall p, src = None -> preferred_reference self = Some p ->
                ReferenceSpecies.source r = p).
Proof.
  unfold ReferenceSpecies.get_reference_enthalpy, ReferenceSpecies.reference_data.
  destruct (_reference_data self) as [ | rd] eqn:Hrd; simpl; [discriminate | ].
  destruct rd as [ | kv rd']; [discriminate | ].
  set (items := kv :: rd') in *.
  destruct (match src with
            | Some s => OK s
            | None => match preferred_reference self with
                      | Some p => OK p
                      | None => ReferenceSpecies.least_uncertain_source items
                      end
            end) as [chosen | e] eqn:Hchosen; simpl; [ | discriminate].
  unfold getitem. destruct (dict_get items chosen) as [entry | ] eqn:Hget; simpl;
    [ | discriminate].
  destruct (ReferenceSpecies.H298_of entry) as [h | e] eqn:Hh; simpl; [ | discriminate].
  intros E. inversion E. subst r. simpl.
  destruct (H298_of_inv entry h Hh) as (t & Ht & ->).
  split; [exists items, entry, t; auto | ].
  split.
  - intros s ->. now inversion Hchosen.
  - intros p -> Hp. rewrite Hp in Hchosen. now inversion Hchosen.
Qed.

Lemma reference_enthalpy_is_stored_witness :
  (exists rd entry t,
      _reference_data Demo.surveyed = Assigned rd
      /\ dict_get rd "first" = Some entry
      /\ rde_thermo_data entry = Assigned (Some t)
      /\ reduce_args (Demo.quantity 100%float 0%float) = reduce_args (H298 t)).
Proof.
  apply (proj1 (reference_enthalpy_is_stored Demo.surveyed None
                  {| ReferenceSpecies.h298 := reduce_args (Demo.quantity 100%float 0%float);
                     ReferenceSpecies.source := "first" |} eq_refl)).
Defined.

Lemma dict_get_key {V : Type} (d : list (string * V)) (key : string) :
  In key (map fst d) -> exists v, dict_get d key = Some v /\ In (key, v) d.
Proof.
  induction d as [ | [k v] d IH]; simpl; [intros [] | ].
  destruct (String.eqb k key) eqn:E.
  - apply String.eqb_eq in E. subst k. intros _. exists v. auto.
  - intros [-> | Hin]; [rewrite String.eqb_refl in E; discriminate | ].
    destruct (IH Hin) as (v' & Hget & Hv'). exists v'. auto.
Qed.

Lemma scan_sources_result (items : reference_data_t) (uncertainty : float)
  (preferred_source : string) :
  Forall (fun kv => returns (ReferenceSpecies.H298_uncertainty (snd kv))) items ->
  exists u chosen,
    ReferenceSpecies.scan_sources items uncertainty preferred_source = OK (u, chosen)
    /\ (chosen = preferred_source \/ In chosen (map fst items)).
Proof.
  intros Hall. revert uncertainty preferred_source.
  induction Hall as [ | [src e] items [u Hu] _ IH]; intros uncertainty preferred_source;
    simpl.
  - eauto.
  - simpl in Hu. rewrite Hu. simpl.
    destruct (PrimFloat.ltb 0%float u && PrimFloat.ltb u uncertainty).
    + destruct (IH u src) as (u' & chosen & -> & [-> | Hin]); eauto 6.
    + destruct (IH uncertainty preferred_source) as (u' & chosen & -> & [-> | Hin]);
        eauto 6.
Qed.

Lemma least_uncertain_source_key (rd : reference_data_t) :
  rd <> [] ->
  Forall (fun kv => returns (ReferenceSpecies.H298_uncertainty (snd kv))) rd ->
  exists chosen,
    ReferenceSpecies.least_uncertain_source rd = OK chosen /\ In chosen (map fst rd).
Proof.
  intros Hne Hunc. destruct rd as [ | [source0 entry0] rest]; [congruence | ].
  unfold ReferenceSpecies.least_uncertain_source.
  pose proof (Forall_inv Hunc) as [u0 Hu0]. simpl in Hu0. rewrite Hu0. cbn [bind].
  destruct (scan_sources_result ((source0, entry0) :: rest) u0 source0 Hunc)
    as (u & chosen & -> & Hchosen).
  exists chosen. split; [reflexivity | ].
  destruct Hchosen as [-> | ?]; [now left | assumption].
Qed.

(** X7: when neither [source] nor [preferred_reference] is given, the
    reference data is not empty and every entry holds thermo data,
    [get_reference_enthalpy] returns, and the source it returns is one of
    the keys of [reference_data]: the choice by uncertainty cannot end in
    an error. *)
Theorem uncertainty_choice_returns (self : ReferenceSpecies) (rd : reference_data_t) :
  _reference_data self = Assigned rd ->
  rd <> [] ->
  preferred_reference self = None ->
  Forall (fun kv => exists t, rde_thermo_data (snd kv) = Assigned (Some t)) rd ->
  exists r,
    ReferenceSpecies.get_reference_enthalpy self None = OK r
    /\ In (ReferenceSpecies.source r) (map fst rd).
Proof.
  intros Hrd Hne Hpref Hall.
  assert (forall e t, rde_thermo_data e = Assigned (Some t) ->
                      ReferenceSpecies.H298_of e = OK (H298 t)) as Hof.
  { intros e t Ht. unfold ReferenceSpecies.H298_of, ReferenceDataEntry.thermo_data.
    now rewrite Ht. }
  assert (Forall (fun kv => returns (ReferenceSpecies.H298_uncertainty (snd kv))) rd)
    as Hunc.
  { eapply Forall_impl; [exact Hall | ]. intros kv [t Ht].
    exists (uncertainty_si (H298 t)). unfold ReferenceSpecies.H298_uncertainty.
    now rewrite (Hof _ t Ht). }
  rewrite (get_reference_enthalpy_nonempty self rd Hrd Hne), Hpref.
  destruct (least_uncertain_source_key rd Hne Hunc) as (chosen & -> & Hin).
  destruct (dict_get_key _ chosen Hin) as (entry & Hget & Hentry).
  unfold getitem. cbn [bind]. rewrite Hget.
  rewrite List.Forall_forall in Hall. destruct (Hall _ Hentry) as [t Ht]. simpl in Ht.
  cbn [bind]. rewrite (Hof entry t Ht). cbn [bind].
  eexists. split; [reflexivity | exact Hin].
Qed.

Lemma uncertainty_choice_returns_witness :
  exists r,
    ReferenceSpecies.get_reference_enthalpy Demo.surveyed None = OK r
    /\ In (ReferenceSpecies.source r) ["first"; "second"; "third"].
Proof.
  apply (uncertainty_choice_returns Demo.surveyed Demo.three_list eq_refl).
  - discriminate.
  - reflexivity.
  - repeat constructor; eexists; reflexivity.
Defined.

(** ** The order of doubles, as far as the choice by uncertainty needs it *)

Ltac compare_cases :=
  repeat match goal with
         | H : context [Z.compare ?a ?b] |- _ =>
             destruct (Z.compare_spec a b)
         | |- context [Z.compare ?a ?b] =>
             destruct (Z.compare_spec a b)
         | H : context [Pos.compare_cont Eq ?a ?b] |- _ =>
             change (Pos.compare_cont Eq a b) with (Pos.compare a b) in *;
             destruct (Pos.compare_spec a b)
         | |- context [Pos.compare_cont Eq ?a ?b] =>
             change (Pos.compare_cont Eq a b) with (Pos.compare a b) in *;
             destruct (Pos.compare_spec a b)
         end.

Lemma ltb_irrefl (a : float) : PrimFloat.ltb a a = false.
Proof.
  rewrite ltb_spec. unfold SFltb, SFcompare.
  destruct (Prim2SF a) as [s | s | | s m e]; try destruct s; try reflexivity;
    compare_cases; simpl; try reflexivity; lia.
Qed.

Lemma ltb_asym (a b : float) : PrimFloat.ltb a b = true -> PrimFloat.ltb b a = false.
Proof.
  rewrite !ltb_spec. unfold SFltb, SFcompare.
  destruct (Prim2SF a) as [sa | sa | | sa ma ea];
    destruct (Prim2SF b) as [sb | sb | | sb mb eb];
    try destruct sa; try destruct sb; try (intros; congruence); try reflexivity;
    intros H1; compare_cases; simpl in *; try congruence; lia.
Qed.

(** [a] is below a bound that the number [b] is not below: [a] is below [b]. *)
Lemma ltb_below (a bound b : float) :
  PrimFloat.ltb a bound = true -> PrimFloat.ltb b bound = false ->
  PrimFloat.ltb 0%float b = true -> PrimFloat.ltb a b = true.
Proof.
  rewrite !ltb_spec. change (Prim2SF 0%float) with (S754_zero false).
  unfold SFltb, SFcompare.
  destruct (Prim2SF a) as [sa | sa | | sa ma ea];
    destruct (Prim2SF b) as [sb | sb | | sb mb eb];
    destruct (Prim2SF bound) as [sm | sm | | sm mm em];
    try destruct sa; try destruct sb; try destruct sm;
    try (intros; congruence); try reflexivity;
    intros H1 H2 _; compare_cases; simpl in *; try congruence; lia.
Qed.

(** ** ReferenceSpecies: the choice by uncertainty, from a positive start *)

Lemma scan_sources_least (items : reference_data_t) :
  Forall (fun kv => returns (ReferenceSpecies.H298_uncertainty (snd kv))) items ->
  forall (seen : reference_data_t) (uncertainty : float) (source : string),
    least_so_far seen uncertainty source ->
    exists u chosen,
      ReferenceSpecies.scan_sources items uncertainty source = OK (u, chosen)
      /\ least_so_far (seen ++ items)%list u chosen.
Proof.
  induction 1 as [ | [s e] items [v Hv] _ IH]; intros seen uncertainty source Hinv; simpl.
  - exists uncertainty, source. now rewrite app_nil_r.
  - simpl in Hv. rewrite Hv. cbn [bind].
    replace (seen ++ (s, e) :: items)%list with ((seen ++ [(s, e)]) ++ items)%list
      by now rewrite <- app_assoc.
    destruct Hinv as (entry & before & after & Hseen & Hentry & Hpos & Hbefore & Hall).
    destruct (PrimFloat.ltb 0%float v) eqn:Epos;
      [destruct (PrimFloat.ltb v uncertainty) eqn:Elt | ]; simpl; apply IH.
    + exists e, seen, []. split; [reflexivity | ]. split; [exact Hv | ].
      split; [exact Epos | ]. split.
      * intros s' e' v' Hin Hv' Hpos'.
        apply (ltb_below v uncertainty v' Elt (Hall s' e' v' Hin Hv' Hpos') Hpos').
      * intros s' e' v' Hin Hv' Hpos'. apply in_app_or in Hin as [Hin | [Heq | []]].
        -- apply ltb_asym.
           apply (ltb_below v uncertainty v' Elt (Hall s' e' v' Hin Hv' Hpos') Hpos').
        -- inversion Heq. subst. rewrite Hv in Hv'. inversion Hv'. apply ltb_irrefl.
    + exists entry, before, (after ++ [(s, e)])%list.
      split; [rewrite Hseen, <- app_assoc; reflexivity | ].
      split; [exact Hentry | ]. split; [exact Hpos | ]. split; [exact Hbefore | ].
      intros s' e' v' Hin Hv' Hpos'. apply in_app_or in Hin as [Hin | [Heq | []]].
      * now apply (Hall s' e' v').
      * inversion Heq. subst. rewrite Hv in Hv'. inversion Hv'. now subst.
    + exists entry, before, (after ++ [(s, e)])%list.
      split; [rewrite Hseen, <- app_assoc; reflexivity | ].
      split; [exact Hentry | ]. split; [exact Hpos | ]. split; [exact Hbefore | ].
      intros s' e' v' Hin Hv' Hpos'. apply in_app_or in Hin as [Hin | [Heq | []]].
      * now apply (Hall s' e' v').
      * inversion Heq. subst. rewrite Hv in Hv'. inversion Hv'. subst. congruence.
Qed.

(** X8: when every entry holds thermo data and the uncertainty of the
    first source is positive, the source chosen by uncertainty has a
    positive uncertainty, no entry has a positive uncertainty below it, and
    every entry before it with a positive uncertainty has one above it:
    it is the first source of the least positive uncertainty. *)
Theorem least_positive_uncertainty_chosen (source0 : string) (entry0 : ReferenceDataEntry)
  (rest : reference_data_t) (u0 : float) :
  ReferenceSpecies.H298_uncertainty entry0 = OK u0 ->
  PrimFloat.ltb 0%float u0 = true ->
  Forall (fun kv => returns (ReferenceSpecies.H298_uncertainty (snd kv))) rest ->
  exists chosen entry u before after,
    ReferenceSpecies.least_uncertain_source ((source0, entry0) :: rest) = OK chosen
    /\ (source0, entry0) :: rest = (before ++ (chosen, entry) :: after)%list
    /\ ReferenceSpecies.H298_uncertainty entry = OK u
    /\ PrimFloat.ltb 0%float u = true
    /\ (forall s e v, In (s, e) ((source0, entry0) :: rest) ->
                      ReferenceSpecies.H298_uncertainty e = OK v ->
                      PrimFloat.ltb 0%float v = true -> PrimFloat.ltb v u = false)
    /\ (forall s e v, In (s, e) before ->
                      ReferenceSpecies.H298_uncertainty e = OK v ->
                      PrimFloat.ltb 0%float v = true -> PrimFloat.ltb u v = true).
Proof.
  intros Hu0 Hpos Hrest.
  assert (least_so_far [(source0, entry0)] u0 source0) as Hstart.
  { exists entry0, [], []. split; [reflexivity | ]. split; [exact Hu0 | ].
    split; [exact Hpos | ]. split; [intros s e v [] | ].
    intros s e v [Heq | []] Hv _. inversion Heq. subst.
    rewrite Hu0 in Hv. inversion Hv. apply ltb_irrefl. }
  destruct (scan_sources_least rest Hrest [(source0, entry0)] u0 source0 Hstart)
    as (u & chosen & Hscan & entry & before & after & Hsplit & Hentry & Hu & Hbefore & Hall).
  exists chosen, entry, u, before, after.
  split; [ | now repeat split].
  unfold ReferenceSpecies.least_uncertain_source. rewrite Hu0. cbn [bind].
  simpl. rewrite Hu0. cbn [bind]. rewrite ltb_irrefl, andb_false_r, Hscan. reflexivity.
Qed.

Lemma least_positive_uncertainty_chosen_witness :
  exists chosen entry u before after,
    ReferenceSpecies.least_uncertain_source
      [("second", Demo.ref_entry 101%float 5%float);
       ("first", Demo.ref_entry 100%float 0%float);
       ("third", Demo.ref_entry 102%float 2%float)] = OK chosen
    /\ [("second", Demo.ref_entry 101%float 5%float);
        ("first", Demo.ref_entry 100%float 0%float);
        ("third", Demo.ref_entry 102%float 2%float)]
       = (before ++ (chosen, entry) :: after)%list
    /\ ReferenceSpecies.H298_uncertainty entry = OK u
    /\ PrimFloat.ltb 0%float u = true
    /\ (forall s e v,
           In (s, e) [("second", Demo.ref_entry 101%float 5%float);
                      ("first", Demo.ref_entry 100%float 0%float);
                      ("third", Demo.ref_entry 102%float 2%float)] ->
           ReferenceSpecies.H298_uncertainty e = OK v ->
           PrimFloat.ltb 0%float v = true -> PrimFloat.ltb v u = false)
    /\ (forall s e v, In (s, e) before ->
                      ReferenceSpecies.H298_uncertainty e = OK v ->
                      PrimFloat.ltb 0%float v = true -> PrimFloat.ltb u v = true).
Proof.
  apply (least_positive_uncertainty_chosen "second" (Demo.ref_entry 101%float 5%float)
           [("first", Demo.ref_entry 100%float 0%float);
            ("third", Demo.ref_entry 102%float 2%float)] 5%float).
  - reflexivity.
  - reflexivity.
  - repeat constructor; eexists; reflexivity.
Defined.

(** ** ReferenceSpecies: conversion to an error canceling species *)

Section ErrorCanceling.

Context `{Isodesmic}.

Variable self : ReferenceSpecies.
Variable cd : calculated_data_t.
Hypothesis Hcalculated : _calculated_data self = Assigned cd.

Lemma to_error_canceling_spcs_present (model_chemistry : string) (src : option string)
  (entry : CalculatedDataEntry) :
  dict_get cd model_chemistry = Some entry ->
  ReferenceSpecies.to_error_canceling_spcs self model_chemistry src =
    (do molecule <- Molecule_SMILES (smiles (arkane self)) ;
     do reference_enthalpy <- ReferenceSpecies.get_reference_enthalpy self src ;
     do td <- CalculatedDataEntry.thermo_data entry ;
     do low <- match td with
               | Some t => OK (reduce_args (H298 t))
               | None => Raise (AttributeError "H298")
               end ;
     ErrorCancelingSpecies_init molecule low model_chemistry
       (ReferenceSpecies.h298 reference_enthalpy)
       (ReferenceSpecies.source reference_enthalpy)).
Proof.
  intros Hget.
  unfold ReferenceSpecies.to_error_canceling_spcs, ReferenceSpecies.low_level_h298,
    ReferenceSpecies.calculated_data, getitem.
  rewrite Hcalculated. cbn [getattr bind]. rewrite Hget. cbn [bind].
  destruct (Molecule_SMILES (smiles (arkane self))) as [molecule | e]; [ | reflexivity].
  cbn [bind].
  destruct (ReferenceSpecies.get_reference_enthalpy self src) as [[high chosen] | e];
    [ | reflexivity].
  cbn [bind].
  destruct (CalculatedDataEntry.thermo_data entry) as [[t | ] | e]; reflexivity.
Qed.

(** X9: the errors of [to_error_canceling_spcs], in the order the code
    meets them.  A model chemistry that is not a key of [calculated_data]
    raises the [KeyError] naming it and the species, whatever the source
    and the reference data are.  With the model chemistry present and the
    molecule built, an error of [get_reference_enthalpy] (no reference
    data, unknown source) is the error raised; after that, an entry
    without thermo data raises [AttributeError]. *)
Theorem to_error_canceling_spcs_errors (model_chemistry : string) (src : option string) :
  (dict_get cd model_chemistry = None ->
   ReferenceSpecies.to_error_canceling_spcs self model_chemistry src =
     Raise (KeyError ("Model chemistry `" ++ model_chemistry ++
                      "` not available for species " ++ ReferenceSpecies.repr self)))
  /\ (forall entry molecule,
         dict_get cd model_chemistry = Some entry ->
         Molecule_SMILES (smiles (arkane self)) = OK molecule ->
         (forall e, ReferenceSpecies.get_reference_enthalpy self src = Raise e ->
                    ReferenceSpecies.to_error_canceling_spcs self model_chemistry src
                    = Raise e)
         /\ (forall r, ReferenceSpecies.get_reference_enthalpy self src = OK r ->
                       (cde_thermo_data entry = Unassigned ->
                        ReferenceSpecies.to_error_canceling_spcs self model_chemistry src
                        = Raise (AttributeError "_thermo_data"))
                       /\ (cde_thermo_data entry = Assigned None ->
                           ReferenceSpecies.to_error_canceling_spcs self model_chemistry src
                           = Raise (AttributeError "H298")))).
Proof.
  split.
  - intros Hget.
    unfold ReferenceSpecies.to_error_canceling_spcs, ReferenceSpecies.calculated_data.
    rewrite Hcalculated. cbn [getattr bind]. rewrite Hget. reflexivity.
  - intros entry molecule Hget Hmol.
    rewrite (to_error_canceling_spcs_present model_chemistry src entry Hget), Hmol.
    cbn [bind]. split.
    + intros e ->. reflexivity.
    + intros r ->. cbn [bind]. unfold CalculatedDataEntry.thermo_data.
      split; intros ->; reflexivity.
Qed.

(** X10: what is handed to the constructor of the error canceling species
    when nothing raises: the molecule of the species' SMILES, the H298 of
    the thermo data calculated at the model chemistry, the model
    chemistry, and the H298 and the name of the reference source, which is
    the explicit [source] when there is one and the preferred reference
    otherwise. *)
Theorem to_error_canceling_spcs_record (model_chemistry : string) (src : option string)
  (entry : CalculatedDataEntry) (t : ThermoData) (molecule : Molecule)
  (rd : reference_data_t) (chosen : string) (reference : ReferenceDataEntry)
  (rt : ThermoData) :
  dict_get cd model_chemistry = Some entry ->
  cde_thermo_data entry = Assigned (Some t) ->
  Molecule_SMILES (smiles (arkane self)) = OK molecule ->
  _reference_data self = Assigned rd ->
  src = Some chosen \/ (src = None /\ preferred_reference self = Some chosen) ->
  dict_get rd chosen = Some reference ->
  rde_thermo_data reference = Assigned (Some rt) ->
  ReferenceSpecies.to_error_canceling_spcs self model_chemistry src =
    ErrorCancelingSpecies_init molecule (reduce_args (H298 t)) model_chemistry
      (reduce_args (H298 rt)) chosen.
Proof.
  intros Hget Ht Hmol Hrd Hsrc Href Hrt.
  rewrite (to_error_canceling_spcs_present model_chemistry src entry Hget), Hmol.
  cbn [bind].
  assert (rd <> []) as Hne by (destruct rd; [discriminate | congruence]).
  rewrite (get_reference_enthalpy_at self rd Hrd Hne src chosen reference (H298 rt)).
  - cbn [bind]. unfold CalculatedDataEntry.thermo_data. rewrite Ht. reflexivity.
  - destruct Hsrc as [-> | [-> Hp]]; [reflexivity | exact Hp].
  - exact Href.
  - unfold ReferenceSpecies.H298_of, ReferenceDataEntry.thermo_data. now rewrite Hrt.
Qed.

End ErrorCanceling.

Lemma to_error_canceling_spcs_errors_witness :
  @ReferenceSpecies.to_error_canceling_spcs Demo.chemistry Demo.isodesmic
    Demo.surveyed "hf/sto-3g" (Some "second")
  = Raise (KeyError "Model chemistry `hf/sto-3g` not available for species <ReferenceSpecies C(7)>").
Proof.
  apply (proj1 (@to_error_canceling_spcs_errors Demo.chemistry Demo.isodesmic
                  Demo.surveyed Demo.some_calculated eq_refl "hf/sto-3g" (Some "second"))).
  reflexivity.
Defined.

Lemma to_error_canceling_spcs_record_witness :
  @ReferenceSpecies.to_error_canceling_spcs Demo.chemistry Demo.isodesmic
    (Demo.preferring "third" Demo.surveyed) "wb97m-v/def2-tzvpd" None
  = OK {| Demo.ecs_molecule := "C";
          Demo.ecs_low_level_hf298 := reduce_args (Demo.quantity (-240000)%float 0%float);
          Demo.ecs_model_chemistry := "wb97m-v/def2-tzvpd";
          Demo.ecs_high_level_hf298 := reduce_args (Demo.quantity 102%float 2%float);
          Demo.ecs_source := "third" |}.
Proof.
  apply (@to_error_canceling_spcs_record Demo.chemistry Demo.isodesmic
           (Demo.preferring "third" Demo.surveyed) Demo.some_calculated eq_refl
           "wb97m-v/def2-tzvpd" None Demo.calc_entry
           (Demo.thermo (-240000)%float 0%float) "C" Demo.three_list "third"
           (Demo.ref_entry 102%float 2%float) (Demo.thermo 102%float 2%float));
    try reflexivity.
  right. split; reflexivity.
Defined.

(** ** ReferenceSpecies: a merged job, read back *)

Lemma update_from_arkane_spcs_eq (arkane_species : arkane_job) (self : ReferenceSpecies)
  (calc_data : CalculatedDataEntry) (cd : calculated_data_t) :
  CalculatedDataEntry.init (job_conformer arkane_species)
    (job_thermo_data arkane_species) None None = OK calc_data ->
  _calculated_data self = Assigned cd ->
  ReferenceSpecies.update_from_arkane_spcs arkane_species self =
    OK {| arkane := arkane self;
          _reference_data := _reference_data self;
          _calculated_data :=
            Assigned (dict_set cd (job_level_of_theory arkane_species) calc_data);
          index := index self;
          cas_number := cas_number self;
          preferred_reference := preferred_reference self;
          default_xyz_chemistry := default_xyz_chemistry self |}.
Proof.
  intros Hentry Hcd.
  unfold ReferenceSpecies.update_from_arkane_spcs, ReferenceSpecies.calculated_data.
  now rewrite Hentry, Hcd.
Qed.

Lemma job_entry (c : Conformer) (thermo_data : PyVal) :
  truthy thermo_data = false \/ is_ThermoData thermo_data = true ->
  exists calc_data,
    CalculatedDataEntry.init (PyConformer c) thermo_data None None = OK calc_data
    /\ cde_conformer calc_data = Assigned (Some c)
    /\ (truthy thermo_data = false -> cde_thermo_data calc_data = Unassigned)
    /\ (forall t, thermo_data = PyThermoData t ->
                  cde_thermo_data calc_data = Assigned (Some t)).
Proof.
  unfold CalculatedDataEntry.init, CalculatedDataEntry.set_conformer,
    CalculatedDataEntry.set_thermo_data. simpl.
  intros [Hf | Hk].
  - rewrite Hf. simpl. eexists. split; [reflexivity | ]. simpl.
    split; [reflexivity | ]. split; [reflexivity | ].
    intros t ->. discriminate.
  - destruct thermo_data; try discriminate. simpl.
    eexists. split; [reflexivity | ]. simpl. split; [reflexivity | ].
    split; [discriminate | ]. intros t' E. now inversion E.
Qed.

(** X11: after [update_from_arkane_spcs] with a job that has a conformer,
    on a species whose [default_xyz_chemistry] is the job's level of
    theory, [get_default_xyz] returns the job's geometry (its numbers, and
    its coordinates times 10^10), whatever was stored at that level before
    and whether or not the job has thermo data. *)
Theorem merged_job_is_default_geometry (arkane_species : arkane_job)
  (self : ReferenceSpecies) (cd : calculated_data_t) (c : Conformer) :
  job_conformer arkane_species = PyConformer c ->
  truthy (job_thermo_data arkane_species) = false
  \/ is_ThermoData (job_thermo_data arkane_species) = true ->
  _calculated_data self = Assigned cd ->
  default_xyz_chemistry self = Some (job_level_of_theory arkane_species) ->
  job_level_of_theory arkane_species <> EmptyString ->
  exists self',
    ReferenceSpecies.update_from_arkane_spcs arkane_species self = OK self'
    /\ ReferenceSpecies.get_default_xyz self' =
         OK {| ReferenceSpecies.numbers := number_si c;
               ReferenceSpecies.coords :=
                 map (map (fun x => PrimFloat.mul x ReferenceSpecies.ten_to_the_ten))
                     (coordinates_si c) |}.
Proof.
  intros Hconf Hthermo Hcd Hdefault Hne.
  destruct (job_entry c (job_thermo_data arkane_species) Hthermo)
    as (calc_data & Hentry & Hc & _).
  rewrite <- Hconf in Hentry.
  eexists. split; [apply (update_from_arkane_spcs_eq _ _ calc_data cd Hentry Hcd) | ].
  unfold ReferenceSpecies.get_default_xyz, ReferenceSpecies.calculated_data, getitem.
  cbn [default_xyz_chemistry _calculated_data getattr bind].
  rewrite Hdefault, (given_nonempty _ Hne), dict_get_set_eq. cbn [bind].
  unfold CalculatedDataEntry.conformer. rewrite Hc. reflexivity.
Qed.

Lemma merged_job_is_default_geometry_witness :
  exists self',
    ReferenceSpecies.update_from_arkane_spcs
      {| job_conformer := PyConformer Demo.water;
         job_thermo_data := PyNone;
         job_level_of_theory := "wb97m-v/def2-tzvpd" |}
      (Demo.with_default_xyz "wb97m-v/def2-tzvpd" Demo.ethane) = OK self'
    /\ ReferenceSpecies.get_default_xyz self' =
         OK {| ReferenceSpecies.numbers := number_si Demo.water;
               ReferenceSpecies.coords :=
                 map (map (fun x => PrimFloat.mul x ReferenceSpecies.ten_to_the_ten))
                     (coordinates_si Demo.water) |}.
Proof.
  apply (merged_job_is_default_geometry
           {| job_conformer := PyConformer Demo.water;
              job_thermo_data := PyNone;
              job_level_of_theory := "wb97m-v/def2-tzvpd" |}
           (Demo.with_default_xyz "wb97m-v/def2-tzvpd" Demo.ethane)
           Demo.some_calculated Demo.water).
  - reflexivity.
  - left. reflexivity.
  - reflexivity.
  - reflexivity.
  - discriminate.
Defined.

Section MergedJob.

Context `{Isodesmic}.

(** X12: a job merged without thermo data (None, say) replaces the entry
    of its level of theory by one that has none: although the model
    chemistry is then present and the reference enthalpy resolves,
    [to_error_canceling_spcs] at that level raises [AttributeError], also
    when the entry stored there before had thermo data. *)
Theorem merged_job_without_thermo_data (arkane_species : arkane_job)
  (self : ReferenceSpecies) (cd : calculated_data_t) (c : Conformer)
  (src : option string) (molecule : Molecule) (r : ReferenceSpecies.ReferenceEnthalpy) :
  job_conformer arkane_species = PyConformer c ->
  truthy (job_thermo_data arkane_species) = false ->
  _calculated_data self = Assigned cd ->
  Molecule_SMILES (smiles (arkane self)) = OK molecule ->
  ReferenceSpecies.get_reference_enthalpy self src = OK r ->
  exists self',
    ReferenceSpecies.update_from_arkane_spcs arkane_species self = OK self'
    /\ ReferenceSpecies.to_error_canceling_spcs self'
         (job_level_of_theory arkane_species) src
       = Raise (AttributeError "_thermo_data").
Proof.
  intros Hconf Hfalsy Hcd Hmol Href.
  destruct (job_entry c (job_thermo_data arkane_species) (or_introl Hfalsy))
    as (calc_data & Hentry & _ & Hnone & _).
  rewrite <- Hconf in Hentry.
  rewrite (update_from_arkane_spcs_eq _ _ calc_data cd Hentry Hcd).
  eexists. split; [reflexivity | ].
  match goal with
  | |- ReferenceSpecies.to_error_canceling_spcs ?s _ _ = _ =>
      rewrite (to_error_canceling_spcs_present s
                 (dict_set cd (job_level_of_theory arkane_species) calc_data) eq_refl
                 (job_level_of_theory arkane_species) src calc_data
                 (dict_get_set_eq cd _ calc_data));
      replace (ReferenceSpecies.get_reference_enthalpy s src)
        with (ReferenceSpecies.get_reference_enthalpy self src) by reflexivity
  end.
  cbn [arkane]. rewrite Hmol. cbn [bind].
  rewrite Href. cbn [bind]. unfold CalculatedDataEntry.thermo_data.
  rewrite (Hnone Hfalsy). reflexivity.
Qed.

End MergedJob.

Lemma merged_job_without_thermo_data_witness :
  exists self',
    ReferenceSpecies.update_from_arkane_spcs
      {| job_conformer := PyConformer Demo.water;
         job_thermo_data := PyNone;
         job_level_of_theory := "wb97m-v/def2-tzvpd" |}
      Demo.methane = OK self'
    /\ @ReferenceSpecies.to_error_canceling_spcs Demo.chemistry Demo.isodesmic self'
         "wb97m-v/def2-tzvpd" None
       = Raise (AttributeError "_thermo_data").
Proof.
  apply (@merged_job_without_thermo_data Demo.chemistry Demo.isodesmic
           {| job_conformer := PyConformer Demo.water;
              job_thermo_data := PyNone;
              job_level_of_theory := "wb97m-v/def2-tzvpd" |}
           Demo.methane Demo.some_calculated Demo.water None "C"
           {| ReferenceSpecies.h298 := reduce_args (Demo.quantity 100%float 1%float);
              ReferenceSpecies.source := "ATcT" |});
    reflexivity.
Defined.

(** ** ReferenceDatabase: extracting a model chemistry *)

Lemma selected_usable (model_chemistry : string) (ref_spcs : ReferenceSpecies) :
  mappings_set ref_spcs ->
  ReferenceDatabase.selected model_chemistry ref_spcs = OK (usable model_chemistry ref_spcs).
Proof.
  intros [[rd Hrd] [cd Hcd]].
  unfold ReferenceDatabase.selected, usable, ReferenceSpecies.calculated_data,
    ReferenceSpecies.reference_data.
  rewrite Hrd, Hcd. simpl. now destruct (dict_get cd model_chemistry).
Qed.

Lemma extract_set_filter (model_chemistry : string) (current_set : list ReferenceSpecies) :
  Forall mappings_set current_set ->
  forall reference_list,
    ReferenceDatabase.extract_set model_chemistry current_set reference_list =
      OK (reference_list ++ List.filter (usable model_chemistry) current_set)%list.
Proof.
  induction 1 as [ | r current_set Hr _ IH]; intros reference_list; simpl.
  - now rewrite app_nil_r.
  - rewrite (selected_usable model_chemistry r Hr). cbn [bind]. rewrite IH.
    destruct (usable model_chemistry r); [now rewrite <- app_assoc | reflexivity].
Qed.

Lemma extract_sets_filter (self : ReferenceDatabase) (model_chemistry : string)
  (names : list string) (contents : list (list ReferenceSpecies)) :
  sets_named self names contents ->
  Forall (Forall mappings_set) contents ->
  forall reference_list,
    ReferenceDatabase.extract_sets self model_chemistry names reference_list =
      OK (reference_list ++ List.filter (usable model_chemistry) (concat contents))%list.
Proof.
  induction 1 as [ | name current_set names contents Hname _ IH];
    intros Hall reference_list; simpl.
  - now rewrite app_nil_r.
  - unfold ReferenceDatabase.get_set. rewrite Hname. cbn [bind].
    rewrite (extract_set_filter model_chemistry current_set (Forall_inv Hall)).
    cbn [bind]. rewrite (IH (Forall_inv_tail Hall)), List.filter_app, app_assoc.
    reflexivity.
Qed.

Lemma extract_sets_missing (self : ReferenceDatabase) (model_chemistry : string)
  (before : list string) (contents : list (list ReferenceSpecies)) (name : string)
  (after : list string) :
  sets_named self before contents ->
  Forall (Forall mappings_set) contents ->
  reference_sets self !! name = None ->
  forall reference_list,
    ReferenceDatabase.extract_sets self model_chemistry (before ++ name :: after)
      reference_list = Raise (KeyError name).
Proof.
  induction 1 as [ | n current_set before contents Hn _ IH];
    intros Hall Hname reference_list; simpl.
  - unfold ReferenceDatabase.get_set. now rewrite Hname.
  - unfold ReferenceDatabase.get_set at 1. rewrite Hn. cbn [bind].
    rewrite (extract_set_filter model_chemistry current_set (Forall_inv Hall)).
    cbn [bind]. apply (IH (Forall_inv_tail Hall) Hname).
Qed.

Section Extraction.

Context `{Isodesmic}.

(** X13: with [sets] given, every set named in the database and every
    species holding its two mappings, [extract_model_chemistry] without
    conversion returns exactly the species that have an entry for the
    model chemistry and some reference data, in the order of the sets and
    of the species in each set; the first name that is not a set of the
    database raises [KeyError] for it, with or without conversion. *)
Theorem extract_model_chemistry_selects (self : ReferenceDatabase)
  (model_chemistry : string) :
  (forall names contents,
      sets_named self names contents ->
      Forall (Forall mappings_set) contents ->
      ReferenceDatabase.extract_model_chemistry self model_chemistry (Some names) false =
        OK (inl (List.filter (usable model_chemistry) (concat contents))))
  /\ (forall before contents name after as_error_canceling_species,
         sets_named self before contents ->
         Forall (Forall mappings_set) contents ->
         reference_sets self !! name = None ->
         ReferenceDatabase.extract_model_chemistry self model_chemistry
           (Some (before ++ name :: after)%list) as_error_canceling_species =
           Raise (KeyError name)).
Proof.
  split.
  - intros names contents Hnames Hall. unfold ReferenceDatabase.extract_model_chemistry.
    now rewrite (extract_sets_filter self model_chemistry names contents Hnames Hall []).
  - intros before contents name after as_ecs Hbefore Hall Hname.
    unfold ReferenceDatabase.extract_model_chemistry.
    now rewrite (extract_sets_missing self model_chemistry before contents name after
                   Hbefore Hall Hname []).
Qed.

Lemma default_source_resolves (ref_spcs : ReferenceSpecies) (rd : reference_data_t) :
  _reference_data ref_spcs = Assigned rd ->
  rd <> [] ->
  Forall (fun kv => exists t, rde_thermo_data (snd kv) = Assigned (Some t)) rd ->
  (forall p, preferred_reference ref_spcs = Some p -> In p (map fst rd)) ->
  returns (ReferenceSpecies.get_reference_enthalpy ref_spcs None).
Proof.
  intros Hrd Hne Hall Hpref.
  assert (forall chosen, In chosen (map fst rd) ->
            returns (do entry <- getitem rd chosen ;
                     do h <- ReferenceSpecies.H298_of entry ;
                     OK {| ReferenceSpecies.h298 := reduce_args h;
                           ReferenceSpecies.source := chosen |})) as Hkey.
  { intros chosen Hin. destruct (dict_get_key rd chosen Hin) as (entry & Hget & Hentry).
    rewrite List.Forall_forall in Hall. destruct (Hall _ Hentry) as [t Ht]. simpl in Ht.
    unfold getitem, ReferenceSpecies.H298_of, ReferenceDataEntry.thermo_data.
    rewrite Hget. cbn [bind]. rewrite Ht. simpl. eexists. reflexivity. }
  rewrite (get_reference_enthalpy_nonempty ref_spcs rd Hrd Hne).
  destruct (preferred_reference ref_spcs) as [p | ] eqn:Hp.
  - cbn [bind]. apply Hkey, Hpref. reflexivity.
  - assert (Forall (fun kv => returns (ReferenceSpecies.H298_uncertainty (snd kv))) rd)
      as Hunc.
    { eapply Forall_impl; [exact Hall | ]. intros kv [t Ht].
      exists (uncertainty_si (H298 t)).
      unfold ReferenceSpecies.H298_uncertainty, ReferenceSpecies.H298_of,
        ReferenceDataEntry.thermo_data. now rewrite Ht. }
    destruct (least_uncertain_source_key rd Hne Hunc) as (chosen & -> & Hin).
    cbn [bind]. now apply Hkey.
Qed.

Hypothesis Molecule_SMILES_returns : forall smiles, returns (Molecule_SMILES smiles).
Hypothesis ErrorCancelingSpecies_init_returns :
  forall molecule low model_chemistry high source,
    returns (ErrorCancelingSpecies_init molecule low model_chemistry high source).

Lemma usable_complete_converts (model_chemistry : string) (ref_spcs : ReferenceSpecies) :
  usable model_chemistry ref_spcs = true ->
  complete model_chemistry ref_spcs ->
  returns (ReferenceSpecies.to_error_canceling_spcs ref_spcs model_chemistry None).
Proof.
  unfold usable. intros Husable [Href Hcalc].
  destruct (_calculated_data ref_spcs) as [ | cd] eqn:Hcd; [discriminate | ].
  destruct (_reference_data ref_spcs) as [ | rd] eqn:Hrd; [discriminate | ].
  destruct (dict_get cd model_chemistry) as [entry | ] eqn:Hget; [ | discriminate].
  destruct (Hcalc cd entry eq_refl Hget) as [t Ht].
  destruct (Href rd eq_refl) as [Hall Hpref].
  assert (rd <> []) as Hne by (destruct rd; [discriminate | congruence]).
  rewrite (to_error_canceling_spcs_present ref_spcs cd Hcd model_chemistry None entry Hget).
  destruct (Molecule_SMILES_returns (smiles (arkane ref_spcs))) as [molecule ->].
  cbn [bind].
  destruct (default_source_resolves ref_spcs rd Hrd Hne Hall Hpref) as [r ->].
  cbn [bind]. unfold CalculatedDataEntry.thermo_data. rewrite Ht. cbn [getattr bind].
  apply ErrorCancelingSpecies_init_returns.
Qed.

Lemma map_result_returns {A B : Type} (f : A -> result B) (l : list A) :
  Forall (fun a => returns (f a)) l ->
  exists bs, map_result f l = OK bs /\ Forall2 (fun a b => f a = OK b) l bs.
Proof.
  induction 1 as [ | a l [b Hb] _ (bs & IH & Hbs)]; simpl.
  - exists []. split; [reflexivity | constructor].
  - rewrite Hb, IH. exists (b :: bs). split; [reflexivity | now constructor].
Qed.

(** X14: with conversion asked for, the two collaborators never raising,
    and the data of every species kept complete (thermo data in every
    reference entry and in the entry at the model chemistry, a preferred
    reference that is one of the sources), [extract_model_chemistry]
    returns, and what it returns is the conversion of each species kept,
    one for one and in the same order: a species kept can fail neither
    for a missing model chemistry nor for missing reference data. *)
Theorem extract_model_chemistry_converts (self : ReferenceDatabase)
  (model_chemistry : string) (names : list string)
  (contents : list (list ReferenceSpecies)) :
  sets_named self names contents ->
  Forall (Forall mappings_set) contents ->
  Forall (complete model_chemistry)
         (List.filter (usable model_chemistry) (concat contents)) ->
  exists converted,
    ReferenceDatabase.extract_model_chemistry self model_chemistry (Some names) true =
      OK (inr converted)
    /\ Forall2 (fun ref_spcs ecs =>
                  ReferenceSpecies.to_error_canceling_spcs ref_spcs model_chemistry None
                  = OK ecs)
               (List.filter (usable model_chemistry) (concat contents)) converted.
Proof.
  intros Hnames Hall Hcomplete.
  unfold ReferenceDatabase.extract_model_chemistry.
  rewrite (extract_sets_filter self model_chemistry names contents Hnames Hall []).
  cbn [bind app].
  destruct (map_result_returns
              (fun s => ReferenceSpecies.to_error_canceling_spcs s model_chemistry None)
              (List.filter (usable model_chemistry) (concat contents)))
    as (converted & -> & Hconverted).
  - rewrite List.Forall_forall in Hcomplete. apply List.Forall_forall. intros r Hr.
    apply usable_complete_converts; [ | now apply Hcomplete].
    now apply List.filter_In in Hr.
  - exists converted. split; [reflexivity | exact Hconverted].
Qed.

End Extraction.

Lemma demo_mappings_set :
  Forall (Forall mappings_set)
    [[Demo.methane; Demo.uncalculated; Demo.ethane]; [Demo.propane_twice]].
Proof. repeat constructor; eexists; reflexivity. Qed.

Lemma extract_model_chemistry_selects_witness :
  @ReferenceDatabase.extract_model_chemistry Demo.chemistry Demo.isodesmic Demo.mixed_db
    "wb97m-v/def2-tzvpd" (Some ["extra"; "main"]) false
  = OK (inl [Demo.propane_twice; Demo.methane; Demo.ethane]).
Proof.
  apply (proj1 (@extract_model_chemistry_selects Demo.chemistry Demo.isodesmic
                  Demo.mixed_db "wb97m-v/def2-tzvpd")
           ["extra"; "main"]
           [[Demo.propane_twice]; [Demo.methane; Demo.uncalculated; Demo.ethane]]).
  - repeat constructor.
  - repeat constructor; eexists; reflexivity.
Defined.

Lemma demo_complete (smiles : string) (rd : reference_data_t) (cd : calculated_data_t)
  (i : Z) (model_chemistry : string) :
  Forall (fun kv => exists t, rde_thermo_data (snd kv) = Assigned (Some t)) rd ->
  Forall (fun kv => exists t, cde_thermo_data (snd kv) = Assigned (Some t)) cd ->
  complete model_chemistry (Demo.stored smiles rd cd i).
Proof.
  intros Hrd Hcd. split.
  - intros rd' E. inversion E. subst rd'. split; [exact Hrd | discriminate].
  - intros cd' entry E Hget. inversion E. subst cd'. clear E.
    induction Hcd as [ | [k v] cd Hv _ IH]; simpl in Hget; [discriminate | ].
    destruct (String.eqb k model_chemistry); [inversion Hget; now subst | now apply IH].
Qed.

Lemma extract_model_chemistry_converts_witness :
  exists converted,
    @ReferenceDatabase.extract_model_chemistry Demo.chemistry Demo.isodesmic Demo.mixed_db
      "wb97m-v/def2-tzvpd" (Some ["main"]) true
    = OK (inr converted)
    /\ Forall2 (fun ref_spcs ecs =>
                  @ReferenceSpecies.to_error_canceling_spcs Demo.chemistry Demo.isodesmic
                    ref_spcs "wb97m-v/def2-tzvpd" None = OK ecs)
               [Demo.methane; Demo.ethane] converted.
Proof.
  apply (@extract_model_chemistry_converts Demo.chemistry Demo.isodesmic
           ltac:(intros; eexists; reflexivity) ltac:(intros; eexists; reflexivity)
           Demo.mixed_db "wb97m-v/def2-tzvpd" ["main"]
           [[Demo.methane; Demo.uncalculated; Demo.ethane]]).
  - repeat constructor.
  - repeat constructor; eexists; reflexivity.
  - change (Forall (complete "wb97m-v/def2-tzvpd") [Demo.methane; Demo.ethane]).
    constructor; [ | constructor; [ | constructor]];
      apply demo_complete; repeat constructor; eexists; reflexivity.
Defined.

(** ** ReferenceDatabase: the model chemistries available *)

Lemma chemistry_of_set_elements (current_set : list ReferenceSpecies) :
  Forall mappings_set current_set ->
  forall model_chemistry_set : gset string,
  exists found : gset string,
    ReferenceDatabase.chemistry_of_set current_set model_chemistry_set = OK found
    /\ forall mc, mc ∈ found <->
                  mc ∈ model_chemistry_set
                  \/ exists r cd, In r current_set
                                  /\ _calculated_data r = Assigned cd
                                  /\ In mc (map fst cd).
Proof.
  induction 1 as [ | r current_set [_ [cd Hcd]] _ IH]; intros acc; simpl.
  - exists acc. split; [reflexivity | ]. intros mc. split; [auto | ].
    intros [? | (r & cd & [] & _)]. assumption.
  - unfold ReferenceSpecies.calculated_data. rewrite Hcd. cbn [getattr bind].
    destruct (IH (acc ∪ list_to_set (map fst cd))) as (found & -> & Hfound).
    exists found. split; [reflexivity | ]. intros mc. rewrite Hfound.
    rewrite elem_of_union, elem_of_list_to_set, list_elem_of_In. split.
    + intros [[Hacc | Hin] | (r' & cd' & Hr' & Hcd' & Hmc)].
      * now left.
      * right. exists r, cd. auto.
      * right. exists r', cd'. auto.
    + intros [Hacc | (r' & cd' & [<- | Hr'] & Hcd' & Hmc)].
      * auto.
      * rewrite Hcd in Hcd'. inversion Hcd'. subst. auto.
      * right. exists r', cd'. auto.
Qed.

Lemma chemistry_of_sets_elements (self : ReferenceDatabase) (names : list string)
  (contents : list (list ReferenceSpecies)) :
  sets_named self names contents ->
  Forall (Forall mappings_set) contents ->
  forall model_chemistry_set : gset string,
  exists found : gset string,
    ReferenceDatabase.chemistry_of_sets self names model_chemistry_set = OK found
    /\ forall mc, mc ∈ found <->
                  mc ∈ model_chemistry_set
                  \/ exists current_set r cd,
                       In current_set contents /\ In r current_set
                       /\ _calculated_data r = Assigned cd /\ In mc (map fst cd).
Proof.
  induction 1 as [ | name current_set names contents Hname _ IH]; intros Hall acc; simpl.
  - exists acc. split; [reflexivity | ]. intros mc. split; [auto | ].
    intros [? | (s & r & cd & [] & _)]. assumption.
  - unfold ReferenceDatabase.get_set. rewrite Hname. cbn [bind].
    destruct (chemistry_of_set_elements current_set (Forall_inv Hall) acc)
      as (found1 & -> & Hfound1).
    cbn [bind].
    destruct (IH (Forall_inv_tail Hall) found1) as (found & -> & Hfound).
    exists found. split; [reflexivity | ]. intros mc. rewrite Hfound, Hfound1. split.
    + intros [[Hacc | (r & cd & Hr & Hcd & Hmc)] | (s & r & cd & Hs & Hr & Hcd & Hmc)].
      * now left.
      * right. exists current_set, r, cd. auto.
      * right. exists s, r, cd. auto.
    + intros [Hacc | (s & r & cd & [<- | Hs] & Hr & Hcd & Hmc)].
      * auto.
      * left. right. exists r, cd. auto.
      * right. exists s, r, cd. auto.
Qed.

Lemma set_names_named (self : ReferenceDatabase) :
  sets_named self (ReferenceDatabase.set_names self)
             (map snd (map_to_list (reference_sets self))).
Proof.
  unfold sets_named, ReferenceDatabase.set_names.
  assert (forall l : list (string * list ReferenceSpecies),
             (forall kv, In kv l -> reference_sets self !! fst kv = Some (snd kv)) ->
             Forall2 (fun name current_set => reference_sets self !! name = Some current_set)
                     (map fst l) (map snd l)) as Hgen.
  { induction l as [ | kv l IH]; intros Hl; simpl; constructor.
    - apply Hl. now left.
    - apply IH. intros kv' Hkv'. apply Hl. now right. }
  apply Hgen. intros [k v] Hkv. simpl.
  apply list_elem_of_In, elem_of_map_to_list in Hkv. exact Hkv.
Qed.

(** X15: when every set asked for is in the database and every species
    holds its mappings, [list_available_chemistry] returns a list without
    repetition whose elements are exactly the keys of [calculated_data] of
    the species of those sets; with [sets] left out these are the species
    of all the sets of the database, whatever the order of its keys. *)
Theorem list_available_chemistry_elements (self : ReferenceDatabase) :
  (forall names contents,
      sets_named self names contents ->
      Forall (Forall mappings_set) contents ->
      exists chemistries,
        ReferenceDatabase.list_available_chemistry self (Some names) = OK chemistries
        /\ NoDup chemistries
        /\ forall mc, In mc chemistries <->
                      exists current_set r cd,
                        In current_set contents /\ In r current_set
                        /\ _calculated_data r = Assigned cd /\ In mc (map fst cd))
  /\ ((forall name current_set r,
          reference_sets self !! name = Some current_set -> In r current_set ->
          mappings_set r) ->
      exists chemistries,
        ReferenceDatabase.list_available_chemistry self None = OK chemistries
        /\ NoDup chemistries
        /\ forall mc, In mc chemistries <->
                      exists name current_set r cd,
                        reference_sets self !! name = Some current_set
                        /\ In r current_set
                        /\ _calculated_data r = Assigned cd /\ In mc (map fst cd)).
Proof.
  assert (forall names contents,
      sets_named self names contents ->
      Forall (Forall mappings_set) contents ->
      exists chemistries,
        ReferenceDatabase.chemistry_of_sets self names ∅ = OK chemistries
        /\ forall mc, In mc (elements chemistries) <->
                      exists current_set r cd,
                        In current_set contents /\ In r current_set
                        /\ _calculated_data r = Assigned cd /\ In mc (map fst cd))
    as Hgen.
  { intros names contents Hnames Hall.
    destruct (chemistry_of_sets_elements self names contents Hnames Hall ∅)
      as (found & Hfound & Hmem).
    exists found. split; [exact Hfound | ]. intros mc.
    rewrite <- list_elem_of_In, elem_of_elements, Hmem. split.
    - intros [Hempty | Hex]; [ | exact Hex]. now apply elem_of_empty in Hempty.
    - auto. }
  split.
  - intros names contents Hnames Hall.
    destruct (Hgen names contents Hnames Hall) as (found & Hfound & Hmem).
    exists (elements found). unfold ReferenceDatabase.list_available_chemistry.
    rewrite Hfound. split; [reflexivity | ]. split; [ | exact Hmem].
    apply NoDup_elements.
  - intros Hall.
    destruct (Hgen (ReferenceDatabase.set_names self)
                (map snd (map_to_list (reference_sets self))) (set_names_named self))
      as (found & Hfound & Hmem).
    { apply List.Forall_forall. intros current_set Hin.
      apply in_map_iff in Hin as ([name s] & <- & Hkv). simpl.
      apply list_elem_of_In, elem_of_map_to_list in Hkv.
      apply List.Forall_forall. intros r Hr. apply (Hall name s r Hkv Hr). }
    exists (elements found). unfold ReferenceDatabase.list_available_chemistry.
    rewrite Hfound. split; [reflexivity | ].
    split; [apply NoDup_elements | ].
    intros mc. rewrite Hmem. split.
    + intros (current_set & r & cd & Hin & Hr & Hcd & Hmc).
      apply in_map_iff in Hin as ([name s] & <- & Hkv). simpl in *.
      apply list_elem_of_In, elem_of_map_to_list in Hkv.
      exists name, s, r, cd. auto.
    + intros (name & current_set & r & cd & Hname & Hr & Hcd & Hmc).
      exists current_set, r, cd. split; [ | auto].
      apply in_map_iff. exists (name, current_set). split; [reflexivity | ].
      apply list_elem_of_In, elem_of_map_to_list. exact Hname.
Qed.

Lemma list_available_chemistry_elements_witness :
  exists chemistries,
    ReferenceDatabase.list_available_chemistry Demo.mixed_db (Some ["main"; "extra"])
    = OK chemistries
    /\ NoDup chemistries
    /\ forall mc, In mc chemistries <->
                  exists current_set r cd,
                    In current_set [[Demo.methane; Demo.uncalculated; Demo.ethane];
                                    [Demo.propane_twice]]
                    /\ In r current_set
                    /\ _calculated_data r = Assigned cd /\ In mc (map fst cd).
Proof.
  apply (proj1 (list_available_chemistry_elements Demo.mixed_db) ["main"; "extra"]).
  - repeat constructor.
  - exact demo_mappings_set.
Defined.

(** ** ReferenceDatabase: species by label and by index *)

Section SpeciesByLabel.

Import ReferenceDatabase.

Variable set_name : string.
Variable search_set : list ReferenceSpecies.

Lemma label_matches_iff (l : string) (r : ReferenceSpecies) :
  label_matches l r = true <-> label (arkane r) = Some l.
Proof.
  unfold label_matches. destruct (label (arkane r)) as [l' | ]; [ | split; discriminate].
  rewrite String.eqb_eq. split; congruence.
Qed.

Lemma find_is_first_with_label (l : string) (ref_spcs : ReferenceSpecies) :
  List.find (label_matches l) search_set = Some ref_spcs <->
  first_with_label search_set l ref_spcs.
Proof.
  unfold first_with_label. induction search_set as [ | r rest IH]; simpl.
  - split; [discriminate | ]. intros (before & after & E & _). now destruct before.
  - destruct (label_matches l r) eqn:Er.
    + apply label_matches_iff in Er. split.
      * intros E. inversion E. subst r. exists [], rest.
        split; [reflexivity | split; [exact Er | intros r' []]].
      * intros (before & after & E & Hl & Hbefore). destruct before as [ | b before].
        -- now inversion E.
        -- inversion E. subst b. exfalso. apply (Hbefore r); [now left | exact Er].
    + assert (label (arkane r) <> Some l) as Hr.
      { intros Hl. apply label_matches_iff in Hl. congruence. }
      rewrite IH. split.
      * intros (before & after & -> & Hl & Hbefore). exists (r :: before), after.
        split; [reflexivity | ]. split; [exact Hl | ].
        intros r' [<- | Hr']; [exact Hr | now apply Hbefore].
      * intros (before & after & E & Hl & Hbefore). destruct before as [ | b before].
        -- inversion E. congruence.
        -- inversion E. exists before, after. split; [reflexivity | ].
           split; [exact Hl | ]. intros r' Hr'. apply Hbefore. now right.
Qed.

Lemma collect_by_label_found (labels : list string) (found acc : list ReferenceSpecies) :
  Forall2 (first_with_label search_set) labels found ->
  collect_by_label set_name search_set labels acc = OK (acc ++ found)%list.
Proof.
  intros Hall. revert acc.
  induction Hall as [ | l r labels found Hl _ IH]; intros acc; simpl.
  - now rewrite app_nil_r.
  - apply find_is_first_with_label in Hl. rewrite Hl, IH, <- app_assoc. reflexivity.
Qed.

Lemma collect_by_label_missing (before : list string) (l : string) (after : list string)
  (found acc : list ReferenceSpecies) :
  Forall2 (first_with_label search_set) before found ->
  (forall r, In r search_set -> label (arkane r) <> Some l) ->
  collect_by_label set_name search_set (before ++ l :: after) acc =
    Raise (ValueError (label_not_found_msg l set_name)).
Proof.
  intros Hall Hnone. revert acc.
  induction Hall as [ | l' r before found Hl' _ IH]; intros acc; simpl.
  - destruct (List.find (label_matches l) search_set) as [r | ] eqn:E; [ | reflexivity].
    apply find_is_first_with_label in E as (b & a & Hset & Hl & _).
    exfalso. apply (Hnone r); [ | exact Hl]. rewrite Hset. apply in_elt.
  - apply find_is_first_with_label in Hl'. rewrite Hl'. apply IH.
Qed.

End SpeciesByLabel.

(** X16: on a set stored under [set_name], [get_species_from_label]
    returns for each requested label, in the order of the request, the
    first species of the set with that label; when a requested label has
    no match (those before it having one) it raises the [ValueError] whose
    message carries that label between double quotes and the set name; a
    name under which no set is stored raises [KeyError]. *)
Theorem get_species_from_label_in_order (self : ReferenceDatabase) (set_name : string)
  (labels : list string) :
  (reference_sets self !! set_name = None ->
   ReferenceDatabase.get_species_from_label self (LabelList labels) set_name =
     Raise (KeyError set_name))
  /\ (forall search_set,
         reference_sets self !! set_name = Some search_set ->
         (forall found,
             Forall2 (first_with_label search_set) labels found ->
             ReferenceDatabase.get_species_from_label self (LabelList labels) set_name
             = OK found)
         /\ (forall before l after found,
                labels = (before ++ l :: after)%list ->
                Forall2 (first_with_label search_set) before found ->
                (forall r, In r search_set -> label (arkane r) <> Some l) ->
                ReferenceDatabase.get_species_from_label self (LabelList labels) set_name
                = Raise (ValueError
                           ("No reference species with label " ++ dquote ++ l ++ dquote ++
                            " was found in reference set " ++ set_name)))).
Proof.
  unfold ReferenceDatabase.get_species_from_label. split.
  - intros ->. reflexivity.
  - intros search_set ->. split.
    + intros found Hall.
      apply (collect_by_label_found set_name search_set labels found [] Hall).
    + intros before l after found -> Hall Hnone.
      apply (collect_by_label_missing set_name search_set before l after found []
               Hall Hnone).
Qed.

(** X17: whenever [get_species_from_index] returns, for a single index or
    for a list, the set named exists and the result holds one species for
    each index requested, in the order requested, each the first species
    of the set with that index: nothing is returned that is not in the set,
    and no index is left out or answered twice. *)
Theorem get_species_from_index_sound (self : ReferenceDatabase) (indices : indices_arg)
  (set_name : string) (found : list ReferenceSpecies) :
  ReferenceDatabase.get_species_from_index self indices set_name = OK found ->
  exists search_set,
    reference_sets self !! set_name = Some search_set
    /\ Forall2 (first_with_index search_set)
               match indices with
               | OneIndex i => [i]
               | IndexList l => l
               end
               found
    /\ Forall (fun r => In r search_set) found.
Proof.
  unfold ReferenceDatabase.get_species_from_index.
  destruct (reference_sets self !! set_name) as [search_set | ]; [ | discriminate].
  set (requested := match indices with OneIndex i => [i] | IndexList l => l end).
  intros Hfound. exists search_set. split; [reflexivity | ].
  assert (Forall2 (first_with_index search_set) requested found) as Hall.
  { destruct (indices_found_or_missing search_set requested)
      as [(found' & Hall) | (before & i & after & found' & Hsplit & Hall & Hnone)].
    - rewrite (collect_by_index_found set_name search_set requested found' [] Hall)
        in Hfound.
      inversion Hfound. now subst.
    - rewrite Hsplit,
        (collect_by_index_missing set_name search_set before i after found' [] Hall Hnone)
        in Hfound.
      discriminate. }
  split; [exact Hall | ].
  clear Hfound. induction Hall as [ | i r l found (b & a & -> & _) _ IH]; constructor.
  - apply in_elt.
  - exact IH.
Qed.

Lemma get_species_from_label_in_order_witness :
  ReferenceDatabase.get_species_from_label Demo.labelled_db
    (LabelList ["ethane"; "methane"]) "main"
  = OK [Demo.labelled "ethane" Demo.ethane; Demo.labelled "methane" Demo.methane].
Proof.
  apply (proj1 (proj2 (get_species_from_label_in_order Demo.labelled_db "main"
                         ["ethane"; "methane"])
                  [Demo.labelled "methane" Demo.methane; Demo.labelled "ethane" Demo.ethane;
                   Demo.labelled "methane" Demo.methane_again] eq_refl)).
  constructor; [ | constructor; [ | constructor]].
  - exists [Demo.labelled "methane" Demo.methane],
      [Demo.labelled "methane" Demo.methane_again].
    repeat split. intros r [<- | []]. discriminate.
  - exists [], [Demo.labelled "ethane" Demo.ethane;
                Demo.labelled "methane" Demo.methane_again].
    repeat split. intros r [].
Defined.

Lemma get_species_from_index_sound_witness :
  exists search_set,
    reference_sets Demo.indexed_db !! "main" = Some search_set
    /\ Forall2 (first_with_index search_set) [2%Z] [Demo.ethane]
    /\ Forall (fun r => In r search_set) [Demo.ethane].
Proof.
  apply (get_species_from_index_sound Demo.indexed_db (OneIndex 2) "main" [Demo.ethane]).
  vm_compute. reflexivity.
Defined.

(** ** ReferenceDatabase: what a call of load writes *)

Section LoadEffect.

Import ReferenceDatabase.

Context `{Collaborators} `{Storage}.

Lemma load_file_effect (path set_name spcs : string)
  (lists : list Molecule * list ReferenceSpecies) :
  exists r new_log,
    forall w, load_file path set_name spcs lists w =
                (r, {| self_db := self_db w; logged := logged w ++ new_log |}).
Proof.
  unfold load_file, io_bind, io_lift, logging, io_ret.
  destruct (load_yaml (os_path_join path spcs)) as [ref_spcs | e].
  - destruct (Molecule_fromAdjacencyList (adjacency_list (arkane ref_spcs)))
      as [molecule | e].
    + destruct (lacks_data ref_spcs) as [[ | ] | e].
      * eexists _, [_]. intros w. reflexivity.
      * destruct (existsb (fun mol => isIsomorphic molecule mol) (fst lists)).
        -- eexists _, [_]. intros w. reflexivity.
        -- eexists _, []. intros [db log]. simpl. now rewrite app_nil_r.
      * eexists _, []. intros [db log]. simpl. now rewrite app_nil_r.
    + eexists _, []. intros [db log]. simpl. now rewrite app_nil_r.
  - eexists _, []. intros [db log]. simpl. now rewrite app_nil_r.
Qed.

Lemma load_files_effect (path set_name : string) (spcs_files : list string) :
  forall lists : list Molecule * list ReferenceSpecies,
  exists r new_log,
    forall w, load_files path set_name spcs_files lists w =
                (r, {| self_db := self_db w; logged := logged w ++ new_log |}).
Proof.
  induction spcs_files as [ | spcs spcs_files IH]; intros lists; simpl.
  - exists (OK lists), []. intros [db log]. unfold io_ret. simpl. now rewrite app_nil_r.
  - destruct (load_file_effect path set_name spcs lists) as ([lists' | e] & log1 & Hfile).
    + destruct (IH lists') as (r & log2 & Hrest).
      exists r, (log1 ++ log2)%list. intros w. unfold io_bind.
      rewrite Hfile, Hrest. simpl. now rewrite app_assoc.
    + exists (Raise e), log1. intros w. unfold io_bind. now rewrite Hfile.
Qed.

(** The outcome of the loop over the directories, the sets it assigns and
    the records it logs, none of which depends on the world it starts
    from; the sets assigned are those of the directories before the one
    that raises, or of all of them. *)
Lemma load_paths_effect (paths : list string) :
  forall molecule_list : list Molecule,
  exists r named new_log,
    ((r = OK tt /\ map fst named = map os_path_basename paths)
     \/ (exists e before path after,
            r = Raise e /\ paths = (before ++ path :: after)%list
            /\ map fst named = map os_path_basename before))
    /\ forall w,
         load_paths paths molecule_list w =
           (r, {| self_db :=
                    {| reference_sets := assign_sets named (reference_sets (self_db w)) |};
                  logged := logged w ++ new_log |}).
Proof.
  induction paths as [ | path paths IH]; intros molecule_list; simpl.
  - exists (OK tt), [], []. split; [left; auto | ].
    intros [[sets] log]. unfold io_ret. simpl. now rewrite app_nil_r.
  - unfold io_bind at 1, logging at 1. unfold io_bind at 1, io_lift at 1.
    destruct (os_listdir path) as [spcs_files | e].
    + destruct (load_files_effect path (os_path_basename path) spcs_files
                  (molecule_list, [])) as ([lists | e] & log1 & Hfiles).
      * destruct (IH (fst lists)) as (r & named & log2 & Hshape & Hrest).
        exists r, ((os_path_basename path, snd lists) :: named),
          (LogInfo (loading_msg (os_path_basename path) path) :: log1 ++ log2)%list.
        split.
        -- destruct Hshape as [[-> Hnames] | (e & before & p & after & -> & -> & Hnames)].
           ++ left. simpl. now rewrite Hnames.
           ++ right. exists e, (path :: before), p, after. simpl. now rewrite Hnames.
        -- intros w. unfold io_bind at 1. rewrite Hfiles.
           unfold io_bind at 1, set_reference_set at 1. rewrite Hrest. simpl.
           rewrite <- !app_assoc. reflexivity.
      * exists (Raise e), [],
          (LogInfo (loading_msg (os_path_basename path) path) :: log1)%list.
        split; [right; exists e, [], path, paths; auto | ].
        intros [[sets] log]. unfold io_bind at 1. rewrite Hfiles. simpl.
        now rewrite <- app_assoc.
    + exists (Raise e), [], [LogInfo (loading_msg (os_path_basename path) path)].
      split; [right; exists e, [], path, paths; auto | ].
      intros [[sets] log]. reflexivity.
Qed.

(** X18: whatever the files hold, a call of [load] is the same whatever
    the database and the log held before it: the same result or
    exception, the same sets assigned in the same order, the same records
    appended to the log.  The call never reads the sets stored by an
    earlier call, so a structure loaded by an earlier call is no
    duplicate for it.  When it raises, the sets assigned are those of the
    directories before the one that failed; when it returns, those of all
    the directories. *)
Theorem load_effect_independent_of_database (paths : list string) :
  paths <> [] ->
  exists r named new_log,
    ((r = OK tt /\ map fst named = map os_path_basename paths)
     \/ (exists e before path after,
            r = Raise e /\ paths = (before ++ path :: after)%list
            /\ map fst named = map os_path_basename before))
    /\ forall w,
         load (PathList paths) w =
           (r, {| self_db :=
                    {| reference_sets := assign_sets named (reference_sets (self_db w)) |};
                  logged := logged w ++ new_log |}).
Proof.
  intros Hne. destruct (load_paths_effect paths []) as (r & named & new_log & Hshape & Hw).
  exists r, named, new_log. split; [exact Hshape | ].
  intros w. unfold load. destruct paths; [congruence | apply Hw].
Qed.

(** X19: whether it returns or raises, a call of [load] leaves every set
    whose name is the last segment of none of the paths as it was, and
    only appends to the log. *)
Theorem load_leaves_other_sets (paths : list string) (w : world) (set_name : string) :
  paths <> [] ->
  ~ In set_name (map os_path_basename paths) ->
  reference_sets (self_db (snd (load (PathList paths) w))) !! set_name
  = reference_sets (self_db w) !! set_name
  /\ exists new_log, logged (snd (load (PathList paths) w)) = (logged w ++ new_log)%list.
Proof.
  intros Hne Hname.
  destruct (load_paths_effect paths []) as (r & named & new_log & Hshape & Hw).
  assert (load (PathList paths) w = load_paths paths [] w) as ->
      by (unfold load; destruct paths; [congruence | reflexivity]).
  rewrite Hw. simpl. split; [ | eauto].
  apply assign_sets_other. intros ns Hns Heq. apply Hname.
  assert (In set_name (map fst named)) as Hin
      by (rewrite <- Heq; apply in_map; exact Hns).
  destruct Hshape as [[_ Hnames] | (e & before & p & after & _ & -> & Hnames)];
    rewrite Hnames in Hin; [exact Hin | ].
  rewrite map_app. apply in_or_app. now left.
Qed.

End LoadEffect.

Lemma load_effect_independent_of_database_witness :
  exists r named new_log,
    ((r = OK tt
      /\ map fst named = map (@os_path_basename Demo.storage) ["/sets/extra"; "/nowhere"])
     \/ (exists e before path after,
            r = Raise e /\ ["/sets/extra"; "/nowhere"] = (before ++ path :: after)%list
            /\ map fst named = map (@os_path_basename Demo.storage) before))
    /\ forall w,
         @ReferenceDatabase.load Demo.chemistry Demo.storage
           (PathList ["/sets/extra"; "/nowhere"]) w =
           (r, {| self_db :=
                    {| reference_sets := assign_sets named (reference_sets (self_db w)) |};
                  logged := logged w ++ new_log |}).
Proof.
  apply (@load_effect_independent_of_database Demo.chemistry Demo.storage
           ["/sets/extra"; "/nowhere"]).
  discriminate.
Defined.

Lemma load_leaves_other_sets_witness :
  reference_sets
    (self_db (snd (@ReferenceDatabase.load Demo.chemistry Demo.storage
                     (PathList ["/sets/extra"; "/nowhere"])
                     {| self_db := Demo.indexed_db; logged := [] |})))
    !! "main"
  = reference_sets Demo.indexed_db !! "main"
  /\ exists new_log,
       logged (snd (@ReferenceDatabase.load Demo.chemistry Demo.storage
                      (PathList ["/sets/extra"; "/nowhere"])
                      {| self_db := Demo.indexed_db; logged := [] |}))
       = ([] ++ new_log)%list.
Proof.
  apply (@load_leaves_other_sets Demo.chemistry Demo.storage
           ["/sets/extra"; "/nowhere"]
           {| self_db := Demo.indexed_db; logged := [] |} "main").
  - discriminate.
  - intros Hin. vm_compute in Hin. destruct Hin as [E | [E | []]]; discriminate.
Defined.

(** The second directory does not exist: the call raises, the set of the
    first directory is stored all the same, and [main] is as it was. *)
Example load_aborts_after_first_directory :
  @ReferenceDatabase.load Demo.chemistry Demo.storage
    (PathList ["/sets/extra"; "/nowhere"])
    {| self_db := Demo.indexed_db; logged := [] |}
  = (Raise (OSError "/nowhere"),
     {| self_db :=
          {| reference_sets :=
               <["extra" := [Demo.propane; Demo.methane]]>
                 (reference_sets Demo.indexed_db) |};
        logged :=
          [LogInfo "Loading in reference set `extra` from /sets/extra ...";
           LogInfo "Loading in reference set `nowhere` from /nowhere ..."] |}).
Proof. vm_compute. reflexivity. Qed.

(** ** ReferenceDatabase: the species a call of load stores *)

Section LoadedSpecies.

Import ReferenceDatabase.

Context `{Collaborators} `{Storage}.

(** X20: after a call of [load] on directories whose files all
    deserialise, every species of the set stored under the name of a
    directory (a name no later path of the call has) holds a non-empty
    [calculated_data] and a non-empty [reference_data]; for such a species
    [extract_model_chemistry] keeps it exactly when the model chemistry is
    a key of its [calculated_data]. *)
Theorem loaded_species_have_data (paths1 : list string) (path : string)
  (paths2 : list string) (sets1 : list (list entry)) (entries : list entry)
  (sets2 : list (list entry)) (w : world) :
  Forall2 readable_set (paths1 ++ path :: paths2) (sets1 ++ entries :: sets2) ->
  List.length paths1 = List.length sets1 ->
  (forall p, In p paths2 -> os_path_basename p <> os_path_basename path) ->
  exists loaded,
    reference_sets (self_db (snd (load (PathList (paths1 ++ path :: paths2)) w)))
      !! os_path_basename path = Some loaded
    /\ Forall (fun r =>
                 has_data r = true
                 /\ forall model_chemistry,
                      usable model_chemistry r = true <->
                      exists cd, _calculated_data r = Assigned cd
                                 /\ In model_chemistry (map fst cd))
              loaded.
Proof.
  intros Hsets Hlen Hlater.
  destruct (load_paths_readable _ _ Hsets [] w) as (new_log & Hload & _).
  assert (load (PathList (paths1 ++ path :: paths2)) w
          = load_paths (paths1 ++ path :: paths2) [] w) as ->
      by (unfold load; destruct paths1; reflexivity).
  rewrite Hload. simpl.
  rewrite (assign_sets_lookup paths1 path paths2 Hlater sets1 entries sets2 []
             (reference_sets (self_db w)) Hlen).
  eexists. split; [reflexivity | ].
  apply Forall_map.
  eapply Forall_impl; [apply accept_has_data | ].
  intros [r m] Hdata. simpl in *. split; [exact Hdata | ].
  intros mc. unfold has_data in Hdata. unfold usable.
  destruct (_calculated_data r) as [ | cd]; [discriminate | ].
  destruct (_reference_data r) as [ | rd]; [discriminate | ].
  apply andb_true_iff in Hdata as [_ Hrd]. rewrite Hrd. split.
  - destruct (dict_get cd mc) as [e | ] eqn:Hget; [ | discriminate].
    intros _. exists cd. split; [reflexivity | ].
    clear - Hget. induction cd as [ | [k v] cd IH]; simpl in *; [discriminate | ].
    destruct (String.eqb k mc) eqn:E; [left; now apply String.eqb_eq | right; auto].
  - intros (cd' & Hcd' & Hin). inversion Hcd'. subst cd'.
    destruct (dict_get_key cd mc Hin) as (v & -> & _). reflexivity.
Qed.

End LoadedSpecies.

Lemma loaded_species_have_data_witness :
  exists loaded,
    reference_sets
      (self_db (snd (@ReferenceDatabase.load Demo.chemistry Demo.storage
                       (PathList ["/db/reference_sets/main"; "/sets/extra"])
                       Demo.empty_world)))
      !! "main" = Some loaded
    /\ Forall (fun r =>
                 has_data r = true
                 /\ forall model_chemistry,
                      usable model_chemistry r = true <->
                      exists cd, _calculated_data r = Assigned cd
                                 /\ In model_chemistry (map fst cd))
              loaded.
Proof.
  apply (@loaded_species_have_data Demo.chemistry Demo.storage
           [] "/db/reference_sets/main" ["/sets/extra"]
           [] Demo.main_entries [Demo.extra_entries] Demo.empty_world
           demo_sets_readable eq_refl).
  intros p [<- | []]. discriminate.
Defined.

Lemma thermo_setter_keeps_conformer (value : PyVal) (self self' : CalculatedDataEntry) :
  CalculatedDataEntry.set_thermo_data value self = OK self' ->
  cde_conformer self' = cde_conformer self.
Proof.
  unfold CalculatedDataEntry.set_thermo_data.
  destruct (truthy value); [destruct value | ]; intros E; inversion E; reflexivity.
Qed.

(** ** ReferenceSpecies: what the constructor leaves *)

Section Constructed.

Context `{Isodesmic}.

Lemma init_inv (a : init_args) (self : ReferenceSpecies) :
  ReferenceSpecies.init a = OK self ->
  exists species base rd cd,
    ReferenceSpecies.identity a = OK species
    /\ ArkaneSpecies_init species (arg_label a) (arg_kwargs a) = OK base
    /\ ReferenceSpecies.reference_data_setter (arg_reference_data a) Unassigned = OK rd
    /\ ReferenceSpecies.calculated_data_setter (arg_calculated_data a) Unassigned = OK cd
    /\ self =
         {| arkane :=
              if int_given (arg_symmetry_number a) then
                {| smiles := smiles base; adjacency_list := adjacency_list base;
                   label := label base; symmetry_number := arg_symmetry_number a |}
              else base;
            _reference_data := rd;
            _calculated_data := cd;
            index := arg_index a;
            cas_number := arg_cas_number a;
            preferred_reference := arg_preferred_reference a;
            default_xyz_chemistry := arg_default_xyz_chemistry a |}.
Proof.
  unfold ReferenceSpecies.init.
  destruct (ReferenceSpecies.identity a) as [species | e] eqn:Hid; [ | discriminate].
  cbn [bind].
  destruct (ArkaneSpecies_init species (arg_label a) (arg_kwargs a)) as [base | e]
    eqn:Hbase; [ | discriminate].
  cbn [bind].
  destruct (ReferenceSpecies.reference_data_setter (arg_reference_data a) Unassigned)
    as [rd | e] eqn:Hrd; [ | discriminate].
  cbn [bind].
  destruct (ReferenceSpecies.calculated_data_setter (arg_calculated_data a) Unassigned)
    as [cd | e] eqn:Hcd; [ | discriminate].
  cbn [bind]. intros E. inversion E. exists species, base, rd, cd.
  repeat split; assumption.
Qed.

(** X21: a constructed species carries the index, the CAS number, the
    preferred reference and the default geometry chemistry it was given,
    and the SMILES, adjacency list and label the parent class computed; its
    symmetry number is the one given when that is a non-zero number, and
    the parent's otherwise (a symmetry number of 0 is taken as not
    given). *)
Theorem init_stores_arguments (a : init_args) (self : ReferenceSpecies) :
  ReferenceSpecies.init a = OK self ->
  index self = arg_index a
  /\ cas_number self = arg_cas_number a
  /\ preferred_reference self = arg_preferred_reference a
  /\ default_xyz_chemistry self = arg_default_xyz_chemistry a
  /\ exists species base,
       ReferenceSpecies.identity a = OK species
       /\ ArkaneSpecies_init species (arg_label a) (arg_kwargs a) = OK base
       /\ smiles (arkane self) = smiles base
       /\ adjacency_list (arkane self) = adjacency_list base
       /\ label (arkane self) = label base
       /\ symmetry_number (arkane self) =
            match arg_symmetry_number a with
            | Some 0%Z | None => symmetry_number base
            | Some n => Some n
            end.
Proof.
  intros Hinit. destruct (init_inv a self Hinit) as (species & base & rd & cd & Hid & Hbase
                                                     & _ & _ & ->).
  cbn [index cas_number preferred_reference default_xyz_chemistry arkane].
  repeat (split; [reflexivity | ]).
  exists species, base. split; [exact Hid | ]. split; [exact Hbase | ].
  destruct (arg_symmetry_number a) as [[ | n | n] | ]; simpl; auto.
Qed.

(** X22: a species constructed with no reference data and no calculated
    data (None or any falsy value for both) is constructed with two empty
    mappings, and it resolves nothing: [get_reference_enthalpy] raises the
    "No reference data" [ValueError] for every source, and
    [to_error_canceling_spcs] raises the "not available" [KeyError] for
    every model chemistry and source. *)
Theorem constructed_without_data (a : init_args) (self : ReferenceSpecies) :
  truthy (arg_reference_data a) = false ->
  truthy (arg_calculated_data a) = false ->
  ReferenceSpecies.init a = OK self ->
  _reference_data self = Assigned []
  /\ _calculated_data self = Assigned []
  /\ (forall src,
         ReferenceSpecies.get_reference_enthalpy self src =
           Raise (ValueError ("No reference data is included for species " ++
                              ReferenceSpecies.repr self)))
  /\ (forall model_chemistry src,
         ReferenceSpecies.to_error_canceling_spcs self model_chemistry src =
           Raise (KeyError ("Model chemistry `" ++ model_chemistry ++
                            "` not available for species " ++ ReferenceSpecies.repr self))).
Proof.
  intros Hrd Hcd Hinit.
  destruct (init_inv a self Hinit) as (species & base & rd & cd & _ & _ & Hr & Hc & Hself).
  rewrite (proj1 (setter_falsy _ Hrd)) in Hr. rewrite (proj2 (setter_falsy _ Hcd)) in Hc.
  inversion Hr. inversion Hc. subst rd cd.
  assert (_reference_data self = Assigned []) as Hsr by (rewrite Hself; reflexivity).
  assert (_calculated_data self = Assigned []) as Hsc by (rewrite Hself; reflexivity).
  split; [exact Hsr | ]. split; [exact Hsc | ]. split.
  - intros src. unfold ReferenceSpecies.get_reference_enthalpy,
      ReferenceSpecies.reference_data.
    rewrite Hsr. reflexivity.
  - intros mc src. unfold ReferenceSpecies.to_error_canceling_spcs,
      ReferenceSpecies.calculated_data.
    rewrite Hsc. reflexivity.
Qed.

End Constructed.

Lemma init_stores_arguments_witness :
  index Demo.surveyed = Some 7%Z
  /\ cas_number Demo.surveyed = None
  /\ preferred_reference Demo.surveyed = None
  /\ default_xyz_chemistry Demo.surveyed = None
  /\ exists species base,
       @ReferenceSpecies.identity Demo.chemistry
         (Demo.species_args "C" Demo.three_sources Demo.one_chemistry (Some 7%Z))
       = OK species
       /\ @ArkaneSpecies_init Demo.chemistry species None [] = OK base
       /\ smiles (arkane Demo.surveyed) = smiles base
       /\ adjacency_list (arkane Demo.surveyed) = adjacency_list base
       /\ label (arkane Demo.surveyed) = label base
       /\ symmetry_number (arkane Demo.surveyed) = symmetry_number base.
Proof.
  apply (@init_stores_arguments Demo.chemistry
           (Demo.species_args "C" Demo.three_sources Demo.one_chemistry (Some 7%Z))
           Demo.surveyed).
  reflexivity.
Defined.

Lemma constructed_without_data_witness :
  _reference_data (Demo.stored "C" [] [] 1) = Assigned []
  /\ _calculated_data (Demo.stored "C" [] [] 1) = Assigned []
  /\ (forall src,
         ReferenceSpecies.get_reference_enthalpy (Demo.stored "C" [] [] 1) src =
           Raise (ValueError ("No reference data is included for species " ++
                              ReferenceSpecies.repr (Demo.stored "C" [] [] 1))))
  /\ (forall model_chemistry src,
         @ReferenceSpecies.to_error_canceling_spcs Demo.chemistry Demo.isodesmic
           (Demo.stored "C" [] [] 1) model_chemistry src =
           Raise (KeyError ("Model chemistry `" ++ model_chemistry ++
                            "` not available for species " ++
                            ReferenceSpecies.repr (Demo.stored "C" [] [] 1)))).
Proof.
  apply (@constructed_without_data Demo.chemistry Demo.isodesmic
           (Demo.smiles_and_inchi "C" "InChI=1S/CH4/h1H4") (Demo.stored "C" [] [] 1));
    reflexivity.
Defined.

(** ** ReferenceSpecies: a calculated entry without a conformer *)

(** X23: the conformer of a CalculatedDataEntry may be None (the setter
    stores a falsy value as None).  When the entry under
    [default_xyz_chemistry] was constructed with such a conformer,
    [get_default_xyz] raises [AttributeError]: the geometry is missing
    although the chemistry is set and is a key of [calculated_data]. *)
Theorem default_xyz_without_conformer (self : ReferenceSpecies) (chem : string)
  (cd : calculated_data_t) (conformer thermo_data : PyVal)
  (t1_diagnostic fod : option float) (calc_data : CalculatedDataEntry) :
  truthy conformer = false ->
  CalculatedDataEntry.init conformer thermo_data t1_diagnostic fod = OK calc_data ->
  default_xyz_chemistry self = Some chem -> chem <> EmptyString ->
  _calculated_data self = Assigned cd ->
  dict_get cd chem = Some calc_data ->
  CalculatedDataEntry.conformer calc_data = OK None
  /\ ReferenceSpecies.get_default_xyz self = Raise (AttributeError "number").
Proof.
  intros Hfalsy Hinit Hchem Hne Hcd Hget.
  assert (cde_conformer calc_data = Assigned None) as Hconf.
  { unfold CalculatedDataEntry.init, CalculatedDataEntry.set_conformer in Hinit.
    rewrite Hfalsy in Hinit. cbn [bind] in Hinit.
    destruct (CalculatedDataEntry.set_thermo_data thermo_data _) as [e | e] eqn:Hset;
      [ | discriminate].
    cbn [bind] in Hinit. inversion Hinit. simpl.
    apply thermo_setter_keeps_conformer in Hset. now rewrite Hset. }
  split.
  - unfold CalculatedDataEntry.conformer. now rewrite Hconf.
  - unfold ReferenceSpecies.get_default_xyz, ReferenceSpecies.calculated_data, getitem.
    rewrite Hchem, (given_nonempty chem Hne), Hcd. cbn [getattr bind].
    rewrite Hget. cbn [bind]. unfold CalculatedDataEntry.conformer. now rewrite Hconf.
Qed.

Lemma default_xyz_without_conformer_witness :
  CalculatedDataEntry.conformer Demo.no_geometry_entry = OK None
  /\ ReferenceSpecies.get_default_xyz Demo.no_geometry = Raise (AttributeError "number").
Proof.
  apply (default_xyz_without_conformer Demo.no_geometry "hf"
           [("hf", Demo.no_geometry_entry)] PyNone
           (PyThermoData (Demo.thermo 1%float 1%float)) None None Demo.no_geometry_entry);
    try reflexivity.
  discriminate.
Defined.
